(** * MX_Local_DNS: scope state, cache layer and REST normalisation

    A shallow embedding of the Python sources

      - [meraki_tools/meraki_api_utils.py]  (class [MerakiAPIWrapper])
      - [local_dns_logic.py]                (module-level functions)
      - [project_logic.py]                  (class [ProjectLogic])

    Python values are an inductive type, Python exceptions are the
    [Raise] branch of a result type, instance attributes and module
    globals are records threaded through a state-and-exception monad,
    and everything outside the process (environment variable, HTTP
    transport, vendor SDK) is a [World] of oracles. *)

From stdpp Require Import base strings list gmap fin_maps.

Set Warnings "-register-all".

Open Scope string_scope.
Open Scope list_scope.
Open Scope Z_scope.

(** ** Python values *)

(** The values that flow through the code: what [json] parsing yields
    and what the functions build.  JSON numbers are kept as integers. *)
Inductive pyval : Type :=
  | PNone
  | PBool (b : bool)
  | PInt (n : Z)
  | PStr (s : string)
  | PList (l : list pyval)
  | PDict (d : list (string * pyval)).

(** Name of the type of a value, as [type(v).__name__]. *)
Definition type_name (v : pyval) : string :=
  match v with
  | PNone => "NoneType"
  | PBool _ => "bool"
  | PInt _ => "int"
  | PStr _ => "str"
  | PList _ => "list"
  | PDict _ => "dict"
  end.

(** Truth value of an object in a condition ([if v:], [not v]). *)
Definition truthy (v : pyval) : bool :=
  match v with
  | PNone => false
  | PBool b => b
  | PInt n => negb (n =? 0)
  | PStr s => negb (String.eqb s "")
  | PList l => negb (Nat.eqb (length l) 0)
  | PDict d => negb (Nat.eqb (length d) 0)
  end.

(** Truth value of an [Optional[str]]. *)
Definition str_truthy (o : option string) : bool :=
  match o with
  | Some s => negb (String.eqb s "")
  | None => false
  end.

(** An [Optional[str]] as a value. *)
Definition of_opt_str (o : option string) : pyval :=
  match o with
  | Some s => PStr s
  | None => PNone
  end.

(** Lookup in a dict given as its items. *)
Fixpoint assoc (k : string) (d : list (string * pyval)) : option pyval :=
  match d with
  | [] => None
  | (k', v) :: d' => if String.eqb k k' then Some v else assoc k d'
  end.

(** ** Exceptions *)

(** A response of the [requests] library: status code and body text. *)
Record Response : Type := mkResponse {
  status_code : Z;
  text : string;
}.

(** Faults raised by the interpreter on ill-typed operations. *)
Inductive py_fault : Type :=
  | NoAttribute (ty attr : string)     (* AttributeError *)
  | NoLen (ty : string)                (* TypeError: len() *)
  | NotIterable (ty : string)          (* TypeError: for ... in v *)
  | NotContainer (ty : string)         (* TypeError: k in v *)
  | BadSubscript (ty : string)         (* TypeError: v[k] *)
  | MissingKey (k : string)            (* KeyError *)
  | Unhashable (ty : string)           (* TypeError: dict key *)
  | BadJoin (ty : string).             (* TypeError: str.join *)

(** Exceptions, by the class the [except] clauses see.  The transport
    classes are those of [requests.exceptions]: [HTTPError],
    [ConnectionError] and [Timeout] derive from [RequestException];
    [ConnectTimeout] derives from both [ConnectionError] and [Timeout].
    [APIError] is [meraki.APIError]. *)
Inductive exn : Type :=
  | HTTPError (response : option Response)
  | ConnectionError (msg : string)
  | ConnectTimeout (msg : string)
  | Timeout (msg : string)
  | RequestException (msg : string)
  | APIError (status : Z) (message : pyval)
  | Fault (f : py_fault)
  | OtherException (msg : string).

Inductive result (A : Type) : Type :=
  | Ok (a : A)
  | Raise (e : exn).
Arguments Ok {A} a.
Arguments Raise {A} e.

(** ** The world outside the process *)

Record http_request : Type := mkRequest {
  req_method : string;
  req_url : string;
  req_headers : gmap string string;
  req_data : option string;
}.

(** What [requests.request] does: a response, or an exception. *)
Inductive http_outcome : Type :=
  | Responds (r : Response)
  | Fails (e : exn).

(** Calls that leave the process, in the order they are issued. *)
Inductive io_event : Type :=
  | HttpCall (rq : http_request)
  | SdkGetOrganizations
  | SdkGetOrganizationNetworks (organization_id : string).

(** The outside world.  Every oracle sees the calls issued so far, so
    a server may answer the same request differently over time. *)
Record World : Type := mkWorld {
  getenv_MK_CSM_KEY : option string;
  getenv_MERAKI_DASHBOARD_API_KEY : option string;
  requests_request : list io_event -> http_request -> http_outcome;
  response_json : string -> result pyval;
  json_dumps : pyval -> string;
  getOrganizations : list io_event -> result pyval;
  getOrganizationNetworks : list io_event -> string -> result pyval;
  exn_str : exn -> string;
}.

(** ** State and exceptions *)

(** A computation over a store [S]: it reads the store and the calls
    issued so far, and returns a value or raises, with the new store
    and the extended list of calls. *)
Definition M (S A : Type) : Type :=
  S -> list io_event -> result A * S * list io_event.

Definition ret {S A} (a : A) : M S A := fun s tr => (Ok a, s, tr).

Definition raise {S A} (e : exn) : M S A := fun s tr => (Raise e, s, tr).

Definition bind {S A B} (c : M S A) (k : A -> M S B) : M S B :=
  fun s tr =>
    match c s tr with
    | (Ok a, s', tr') => k a s' tr'
    | (Raise e, s', tr') => (Raise e, s', tr')
    end.

(** [try: c except Exception as e: h e]. *)
Definition try_except {S A} (c : M S A) (h : exn -> M S A) : M S A :=
  fun s tr =>
    match c s tr with
    | (Ok a, s', tr') => (Ok a, s', tr')
    | (Raise e, s', tr') => h e s' tr'
    end.

Definition get {S} : M S S := fun s tr => (Ok s, s, tr).

Definition modify {S} (f : S -> S) : M S unit := fun s tr => (Ok tt, f s, tr).

Definition lift {S A} (r : result A) : M S A := fun s tr => (r, s, tr).

(** Issue a call: the oracle sees the earlier calls, the call is logged. *)
Definition call {S A} (ev : io_event) (oracle : list io_event -> A) : M S A :=
  fun s tr => (Ok (oracle tr), s, tr ++ [ev]).

Notation "x <- c ;; k" := (bind c (fun x => k))
  (at level 100, c at next level, right associativity).
Notation "c ;;; k" := (bind c (fun _ => k))
  (at level 100, right associativity).

(** Monadic loop over a list, left to right, with an accumulator. *)
Fixpoint for_each {S A B} (f : B -> A -> M S B) (l : list A) (acc : B) : M S B :=
  match l with
  | [] => ret acc
  | x :: l' => acc' <- f acc x ;; for_each f l' acc'
  end.

(** ** Operations on Python values *)

Definition py_len (v : pyval) : result nat :=
  match v with
  | PStr s => Ok (String.length s)
  | PList l => Ok (length l)
  | PDict d => Ok (length d)
  | _ => Raise (Fault (NoLen (type_name v)))
  end.

(** [v.get(k, dflt)]. *)
Definition py_get (v : pyval) (k : string) (dflt : pyval) : result pyval :=
  match v with
  | PDict d => Ok (default dflt (assoc k d))
  | _ => Raise (Fault (NoAttribute (type_name v) "get"))
  end.

(** [v[k]] for a string [k]. *)
Definition py_item (v : pyval) (k : string) : result pyval :=
  match v with
  | PDict d =>
      match assoc k d with
      | Some x => Ok x
      | None => Raise (Fault (MissingKey k))
      end
  | _ => Raise (Fault (BadSubscript (type_name v)))
  end.

Definition is_substring (k s : string) : bool :=
  match String.index 0 k s with
  | Some _ => true
  | None => false
  end.

Definition is_PStr (k : string) (v : pyval) : bool :=
  match v with
  | PStr s => String.eqb s k
  | _ => false
  end.

(** [k in v] for a string [k]. *)
Definition py_in (k : string) (v : pyval) : result bool :=
  match v with
  | PDict d => Ok (bool_decide (is_Some (assoc k d)))
  | PList l => Ok (existsb (is_PStr k) l)
  | PStr s => Ok (is_substring k s)
  | _ => Raise (Fault (NotContainer (type_name v)))
  end.

(** [isinstance(v, dict) and "error" in v]. *)
Definition is_error (v : pyval) : bool :=
  match v with
  | PDict d => bool_decide (is_Some (assoc "error" d))
  | _ => false
  end.

Fixpoint chars (s : string) : list pyval :=
  match s with
  | EmptyString => []
  | String c s' => PStr (String c EmptyString) :: chars s'
  end.

(** The elements a [for] loop visits. *)
Definition py_iter (v : pyval) : result (list pyval) :=
  match v with
  | PList l => Ok l
  | PDict d => Ok (map (fun kv => PStr (fst kv)) d)
  | PStr s => Ok (chars s)
  | _ => Raise (Fault (NotIterable (type_name v)))
  end.

(** Keys of the dicts the code builds from ids.  [True == 1] and
    [False == 0] in Python, so booleans and integers share keys;
    lists and dicts are unhashable. *)
Inductive hkey : Type :=
  | HNone
  | HInt (n : Z)
  | HStr (s : string).

Global Instance hkey_eq_dec : EqDecision hkey.
Proof. solve_decision. Defined.

Definition hkey_encode (k : hkey) : option (Z + string) :=
  match k with
  | HNone => None
  | HInt n => Some (inl n)
  | HStr s => Some (inr s)
  end.

Definition hkey_decode (o : option (Z + string)) : hkey :=
  match o with
  | None => HNone
  | Some (inl n) => HInt n
  | Some (inr s) => HStr s
  end.

Global Instance hkey_countable : Countable hkey.
Proof.
  apply (inj_countable' hkey_encode hkey_decode).
  intros []; reflexivity.
Defined.

Definition py_hash (v : pyval) : result hkey :=
  match v with
  | PNone => Ok HNone
  | PBool b => Ok (HInt (if b then 1 else 0))
  | PInt n => Ok (HInt n)
  | PStr s => Ok (HStr s)
  | _ => Raise (Fault (Unhashable (type_name v)))
  end.

(** [m[k] = v] on a dict keyed by ids. *)
Definition hmap_set {A} (m : gmap hkey A) (k : pyval) (v : A) : result (gmap hkey A) :=
  match py_hash k with
  | Ok h => Ok (<[h := v]> m)
  | Raise e => Raise e
  end.

(** [m.get(k)] on a dict keyed by ids. *)
Definition hmap_get {A} (m : gmap hkey A) (k : pyval) : result (option A) :=
  match py_hash k with
  | Ok h => Ok (m !! h)
  | Raise e => Raise e
  end.

Fixpoint join_strs (sep : string) (l : list string) : string :=
  match l with
  | [] => ""
  | [s] => s
  | s :: l' => s +:+ sep +:+ join_strs sep l'
  end.

Fixpoint all_strs (l : list pyval) : option (list string) :=
  match l with
  | [] => Some []
  | PStr s :: l' =>
      match all_strs l' with
      | Some r => Some (s :: r)
      | None => None
      end
  | _ :: _ => None
  end.

(** [sep.join(v)]. *)
Definition py_join (sep : string) (v : pyval) : result string :=
  match py_iter v with
  | Ok l =>
      match all_strs l with
      | Some ss => Ok (join_strs sep ss)
      | None => Raise (Fault (BadJoin (type_name v)))
      end
  | Raise _ => Raise (Fault (BadJoin (type_name v)))
  end.

(** The structured error record [{"error": kind, "details": details}]. *)
Definition error_record (kind : string) (details : pyval) : pyval :=
  PDict [("error", PStr kind); ("details", details)].

(** List comprehension [[f x for x in l]]. *)
Definition comprehension {S} (f : pyval -> M S pyval) (l : list pyval)
    : M S (list pyval) :=
  for_each (fun acc x => y <- f x ;; ret (acc ++ [y])) l [].

(** ** The libraries the code calls *)

(** The vendor SDK client.  [meraki.DashboardAPI(key, suppress_logging=True)]
    takes the key from its argument, else from the environment variable
    [MERAKI_DASHBOARD_API_KEY], and raises [APIKeyError] when both are
    missing; with a key it is taken to succeed.  The constructor may
    raise for other reasons, which this does not cover: a statement
    about the module-level client being obtained assumes, as a
    hypothesis, that the client is stored already or that the
    constructor returns one. *)
Record DashboardAPI : Type := mkDashboardAPI { dashboard_key : string }.

Definition new_DashboardAPI (w : World) (api_key : option string) : result DashboardAPI :=
  let api_key :=
    if str_truthy api_key then api_key else getenv_MERAKI_DASHBOARD_API_KEY w in
  match api_key with
  | Some k =>
      if str_truthy (Some k) then Ok (mkDashboardAPI k)
      else Raise (OtherException "APIKeyError")
  | None => Raise (OtherException "APIKeyError")
  end.

(** [Response.raise_for_status()] of [requests]: raises [HTTPError],
    carrying the response, when the status is 4xx or 5xx. *)
Definition raise_for_status (r : Response) : result unit :=
  if (400 <=? status_code r) && (status_code r <? 600)
  then Raise (HTTPError (Some r))
  else Ok tt.

(** [Response.ok]: whether [raise_for_status()] would not raise. *)
Definition response_ok (r : Response) : bool :=
  match raise_for_status r with
  | Ok _ => true
  | Raise _ => false
  end.

(** [Response.__bool__] of [requests] returns [self.ok]: this is the
    truth value of a response object in a condition. *)
Definition response_truthy (r : option Response) : bool :=
  match r with
  | Some r => response_ok r
  | None => false
  end.

(** Whitespace for [str.strip()], on ASCII text. *)
Definition is_space (c : Ascii.ascii) : bool :=
  let n := Ascii.nat_of_ascii c in
  ((9 <=? n) && (n <=? 13) || (28 <=? n) && (n <=? 32))%nat.

(** Truth value of [s.strip()]: some character is not whitespace. *)
Fixpoint strip_truthy (s : string) : bool :=
  match s with
  | EmptyString => false
  | String c s' => negb (is_space c) || strip_truthy s'
  end.

(** How an f-string renders an [Optional[str]]. *)
Definition fstr (o : option string) : string := default "None" o.

(** The three headers sent with every request. *)
Definition headers_for (api_key : option string) : gmap string string :=
  {[ "Authorization" := "Bearer " +:+ fstr api_key;
     "Accept" := "application/json";
     "Content-Type" := "application/json" ]}.

(** The vendor's Local-DNS path for an organization and an endpoint. *)
Definition local_dns_url (organization_id : option string) (endpoint : string) : string :=
  "https://api.meraki.com/api/v1/organizations/" +:+ fstr organization_id
  +:+ "/appliance/dns/local/" +:+ endpoint.

Definition no_organization_selected : pyval :=
  error_record "NoOrganizationSelected" (PStr "Please select an organization first.").

(** The body shared by [make_request] and [ProjectLogic._make_request]
    from the URL on: the [try] block and its [except] clauses. *)
Definition send_request {S} (w : World) (method url : string)
    (headers : gmap string string) (payload : pyval) : M S pyval :=
  try_except
    (let data := if truthy payload then Some (json_dumps w payload) else None in
     let rq := mkRequest method url headers data in
     outcome <- call (HttpCall rq) (fun tr => requests_request w tr rq) ;;
     response <- lift (match outcome with
                       | Responds r => Ok r
                       | Fails e => Raise e
                       end) ;;
     lift (raise_for_status response) ;;;
     if strip_truthy (text response) then
       response_json <- lift (response_json w (text response)) ;;
       ret response_json
     else ret PNone)
    (fun e =>
       match e with
       | HTTPError response =>
           let status_code :=
             match response with
             | Some r => if response_truthy response
                         then PInt (status_code r) else PStr "Unknown"
             | None => PStr "Unknown"
             end in
           let response_text :=
             match response with
             | Some r => if response_truthy response
                         then PStr (text r) else PStr "No response text"
             | None => PStr "No response text"
             end in
           ret (PDict [("error", PStr "HTTPError"); ("details", response_text);
                       ("status_code", status_code)])
       | ConnectionError _ | ConnectTimeout _ =>
           ret (error_record "ConnectionError" (PStr (exn_str w e)))
       | Timeout _ =>
           ret (error_record "TimeoutError" (PStr (exn_str w e)))
       | RequestException _ =>
           ret (error_record "RequestException" (PStr (exn_str w e)))
       | _ =>
           ret (error_record "UnexpectedError" (PStr (exn_str w e)))
       end).

(** A Python [str] is a sequence of characters, a Rocq string a
    sequence of bytes: the two agree, and [String.length] is [len],
    for text of ASCII characters.  The statements that count
    characters assume such text. *)
Fixpoint is_ascii (s : string) : bool :=
  match s with
  | EmptyString => true
  | String c s' => (Ascii.nat_of_ascii c <? 128)%nat && is_ascii s'
  end.

(** [n] asterisks (character 42): ["*" * n]. *)
Fixpoint stars (n : nat) : string :=
  match n with
  | O => ""
  | S n' => String (Ascii.ascii_of_nat 42) (stars n')
  end.

(** [s[-4:]]: the last four characters, or all of a shorter string. *)
Definition last_four (s : string) : string :=
  String.substring (String.length s - 4) 4 s.

(** ["*" * max(len(key) - 4, 0) + key[-4:] if key else "N/A"]; the
    subtraction on [nat] stops at zero as the [max] does.  Lengths
    and positions are those of Python for a key of ASCII characters
    ([is_ascii]). *)
Definition mask_key (api_key : option string) : string :=
  if str_truthy api_key then
    let key := default "" api_key in
    stars (String.length key - 4) +:+ last_four key
  else "N/A".

(** [v or "N/A"] on an [Optional[str]]. *)
Definition or_na (v : option string) : string :=
  if str_truthy v then default "" v else "N/A".

(** [{"value": value, "label": label}]. *)
Definition labelled (value label : string) : pyval :=
  PDict [("value", PStr value); ("label", PStr label)].

(** * meraki_api_utils.py: class MerakiAPIWrapper *)

Module Wrapper.

(** The instance attributes set by [__init__]. *)
Record MerakiAPIWrapper : Type := mkWrapper {
  _api_key : option string;
  _organization_id : option string;
  _organization_name : option string;
  _network_id : option string;
  _network_name : option string;
  _enable_caching : bool;
  _dashboard : option DashboardAPI;
  _organizations_cache : option pyval;
  _networks_cache : option (gmap string pyval);
  _required_app_setup_param : gmap string bool;
}.

(** Attribute assignments [self.x = v]. *)
Definition assign_api_key (v : option string) (s : MerakiAPIWrapper) :=
  mkWrapper v (_organization_id s) (_organization_name s) (_network_id s)
    (_network_name s) (_enable_caching s) (_dashboard s)
    (_organizations_cache s) (_networks_cache s) (_required_app_setup_param s).

Definition assign_organization_id (v : option string) (s : MerakiAPIWrapper) :=
  mkWrapper (_api_key s) v (_organization_name s) (_network_id s)
    (_network_name s) (_enable_caching s) (_dashboard s)
    (_organizations_cache s) (_networks_cache s) (_required_app_setup_param s).

Definition assign_organization_name (v : option string) (s : MerakiAPIWrapper) :=
  mkWrapper (_api_key s) (_organization_id s) v (_network_id s)
    (_network_name s) (_enable_caching s) (_dashboard s)
    (_organizations_cache s) (_networks_cache s) (_required_app_setup_param s).

Definition assign_network_id (v : option string) (s : MerakiAPIWrapper) :=
  mkWrapper (_api_key s) (_organization_id s) (_organization_name s) v
    (_network_name s) (_enable_caching s) (_dashboard s)
    (_organizations_cache s) (_networks_cache s) (_required_app_setup_param s).

Definition assign_network_name (v : option string) (s : MerakiAPIWrapper) :=
  mkWrapper (_api_key s) (_organization_id s) (_organization_name s)
    (_network_id s) v (_enable_caching s) (_dashboard s)
    (_organizations_cache s) (_networks_cache s) (_required_app_setup_param s).

Definition assign_enable_caching (v : bool) (s : MerakiAPIWrapper) :=
  mkWrapper (_api_key s) (_organization_id s) (_organization_name s)
    (_network_id s) (_network_name s) v (_dashboard s)
    (_organizations_cache s) (_networks_cache s) (_required_app_setup_param s).

Definition assign_dashboard (v : option DashboardAPI) (s : MerakiAPIWrapper) :=
  mkWrapper (_api_key s) (_organization_id s) (_organization_name s)
    (_network_id s) (_network_name s) (_enable_caching s) v
    (_organizations_cache s) (_networks_cache s) (_required_app_setup_param s).

Definition assign_organizations_cache (v : option pyval) (s : MerakiAPIWrapper) :=
  mkWrapper (_api_key s) (_organization_id s) (_organization_name s)
    (_network_id s) (_network_name s) (_enable_caching s) (_dashboard s)
    v (_networks_cache s) (_required_app_setup_param s).

Definition assign_networks_cache (v : option (gmap string pyval)) (s : MerakiAPIWrapper) :=
  mkWrapper (_api_key s) (_organization_id s) (_organization_name s)
    (_network_id s) (_network_name s) (_enable_caching s) (_dashboard s)
    (_organizations_cache s) v (_required_app_setup_param s).

Definition assign_required_app_setup_param (v : gmap string bool) (s : MerakiAPIWrapper) :=
  mkWrapper (_api_key s) (_organization_id s) (_organization_name s)
    (_network_id s) (_network_name s) (_enable_caching s) (_dashboard s)
    (_organizations_cache s) (_networks_cache s) v.

(** [set_api_key(api_key, source)]: the argument, else the environment
    variable, else [None]; then the SDK client follows the key.  The
    call of the SDK constructor that ends the method is taken to
    return; were it to raise, the key assigned before it would stay
    beside the earlier client. *)
Definition set_api_key (w : World) (api_key : option string)
    (s : MerakiAPIWrapper) : MerakiAPIWrapper :=
  let s1 :=
    if str_truthy api_key then assign_api_key api_key s
    else
      let env_api_key := getenv_MK_CSM_KEY w in
      if str_truthy env_api_key then assign_api_key env_api_key s
      else assign_api_key None s in
  if str_truthy (_api_key s1)
  then assign_dashboard (Some (mkDashboardAPI (default "" (_api_key s1)))) s1
  else assign_dashboard None s1.

(** [__init__(initial_api_key, enable_caching)]. *)
Definition init (w : World) (initial_api_key : option string)
    (enable_caching : bool) : MerakiAPIWrapper :=
  let s := mkWrapper None None None None None enable_caching None None None ∅ in
  let s := set_api_key w initial_api_key s in
  assign_required_app_setup_param ∅ s.

Definition is_api_key_set (s : MerakiAPIWrapper) : bool :=
  match _api_key s with
  | Some k => negb (String.eqb k "")
  | None => false
  end.

Definition get_headers (s : MerakiAPIWrapper) : gmap string string :=
  headers_for (_api_key s).

Definition get_organization_id (s : MerakiAPIWrapper) : option string :=
  _organization_id s.

Definition set_organization_id (organization_id : option string)
    (organization_name : option string) (s : MerakiAPIWrapper) : MerakiAPIWrapper :=
  if str_truthy organization_id then
    let s1 := assign_organization_id organization_id s in
    if str_truthy organization_name then
      assign_organization_name organization_name s1
    else s1
  else s.

Definition get_organization_name (s : MerakiAPIWrapper) : option string :=
  _organization_name s.

Definition is_organization_id_set (s : MerakiAPIWrapper) : bool :=
  match _organization_id s with
  | Some i => negb (String.eqb i "")
  | None => false
  end.

Definition get_network_id (s : MerakiAPIWrapper) : option string :=
  _network_id s.

Definition set_network_id (network_id : option string)
    (network_name : option string) (s : MerakiAPIWrapper) : MerakiAPIWrapper :=
  if str_truthy network_id then
    let s1 := assign_network_id network_id s in
    if str_truthy network_name then
      assign_network_name network_name s1
    else s1
  else s.

Definition get_network_name (s : MerakiAPIWrapper) : option string :=
  _network_name s.

Definition is_network_id_set (s : MerakiAPIWrapper) : bool :=
  match _network_id s with
  | Some i => negb (String.eqb i "")
  | None => false
  end.

(** [get_dashboard()]: the client, built on demand from the key. *)
Definition get_dashboard (s : MerakiAPIWrapper) : option DashboardAPI * MerakiAPIWrapper :=
  match _dashboard s with
  | None =>
      if negb (str_truthy (_api_key s)) then (None, s)
      else
        let d := Some (mkDashboardAPI (default "" (_api_key s))) in
        (d, assign_dashboard d s)
  | Some d => (Some d, s)
  end.

(** [required_params.get(name, False)] on a [Dict[str, bool]]. *)
Definition flag (required_params : gmap string bool) (name : string) : bool :=
  default false (required_params !! name).

Definition _check_required_parameter_order (required_params : gmap string bool) : bool :=
  let api_key_required := flag required_params "api_key" in
  let organization_id_required := flag required_params "organization_id" in
  let network_id_required := flag required_params "network_id" in
  if organization_id_required && negb api_key_required then false
  else if network_id_required
          && (negb api_key_required || negb organization_id_required) then false
  else true.

(** The [return] statement at which [setup_application_parameters]
    leaves, named after the message it logs there. *)
Inductive setup_exit : Type :=
  | InvalidOrder            (* order check failed *)
  | ApiKeyFailed            (* "Failed to set API Key, which is required." *)
  | OrgNeedsApiKey          (* "Cannot set Organization id: API Key is not set ..." *)
  | OrgNotProvided          (* "Organization id is required but not provided ..." *)
  | OrgFailed               (* "Failed to set Organization id, which is required." *)
  | NetNeedsPrerequisites   (* "Cannot set Network id: API Key or Organization id not set ..." *)
  | NetNotProvided          (* "Network id is required but not provided ..." *)
  | NetFailed               (* "Failed to set Network id, which is required." *)
  | SetupComplete.          (* "Application parameter setup complete." *)

(** The network part of [setup_application_parameters]. *)
Definition setup_network (required_app_setup_parm : gmap string bool)
    (effective_params : gmap string string) (s : MerakiAPIWrapper)
    : setup_exit * MerakiAPIWrapper :=
  if flag required_app_setup_parm "network_id" then
    if negb (is_api_key_set s) || negb (is_organization_id_set s) then
      (NetNeedsPrerequisites, s)
    else
      let network_id_val := effective_params !! "network_id" in
      let network_name_val := effective_params !! "net_name" in
      if str_truthy network_id_val then
        let s1 := set_network_id network_id_val network_name_val s in
        if negb (is_network_id_set s1) then (NetFailed, s1)
        else (SetupComplete, s1)
      else (NetNotProvided, s)
  else (SetupComplete, s).

(** The organization part, followed by the network part. *)
Definition setup_organization (required_app_setup_parm : gmap string bool)
    (effective_params : gmap string string) (s : MerakiAPIWrapper)
    : setup_exit * MerakiAPIWrapper :=
  if flag required_app_setup_parm "organization_id" then
    if negb (is_api_key_set s) then (OrgNeedsApiKey, s)
    else
      let organization_id_val := effective_params !! "organization_id" in
      let org_name_val := effective_params !! "org_name" in
      if str_truthy organization_id_val then
        let s1 := set_organization_id organization_id_val org_name_val s in
        if negb (is_organization_id_set s1) then (OrgFailed, s1)
        else setup_network required_app_setup_parm effective_params s1
      else (OrgNotProvided, s)
  else setup_network required_app_setup_parm effective_params s.

(** [setup_application_parameters], with the exit it takes.  The
    instance keeps the caller's dict itself, not a copy: the field
    [_required_app_setup_param] of a state is what that dict holds at
    the time of the state.  No method writes to the dict, so between
    the start and the end of a call it changes only by the assignment
    below; a caller that edits the dict between two calls makes the
    later call start from a state with another stored configuration. *)
Definition setup_run (w : World) (required_app_setup_parm : gmap string bool)
    (app_setup_param : option (gmap string string))
    (enable_caching : option bool) (s : MerakiAPIWrapper)
    : setup_exit * MerakiAPIWrapper :=
  let s :=
    match enable_caching with
    | Some b => assign_enable_caching b s
    | None => s
    end in
  if negb (_check_required_parameter_order required_app_setup_parm) then
    (InvalidOrder, s)
  else
    let s := assign_required_app_setup_param required_app_setup_parm s in
    let effective_params : gmap string string := default ∅ app_setup_param in
    if flag required_app_setup_parm "api_key" then
      let api_key_val := effective_params !! "api_key" in
      let s1 := set_api_key w api_key_val s in
      if negb (is_api_key_set s1) then (ApiKeyFailed, s1)
      else setup_organization required_app_setup_parm effective_params s1
    else setup_organization required_app_setup_parm effective_params s.

Definition exit_value (e : setup_exit) : bool :=
  match e with
  | SetupComplete => true
  | _ => false
  end.

(** [setup_application_parameters(...)]: returned boolean and new state. *)
Definition setup_application_parameters (w : World)
    (required_app_setup_parm : gmap string bool)
    (app_setup_param : option (gmap string string))
    (enable_caching : option bool) (s : MerakiAPIWrapper)
    : bool * MerakiAPIWrapper :=
  let r := setup_run w required_app_setup_parm app_setup_param enable_caching s in
  (exit_value (fst r), snd r).

(** [check_current_parameters_status()]. *)
Definition check_current_parameters_status (s : MerakiAPIWrapper) : bool * list string :=
  if bool_decide (_required_app_setup_param s = ∅) then
    (false, ["No required parameters defined"])
  else
    let required_app_setup_parm := _required_app_setup_param s in
    if negb (_check_required_parameter_order required_app_setup_parm) then
      (false, ["Invalid required_app_setup_parm configuration stored in instance"])
    else
      let missing_params :=
        (if flag required_app_setup_parm "api_key" && negb (is_api_key_set s)
         then ["API_KEY"] else [])
        ++ (if flag required_app_setup_parm "organization_id"
               && negb (is_organization_id_set s)
            then ["ORGANIZATION_ID"] else [])
        ++ (if flag required_app_setup_parm "network_id"
               && negb (is_network_id_set s)
            then ["NETWORK_ID"] else []) in
      match missing_params with
      | [] => (true, [])
      | _ => (false, missing_params)
      end.

(** ** Cache layer *)

(** [{"error": "MerakiAPIError", "details": e.message, "status_code": e.status}]. *)
Definition api_error_record (message : pyval) (status : Z) : pyval :=
  PDict [("error", PStr "MerakiAPIError"); ("details", message);
         ("status_code", PInt status)].

Definition dashboard_error : pyval :=
  error_record "DashboardAPIError" (PStr "Meraki Dashboard API not initialized.").

(** [dashboard = self.get_dashboard()]. *)
Definition the_dashboard : M MerakiAPIWrapper (option DashboardAPI) :=
  fun s tr => let '(d, s') := get_dashboard s in (Ok d, s', tr).

(** [if self._enable_caching: self._organizations_cache = v]. *)
Definition store_organizations (v : pyval) : M MerakiAPIWrapper unit :=
  modify (fun s => if _enable_caching s
                   then assign_organizations_cache (Some v) s else s).

(** The [else] branch of [_get_organizations]: ask the SDK. *)
Definition fetch_organizations (w : World) : M MerakiAPIWrapper pyval :=
  dashboard <- the_dashboard ;;
  match dashboard with
  | None => ret dashboard_error
  | Some _ =>
      try_except
        (r <- call SdkGetOrganizations (getOrganizations w) ;;
         fetched_data <- lift r ;;
         store_organizations fetched_data ;;;
         _ <- lift (py_len fetched_data) ;;
         ret fetched_data)
        (fun e =>
           match e with
           | APIError status message =>
               store_organizations (PList []) ;;;
               ret (api_error_record message status)
           | _ =>
               store_organizations (PList []) ;;;
               ret (error_record "UnexpectedError" (PStr (exn_str w e)))
           end)
  end.

Definition _get_organizations (w : World) (use_cache : bool)
    : M MerakiAPIWrapper pyval :=
  s <- get ;;
  let should_attempt_cache_read := use_cache && _enable_caching s in
  match (if should_attempt_cache_read then _organizations_cache s else None) with
  | Some organizations_data => ret organizations_data
  | None => fetch_organizations w
  end.

(** [if self._enable_caching: self._networks_cache[organization_id] = v]. *)
Definition store_networks (organization_id : string) (v : pyval)
    : M MerakiAPIWrapper unit :=
  modify (fun s =>
    if _enable_caching s
    then assign_networks_cache
           (Some (<[organization_id := v]> (default ∅ (_networks_cache s)))) s
    else s).

(** The [else] branch of [_get_networks]: ask the SDK. *)
Definition fetch_networks (w : World) (current_organization_id : string)
    : M MerakiAPIWrapper pyval :=
  dashboard <- the_dashboard ;;
  match dashboard with
  | None => ret dashboard_error
  | Some _ =>
      try_except
        (r <- call (SdkGetOrganizationNetworks current_organization_id)
                (fun tr => getOrganizationNetworks w tr current_organization_id) ;;
         fetched_data <- lift r ;;
         store_networks current_organization_id fetched_data ;;;
         _ <- lift (py_len fetched_data) ;;
         ret fetched_data)
        (fun e =>
           match e with
           | APIError status message =>
               store_networks current_organization_id (PList []) ;;;
               ret (api_error_record message status)
           | _ =>
               store_networks current_organization_id (PList []) ;;;
               ret (error_record "UnexpectedError" (PStr (exn_str w e)))
           end)
  end.

Definition _get_networks (w : World) (organization_id : option string)
    (use_cache : bool) : M MerakiAPIWrapper pyval :=
  s <- get ;;
  let current_organization_id :=
    match organization_id with
    | Some i => Some i
    | None => get_organization_id s
    end in
  if negb (str_truthy current_organization_id) then ret no_organization_selected
  else
    let current_organization_id := default "" current_organization_id in
    modify (fun s => match _networks_cache s with
                     | None => assign_networks_cache (Some ∅) s
                     | Some _ => s
                     end) ;;;
    s <- get ;;
    let should_attempt_cache_read := use_cache && _enable_caching s in
    match (if should_attempt_cache_read
           then default ∅ (_networks_cache s) !! current_organization_id
           else None) with
    | Some networks_data => ret networks_data
    | None => fetch_networks w current_organization_id
    end.

(** One display record of [list_organizations]. *)
Definition organization_row {S} (org : pyval) : M S pyval :=
  id <- lift (py_get org "id" PNone) ;;
  name <- lift (py_get org "name" PNone) ;;
  url <- lift (py_get org "url" PNone) ;;
  api <- lift (py_get org "api" (PDict [])) ;;
  enabled <- lift (py_get api "enabled" (PBool false)) ;;
  licensing <- lift (py_get org "licensing" (PDict [])) ;;
  model <- lift (py_get licensing "model" PNone) ;;
  ret (PDict [("id", id); ("name", name); ("url", url);
              ("api enabled", enabled); ("licensing model", model)]).

Definition list_organizations (w : World) (use_cache : bool)
    : M MerakiAPIWrapper pyval :=
  raw_response <- _get_organizations w use_cache ;;
  if is_error raw_response then ret raw_response
  else
    match raw_response with
    | PList organizations_data =>
        if truthy raw_response then
          table_data <- comprehension organization_row organizations_data ;;
          ret (PList table_data)
        else ret (PList [])
    | _ =>
        ret (error_record "UnexpectedReturnType"
               (PStr "Internal function returned an unexpected type."))
    end.

(** One display record of [list_networks]. *)
Definition network_row {S} (network : pyval) : M S pyval :=
  id <- lift (py_get network "id" PNone) ;;
  name <- lift (py_get network "name" PNone) ;;
  type <- lift (py_get network "type" PNone) ;;
  time_zone <- lift (py_get network "timeZone" PNone) ;;
  tags <- lift (py_get network "tags" (PList [])) ;;
  joined <- lift (py_join ", " tags) ;;
  ret (PDict [("id", id); ("name", name); ("yype", type);
              ("time zone", time_zone); ("tags", PStr joined)]).

Definition list_networks (w : World) (organization_id : option string)
    (use_cache : bool) : M MerakiAPIWrapper pyval :=
  response <- _get_networks w organization_id use_cache ;;
  if is_error response then ret response
  else
    match response with
    | PList networks =>
        if negb (truthy response) then ret (PList [])
        else
          table_data <- comprehension network_row networks ;;
          ret (PList table_data)
    | _ => ret (PList [])
    end.

(** [get_current_app_params()]: the entries of the required fields,
    in the order they are stored. *)
Definition get_current_app_params (s : MerakiAPIWrapper) : pyval :=
  let required_app_setup_param := _required_app_setup_param s in
  PDict
    ((if flag required_app_setup_param "api_key"
      then [("api_key", labelled (mask_key (_api_key s)) "API Key")]
      else [])
     ++ (if flag required_app_setup_param "organization_id"
         then [("organization_id",
                labelled (or_na (get_organization_id s)) "Organization ID");
               ("organization_name",
                labelled (or_na (get_organization_name s)) "Organization Name")]
         else [])
     ++ (if flag required_app_setup_param "network_id"
         then [("network_id", labelled (or_na (get_network_id s)) "Network ID");
               ("network_name",
                labelled (or_na (get_network_name s)) "Network Name")]
         else [])).

(** ** The instance as a state machine *)

(** The methods a client can call on an instance. *)
Inductive operation : Type :=
  | Call_set_api_key (api_key : option string)
  | Call_is_api_key_set
  | Call_get_headers
  | Call_get_organization_id
  | Call_set_organization_id (organization_id organization_name : option string)
  | Call_get_organization_name
  | Call_is_organization_id_set
  | Call_get_network_id
  | Call_set_network_id (network_id network_name : option string)
  | Call_get_network_name
  | Call_is_network_id_set
  | Call_get_dashboard
  | Call__get_organizations (use_cache : bool)
  | Call__get_networks (organization_id : option string) (use_cache : bool)
  | Call_list_organizations (use_cache : bool)
  | Call_list_networks (organization_id : option string) (use_cache : bool)
  | Call__check_required_parameter_order (required_params : gmap string bool)
  | Call_setup_application_parameters
      (required_app_setup_parm : gmap string bool)
      (app_setup_param : option (gmap string string))
      (enable_caching : option bool)
  | Call_check_current_parameters_status
  | Call_get_current_app_params.

(** The instance and the calls issued after a computation. *)
Definition after {A} (c : M MerakiAPIWrapper A) (s : MerakiAPIWrapper)
    (tr : list io_event) : MerakiAPIWrapper * list io_event :=
  let '(_, s', tr') := c s tr in (s', tr').

(** One method call: its effect on the instance and on the calls
    issued.  The getters and checks only read. *)
Definition step (w : World) (op : operation) (s : MerakiAPIWrapper)
    (tr : list io_event) : MerakiAPIWrapper * list io_event :=
  match op with
  | Call_set_api_key api_key => (set_api_key w api_key s, tr)
  | Call_set_organization_id i n => (set_organization_id i n s, tr)
  | Call_set_network_id i n => (set_network_id i n s, tr)
  | Call_get_dashboard => (snd (get_dashboard s), tr)
  | Call__get_organizations use_cache => after (_get_organizations w use_cache) s tr
  | Call__get_networks i use_cache => after (_get_networks w i use_cache) s tr
  | Call_list_organizations use_cache => after (list_organizations w use_cache) s tr
  | Call_list_networks i use_cache => after (list_networks w i use_cache) s tr
  | Call_setup_application_parameters r p c =>
      (snd (setup_application_parameters w r p c s), tr)
  | Call_is_api_key_set | Call_get_headers | Call_get_organization_id
  | Call_get_organization_name | Call_is_organization_id_set
  | Call_get_network_id | Call_get_network_name | Call_is_network_id_set
  | Call__check_required_parameter_order _
  | Call_check_current_parameters_status | Call_get_current_app_params => (s, tr)
  end.

(** Whether a call leaves the credential unset: only [set_api_key],
    called directly or by a setup that requires the key, when neither
    the argument nor the environment variable holds a key. *)
Definition drops_credential (w : World) (op : operation) : bool :=
  match op with
  | Call_set_api_key api_key =>
      negb (str_truthy api_key) && negb (str_truthy (getenv_MK_CSM_KEY w))
  | Call_setup_application_parameters r p _ =>
      _check_required_parameter_order r && flag r "api_key"
      && negb (str_truthy (default ∅ p !! "api_key"))
      && negb (str_truthy (getenv_MK_CSM_KEY w))
  | _ => false
  end.

End Wrapper.

(** * local_dns_logic.py: module-level state and functions *)

Module LocalDns.

(** The module globals. *)
Record Globals : Type := mkGlobals {
  API_KEY : option string;
  HEADERS : gmap string string;
  _dashboard : option DashboardAPI;
  _organizations_cache : option pyval;
  _networks_cache : gmap string pyval;
  ORGANIZATION_ID : option string;
  ORGANIZATION_NAME : option string;
}.

(** The globals after import: [HEADERS] is built from the environment
    variable, then [API_KEY] is re-declared as [None]. *)
Definition init (w : World) : Globals :=
  mkGlobals None (headers_for (getenv_MK_CSM_KEY w)) None None ∅ None None.

Definition assign_dashboard (v : option DashboardAPI) (g : Globals) : Globals :=
  mkGlobals (API_KEY g) (HEADERS g) v (_organizations_cache g)
    (_networks_cache g) (ORGANIZATION_ID g) (ORGANIZATION_NAME g).

Definition assign_networks_cache (v : gmap string pyval) (g : Globals) : Globals :=
  mkGlobals (API_KEY g) (HEADERS g) (_dashboard g) (_organizations_cache g)
    v (ORGANIZATION_ID g) (ORGANIZATION_NAME g).

Definition set_api_key (w : World) (api_key : option string) (g : Globals) : Globals :=
  let key :=
    if str_truthy api_key then api_key
    else
      let env_api_key := getenv_MK_CSM_KEY w in
      if str_truthy env_api_key then env_api_key else None in
  mkGlobals key
    (if str_truthy key then headers_for key ∪ HEADERS g else HEADERS g)
    (_dashboard g) (_organizations_cache g) (_networks_cache g)
    (ORGANIZATION_ID g) (ORGANIZATION_NAME g).

Definition set_organization_id (org_id : option string) (g : Globals) : Globals :=
  mkGlobals (API_KEY g) (HEADERS g) (_dashboard g) (_organizations_cache g)
    (_networks_cache g) org_id (ORGANIZATION_NAME g).

Definition set_organization_name (org_name : option string) (g : Globals) : Globals :=
  mkGlobals (API_KEY g) (HEADERS g) (_dashboard g) (_organizations_cache g)
    (_networks_cache g) (ORGANIZATION_ID g) org_name.

(** [_get_dashboard()]: the singleton client, built on first use. *)
Definition _get_dashboard (w : World) : M Globals DashboardAPI :=
  g <- get ;;
  match _dashboard g with
  | None =>
      d <- lift (new_DashboardAPI w (API_KEY g)) ;;
      modify (assign_dashboard (Some d)) ;;;
      ret d
  | Some d => ret d
  end.

(** [_networks_cache[ORGANIZATION_ID] = v]. *)
Definition store_networks (organization_id : string) (v : pyval) : M Globals unit :=
  modify (fun g => assign_networks_cache (<[organization_id := v]> (_networks_cache g)) g).

Definition api_error_record (message : pyval) (status : Z) : pyval :=
  PDict [("error", PStr "MerakiAPIError"); ("details", message);
         ("status_code", PInt status)].

Definition _get_networks (w : World) : M Globals pyval :=
  g <- get ;;
  if negb (str_truthy (ORGANIZATION_ID g)) then ret no_organization_selected
  else
    let organization_id := default "" (ORGANIZATION_ID g) in
    match _networks_cache g !! organization_id with
    | Some cached => ret cached
    | None =>
        dashboard <- _get_dashboard w ;;
        try_except
          (r <- call (SdkGetOrganizationNetworks organization_id)
                  (fun tr => getOrganizationNetworks w tr organization_id) ;;
           fetched <- lift r ;;
           store_networks organization_id fetched ;;;
           _ <- lift (py_len fetched) ;;
           ret fetched)
          (fun e =>
             match e with
             | APIError status message =>
                 store_networks organization_id (PList []) ;;;
                 ret (api_error_record message status)
             | _ =>
                 store_networks organization_id (PList []) ;;;
                 ret (error_record "UnexpectedError" (PStr (exn_str w e)))
             end)
    end.

(** [make_request(method, endpoint, payload=None)]. *)
Definition make_request (w : World) (method endpoint : string) (payload : pyval)
    : M Globals pyval :=
  g <- get ;;
  if negb (str_truthy (ORGANIZATION_ID g)) then ret no_organization_selected
  else
    let url := local_dns_url (ORGANIZATION_ID g) endpoint in
    send_request w method url (HEADERS g) payload.

(** One display record of [list_networks]. *)
Definition network_row {S} (network : pyval) : M S pyval :=
  id <- lift (py_get network "id" PNone) ;;
  name <- lift (py_get network "name" PNone) ;;
  type <- lift (py_get network "type" PNone) ;;
  time_zone <- lift (py_get network "timeZone" PNone) ;;
  tags <- lift (py_get network "tags" (PList [])) ;;
  joined <- lift (py_join ", " tags) ;;
  ret (PDict [("ID", id); ("Name", name); ("Type", type);
              ("Time Zone", time_zone); ("Tags", PStr joined)]).

Definition list_networks (w : World) : M Globals pyval :=
  response <- _get_networks w ;;
  if is_error response then ret response
  else if truthy response then
    networks <- lift (py_iter response) ;;
    table_data <- comprehension network_row networks ;;
    ret (PList table_data)
  else ret (PList []).

(** Dict comprehension [{x[key]: x[value] for x in v}]. *)
Definition dict_by {S} (key value : string) (v : pyval) : M S (gmap hkey pyval) :=
  items <- lift (py_iter v) ;;
  for_each
    (fun m x =>
       k <- lift (py_item x key) ;;
       y <- lift (py_item x value) ;;
       lift (hmap_set m k y))
    items ∅.

(** [v.get(outer, {}).get(inner)]. *)
Definition get_nested {S} (v : pyval) (outer inner : string) : M S pyval :=
  o <- lift (py_get v outer (PDict [])) ;;
  lift (py_get o inner PNone).

(** [m.get(k, "[unknown]")]. *)
Definition name_or_unknown {S} (m : gmap hkey pyval) (k : pyval) : M S pyval :=
  r <- lift (hmap_get m k) ;;
  ret (default (PStr "[unknown]") r).

(** [x and "items" in x]. *)
Definition has_items {S} (v : pyval) : M S bool :=
  if truthy v then lift (py_in "items" v) else ret false.

(** One display record of [list_network_assignments]. *)
Definition assignment_row {S} (network_map profile_map : gmap hkey pyval)
    (assignment : pyval) : M S pyval :=
  network_id <- get_nested assignment "network" "id" ;;
  profile_id <- get_nested assignment "profile" "id" ;;
  assignment_id <- lift (py_get assignment "assignmentId" PNone) ;;
  network_name <- name_or_unknown network_map network_id ;;
  profile_name <- name_or_unknown profile_map profile_id ;;
  ret (PDict [("Assignment ID", assignment_id);
              ("Network ID", network_id);
              ("Network Name", network_name);
              ("Profile ID", profile_id);
              ("Profile Name", profile_name)]).

Definition unexpected_error {S} (w : World) (e : exn) : M S pyval :=
  ret (error_record "UnexpectedError" (PStr (exn_str w e))).

Definition list_network_assignments (w : World) : M Globals pyval :=
  try_except
    (networks_response <- _get_networks w ;;
     if is_error networks_response then ret networks_response
     else
       network_map <- dict_by "id" "name" networks_response ;;
       profiles_response <- make_request w "GET" "profiles" PNone ;;
       if is_error profiles_response then ret profiles_response
       else
         profiles <- (if truthy profiles_response
                      then lift (py_get profiles_response "items" (PList []))
                      else ret (PList [])) ;;
         profile_map <- dict_by "profileId" "name" profiles ;;
         assignments_response <- make_request w "GET" "profiles/assignments" PNone ;;
         if is_error assignments_response then ret assignments_response
         else
           present <- has_items assignments_response ;;
           if present then
             items <- lift (py_item assignments_response "items") ;;
             assignments <- lift (py_iter items) ;;
             table_data <- comprehension (assignment_row network_map profile_map)
                             assignments ;;
             ret (PList table_data)
           else ret (PList []))
    (unexpected_error w).

(** One step of the loop that fills [profile_to_network]. *)
Definition note_assignment {S} (network_map : gmap hkey pyval)
    (profile_to_network : gmap hkey pyval) (assignment : pyval)
    : M S (gmap hkey pyval) :=
  profile_id <- lift (py_get assignment "Profile ID" PNone) ;;
  network_id <- lift (py_get assignment "Network ID" PNone) ;;
  if truthy profile_id && truthy network_id then
    network_name <- name_or_unknown network_map network_id ;;
    lift (hmap_set profile_to_network profile_id
            (PDict [("Network ID", network_id); ("Network Name", network_name)]))
  else ret profile_to_network.

(** One step of the loop that fills [table_data] in [list_profiles]. *)
Definition profile_row {S} (profile_to_network : gmap hkey pyval)
    (profile : pyval) : M S pyval :=
  profile_id <- lift (py_get profile "profileId" PNone) ;;
  profile_name <- lift (py_get profile "name" PNone) ;;
  found <- lift (hmap_get profile_to_network profile_id) ;;
  match found with
  | Some network_info =>
      network_id <- lift (py_get network_info "Network ID" PNone) ;;
      network_name <- lift (py_get network_info "Network Name" PNone) ;;
      ret (PDict [("Profile ID", profile_id); ("Name", profile_name);
                  ("Network ID", network_id); ("Network Name", network_name)])
  | None =>
      ret (PDict [("Profile ID", profile_id); ("Name", profile_name);
                  ("Network ID", PStr "[unassigned]");
                  ("Network Name", PStr "[unassigned]")])
  end.

Definition list_profiles (w : World) : M Globals pyval :=
  try_except
    (profiles_response <- make_request w "GET" "profiles" PNone ;;
     if is_error profiles_response then ret profiles_response
     else
       present <- has_items profiles_response ;;
       if negb present then ret (PList [])
       else
         profiles_data <- lift (py_item profiles_response "items") ;;
         _ <- lift (py_len profiles_data) ;;
         assignments <- list_network_assignments w ;;
         if is_error assignments then ret assignments
         else
           let assignments :=
             if negb (truthy assignments) then PList [] else assignments in
           networks <- list_networks w ;;
           if is_error networks then ret networks
           else
             network_map <- (if truthy networks then dict_by "ID" "Name" networks
                             else ret ∅) ;;
             assigned <- lift (py_iter assignments) ;;
             profile_to_network <- for_each (note_assignment network_map)
                                     assigned ∅ ;;
             profiles <- lift (py_iter profiles_data) ;;
             table_data <- comprehension (profile_row profile_to_network) profiles ;;
             ret (PList table_data))
    (unexpected_error w).

Definition create_profile (w : World) (profile_name : pyval) : M Globals pyval :=
  let payload := PDict [("name", profile_name)] in
  response <- make_request w "POST" "profiles" payload ;;
  if is_error response then ret response
  else
    profile_id <- lift (py_get response "profileId" PNone) ;;
    name <- lift (py_get response "name" PNone) ;;
    ret (PDict [("Profile ID", profile_id); ("Name", name)]).

Definition delete_profile (w : World) (profile_id : string) : M Globals pyval :=
  response <- make_request w "DELETE" ("profiles/" +:+ profile_id) PNone ;;
  ret response.

Definition create_dns_record (w : World) (profile_id hostname address : pyval)
    : M Globals pyval :=
  let payload := PDict [("hostname", hostname); ("address", address);
                        ("profile", PDict [("id", profile_id)])] in
  response <- make_request w "POST" "records" payload ;;
  if is_error response then ret response
  else
    record_id <- lift (py_get response "recordId" PNone) ;;
    ret response.

(** One display record of [list_dns_records]. *)
Definition record_row {S} (record : pyval) : M S pyval :=
  record_id <- lift (py_get record "recordId" PNone) ;;
  hostname <- lift (py_get record "hostname" PNone) ;;
  address <- lift (py_get record "address" PNone) ;;
  profile_id <- get_nested record "profile" "id" ;;
  ret (PDict [("Record ID", record_id); ("Hostname", hostname);
              ("Address", address); ("Profile ID", profile_id)]).

Definition list_dns_records (w : World) : M Globals pyval :=
  response <- make_request w "GET" "records" PNone ;;
  if is_error response then ret response
  else
    present <- has_items response ;;
    if present then
      items <- lift (py_item response "items") ;;
      records <- lift (py_iter items) ;;
      table_data <- comprehension record_row records ;;
      ret (PList table_data)
    else ret (PList []).

Definition delete_dns_record (w : World) (record_id : string) : M Globals pyval :=
  response <- make_request w "DELETE" ("records/" +:+ record_id) PNone ;;
  ret response.

Definition assign_profile_to_network (w : World) (network_id profile_id : pyval)
    : M Globals pyval :=
  let payload :=
    PDict [("items", PList [PDict [("network", PDict [("id", network_id)]);
                                   ("profile", PDict [("id", profile_id)])]])] in
  response <- make_request w "POST" "profiles/assignments/bulkCreate" payload ;;
  ret response.

Definition remove_network_assignment (w : World) (assignment_id : pyval)
    : M Globals pyval :=
  let payload := PDict [("items", PList [PDict [("assignmentId", assignment_id)]])] in
  response <- make_request w "POST" "profiles/assignments/bulkDelete" payload ;;
  ret response.

(** [are_required_params_set()]. *)
Definition are_required_params_set (g : Globals) : bool * list string :=
  let missing_params :=
    (if negb (str_truthy (API_KEY g)) then ["API_KEY"] else [])
    ++ (if negb (str_truthy (ORGANIZATION_ID g)) then ["ORGANIZATION_ID"] else []) in
  match missing_params with
  | [] => (true, [])
  | _ => (false, missing_params)
  end.

Definition is_api_not_null (g : Globals) : bool :=
  match API_KEY g with
  | Some k => negb (String.eqb k "")
  | None => false
  end.

Definition get_organization_id (g : Globals) : option string := ORGANIZATION_ID g.

Definition get_organization_name (g : Globals) : option string := ORGANIZATION_NAME g.

Definition assign_organizations_cache (v : option pyval) (g : Globals) : Globals :=
  mkGlobals (API_KEY g) (HEADERS g) (_dashboard g) v
    (_networks_cache g) (ORGANIZATION_ID g) (ORGANIZATION_NAME g).

Definition _get_organizations (w : World) : M Globals pyval :=
  g <- get ;;
  match _organizations_cache g with
  | None =>
      dashboard <- _get_dashboard w ;;
      try_except
        (r <- call SdkGetOrganizations (getOrganizations w) ;;
         fetched <- lift r ;;
         modify (assign_organizations_cache (Some fetched)) ;;;
         _ <- lift (py_len fetched) ;;
         ret fetched)
        (fun e =>
           match e with
           | APIError status message =>
               modify (assign_organizations_cache (Some (PList []))) ;;;
               ret (api_error_record message status)
           | _ =>
               modify (assign_organizations_cache (Some (PList []))) ;;;
               ret (error_record "UnexpectedError" (PStr (exn_str w e)))
           end)
  | Some cached => ret cached
  end.

(** One display record of [get_organizations]. *)
Definition organization_row {S} (org : pyval) : M S pyval :=
  id <- lift (py_get org "id" PNone) ;;
  name <- lift (py_get org "name" PNone) ;;
  url <- lift (py_get org "url" PNone) ;;
  api <- lift (py_get org "api" (PDict [])) ;;
  enabled <- lift (py_get api "enabled" (PBool false)) ;;
  licensing <- lift (py_get org "licensing" (PDict [])) ;;
  model <- lift (py_get licensing "model" PNone) ;;
  ret (PDict [("ID", id); ("Name", name); ("URL", url);
              ("API Enabled", enabled); ("Licensing Model", model)]).

Definition get_organizations (w : World) : M Globals pyval :=
  response <- _get_organizations w ;;
  if is_error response then ret response
  else if truthy response then
    orgs <- lift (py_iter response) ;;
    table_data <- comprehension organization_row orgs ;;
    ret (PList table_data)
  else ret (PList []).

(** [get_current_params()]. *)
Definition get_current_params (g : Globals) : pyval :=
  PDict [("API Key", PStr (mask_key (API_KEY g)));
         ("Organization ID", PStr (or_na (get_organization_id g)));
         ("Organization Name", PStr (or_na (get_organization_name g)))].

End LocalDns.

(** * project_logic.py: class ProjectLogic *)

Module Project.

Import Wrapper.

(** [ProjectLogic._make_request]: the instance holds a reference to the
    wrapper, so the store is the wrapper itself. *)
Definition _make_request (w : World) (method endpoint : string) (payload : pyval)
    : M MerakiAPIWrapper pyval :=
  s <- get ;;
  let url := local_dns_url (get_organization_id s) endpoint in
  send_request w method url (get_headers s) payload.

Definition create_profile (w : World) (profile_name : pyval)
    : M MerakiAPIWrapper pyval :=
  let payload := PDict [("name", profile_name)] in
  response <- _make_request w "POST" "profiles" payload ;;
  if is_error response then ret response
  else
    profile_id <- lift (py_get response "profileId" PNone) ;;
    name <- lift (py_get response "name" PNone) ;;
    ret (PDict [("profile id", profile_id); ("name", name)]).

Definition delete_profile (w : World) (profile_id : string)
    : M MerakiAPIWrapper pyval :=
  response <- _make_request w "DELETE" ("profiles/" +:+ profile_id) PNone ;;
  ret response.

Definition create_dns_record (w : World) (profile_id hostname address : pyval)
    : M MerakiAPIWrapper pyval :=
  let payload := PDict [("hostname", hostname); ("address", address);
                        ("profile", PDict [("id", profile_id)])] in
  response <- _make_request w "POST" "records" payload ;;
  if is_error response then ret response
  else
    record_id <- lift (py_get response "recordId" PNone) ;;
    ret response.

(** [x and "items" in x]. *)
Definition has_items {S} (v : pyval) : M S bool :=
  if truthy v then lift (py_in "items" v) else ret false.

(** One display record of [ProjectLogic.list_dns_records]. *)
Definition record_row {S} (record : pyval) : M S pyval :=
  record_id <- lift (py_get record "recordId" PNone) ;;
  hostname <- lift (py_get record "hostname" PNone) ;;
  address <- lift (py_get record "address" PNone) ;;
  profile_id <- LocalDns.get_nested record "profile" "id" ;;
  ret (PDict [("record id", record_id); ("hostname", hostname);
              ("address", address); ("profile id", profile_id)]).

Definition list_dns_records (w : World) : M MerakiAPIWrapper pyval :=
  response <- _make_request w "GET" "records" PNone ;;
  if is_error response then ret response
  else
    present <- has_items response ;;
    if present then
      items <- lift (py_item response "items") ;;
      records <- lift (py_iter items) ;;
      table_data <- comprehension record_row records ;;
      ret (PList table_data)
    else ret (PList []).

Definition delete_dns_record (w : World) (record_id : string)
    : M MerakiAPIWrapper pyval :=
  response <- _make_request w "DELETE" ("records/" +:+ record_id) PNone ;;
  ret response.

Definition assign_profile_to_network (w : World) (network_id profile_id : pyval)
    : M MerakiAPIWrapper pyval :=
  let payload :=
    PDict [("items", PList [PDict [("network", PDict [("id", network_id)]);
                                   ("profile", PDict [("id", profile_id)])]])] in
  response <- _make_request w "POST" "profiles/assignments/bulkCreate" payload ;;
  ret response.

(** One display record of [ProjectLogic.list_network_assignments]. *)
Definition assignment_row {S} (network_map profile_map : gmap hkey pyval)
    (assignment : pyval) : M S pyval :=
  network_id <- LocalDns.get_nested assignment "network" "id" ;;
  profile_id <- LocalDns.get_nested assignment "profile" "id" ;;
  assignment_id <- lift (py_get assignment "assignmentId" PNone) ;;
  network_name <- LocalDns.name_or_unknown network_map network_id ;;
  profile_name <- LocalDns.name_or_unknown profile_map profile_id ;;
  ret (PDict [("assignment id", assignment_id);
              ("network id", network_id);
              ("network name", network_name);
              ("profile id", profile_id);
              ("profile name", profile_name)]).

Definition list_network_assignments (w : World) : M MerakiAPIWrapper pyval :=
  try_except
    (networks_response <- list_networks w None false ;;
     if is_error networks_response then ret networks_response
     else
       network_map <- LocalDns.dict_by "id" "name" networks_response ;;
       profiles_response <- _make_request w "GET" "profiles" PNone ;;
       if is_error profiles_response then ret profiles_response
       else
         profiles <- (if truthy profiles_response
                      then lift (py_get profiles_response "items" (PList []))
                      else ret (PList [])) ;;
         profile_map <- LocalDns.dict_by "profileId" "name" profiles ;;
         assignments_response <- _make_request w "GET" "profiles/assignments" PNone ;;
         if is_error assignments_response then ret assignments_response
         else
           present <- has_items assignments_response ;;
           if present then
             items <- lift (py_item assignments_response "items") ;;
             assignments <- lift (py_iter items) ;;
             table_data <- comprehension (assignment_row network_map profile_map)
                             assignments ;;
             ret (PList table_data)
           else ret (PList []))
    (LocalDns.unexpected_error w).

(** One step of the loop that fills [profile_to_network]. *)
Definition note_assignment {S} (network_map : gmap hkey pyval)
    (profile_to_network : gmap hkey pyval) (assignment : pyval)
    : M S (gmap hkey pyval) :=
  profile_id <- lift (py_get assignment "profile id" PNone) ;;
  network_id <- lift (py_get assignment "network id" PNone) ;;
  if truthy profile_id && truthy network_id then
    network_name <- LocalDns.name_or_unknown network_map network_id ;;
    lift (hmap_set profile_to_network profile_id
            (PDict [("network id", network_id); ("network name", network_name)]))
  else ret profile_to_network.

(** One step of the loop that fills [table_data] in [list_profiles]. *)
Definition profile_row {S} (profile_to_network : gmap hkey pyval)
    (profile : pyval) : M S pyval :=
  profile_id <- lift (py_get profile "profileId" PNone) ;;
  profile_name <- lift (py_get profile "name" PNone) ;;
  found <- lift (hmap_get profile_to_network profile_id) ;;
  match found with
  | Some network_info =>
      network_id <- lift (py_get network_info "network id" PNone) ;;
      network_name <- lift (py_get network_info "network name" PNone) ;;
      ret (PDict [("profile id", profile_id); ("name", profile_name);
                  ("network id", network_id); ("network name", network_name)])
  | None =>
      ret (PDict [("profile id", profile_id); ("name", profile_name);
                  ("network id", PStr "[unassigned]");
                  ("network name", PStr "[unassigned]")])
  end.

Definition list_profiles (w : World) : M MerakiAPIWrapper pyval :=
  try_except
    (profiles_response <- _make_request w "GET" "profiles" PNone ;;
     if is_error profiles_response then ret profiles_response
     else
       present <- has_items profiles_response ;;
       if negb present then ret (PList [])
       else
         profiles_data <- lift (py_item profiles_response "items") ;;
         _ <- lift (py_len profiles_data) ;;
         assignments <- list_network_assignments w ;;
         if is_error assignments then ret assignments
         else
           let assignments :=
             if negb (truthy assignments) then PList [] else assignments in
           networks <- list_networks w None false ;;
           if is_error networks then ret networks
           else
             network_map <- (if truthy networks
                             then LocalDns.dict_by "id" "name" networks
                             else ret ∅) ;;
             assigned <- lift (py_iter assignments) ;;
             profile_to_network <- for_each (note_assignment network_map)
                                     assigned ∅ ;;
             profiles <- lift (py_iter profiles_data) ;;
             table_data <- comprehension (profile_row profile_to_network) profiles ;;
             ret (PList table_data))
    (LocalDns.unexpected_error w).

Definition remove_network_assignment (w : World) (assignment_id : pyval)
    : M MerakiAPIWrapper pyval :=
  let payload := PDict [("items", PList [PDict [("assignmentId", assignment_id)]])] in
  response <- _make_request w "POST" "profiles/assignments/bulkDelete" payload ;;
  ret response.

End Project.

(** * Worlds and predicates used in the statements *)

(** Rendering of an exception that shows the message it carries. *)
Definition show_exn (e : exn) : string :=
  match e with
  | HTTPError _ => "HTTPError"
  | ConnectionError m | ConnectTimeout m | Timeout m | RequestException m => m
  | APIError _ _ => "APIError"
  | Fault _ => "fault"
  | OtherException m => m
  end.

(** No environment variables, no network. *)
Definition offline : World :=
  mkWorld None None
    (fun _ _ => Fails (ConnectionError "unreachable"))
    (fun _ => Raise (RequestException "not JSON"))
    (fun _ => "{}")
    (fun _ => Raise (OtherException "unreachable"))
    (fun _ _ => Raise (OtherException "unreachable"))
    show_exn.

(** A server that answers every request with the response [r], whose
    body parses to [body]. *)
Definition answering (r : Response) (body : pyval) : World :=
  mkWorld None None
    (fun _ _ => Responds r)
    (fun _ => Ok body)
    (fun _ => "{}")
    (fun _ => Raise (OtherException "unreachable"))
    (fun _ _ => Raise (OtherException "unreachable"))
    show_exn.

(** An SDK whose organization and network listings raise [e]. *)
Definition failing_sdk (e : exn) : World :=
  mkWorld None None
    (fun _ _ => Fails (ConnectionError "unreachable"))
    (fun _ => Raise (RequestException "not JSON"))
    (fun _ => "{}")
    (fun _ => Raise e)
    (fun _ _ => Raise e)
    show_exn.

(** An SDK whose organization listing returns [orgs]. *)
Definition listing_sdk (orgs : pyval) : World :=
  mkWorld None None
    (fun _ _ => Fails (ConnectionError "unreachable"))
    (fun _ => Raise (RequestException "not JSON"))
    (fun _ => "{}")
    (fun _ => Ok orgs)
    (fun _ _ => Raise (OtherException "unreachable"))
    show_exn.

(** The request [send_request] builds. *)
Definition request_for (w : World) (method url : string)
    (headers : gmap string string) (payload : pyval) : http_request :=
  mkRequest method url headers
    (if truthy payload then Some (json_dumps w payload) else None).

(** The error kind [send_request] reports for an exception of the
    transport that is not an [HTTPError]. *)
Definition error_kind (e : exn) : string :=
  match e with
  | ConnectionError _ | ConnectTimeout _ => "ConnectionError"
  | Timeout _ => "TimeoutError"
  | RequestException _ => "RequestException"
  | _ => "UnexpectedError"
  end.

(** The record returned for an [HTTPError] whose response tests false. *)
Definition http_error_unknown : pyval :=
  PDict [("error", PStr "HTTPError"); ("details", PStr "No response text");
         ("status_code", PStr "Unknown")].

(** *** Listings as the vendor API documents them *)

(** A profile, an assignment and a network as the vendor API returns
    them; the statements about the joins range over lists of these. *)
Record profile : Type := mkProfile {
  profileId : string;
  profileName : string;
}.

Record assignment : Type := mkAssignment {
  assignmentId : string;
  assignedNetwork : string;
  assignedProfile : string;
}.

Record network : Type := mkNetwork {
  networkId : string;
  networkName : string;
  networkType : string;
  timeZone : string;
  tags : list string;
}.

Definition profile_json (p : profile) : pyval :=
  PDict [("profileId", PStr (profileId p)); ("name", PStr (profileName p))].

Definition assignment_json (a : assignment) : pyval :=
  PDict [("assignmentId", PStr (assignmentId a));
         ("network", PDict [("id", PStr (assignedNetwork a))]);
         ("profile", PDict [("id", PStr (assignedProfile a))])].

Definition network_json (n : network) : pyval :=
  PDict [("id", PStr (networkId n)); ("name", PStr (networkName n));
         ("type", PStr (networkType n));
         ("timeZone", PStr (timeZone n));
         ("tags", PList (map PStr (tags n)))].

(** The body of a listing endpoint: [{"items": [...]}]. *)
Definition items_json (l : list pyval) : pyval := PDict [("items", PList l)].

(** The name the network list gives to a network id: that of the last
    network with this id, or the sentinel when there is none. *)
Definition name_of_network (networks : list network) (id : string) : pyval :=
  match last (filter (fun n => networkId n = id) networks) with
  | Some n => PStr (networkName n)
  | None => PStr "[unknown]"
  end.

Definition name_of_profile (profiles : list profile) (id : string) : pyval :=
  match last (filter (fun p => profileId p = id) profiles) with
  | Some p => PStr (profileName p)
  | None => PStr "[unknown]"
  end.

(** The assignment that counts for a profile id: the last one that
    names this profile and carries non-empty ids. *)
Definition assignment_of (assignments : list assignment) (id : string)
    : option assignment :=
  last (filter (fun a => assignedProfile a = id
                         /\ assignedProfile a <> "" /\ assignedNetwork a <> "")
          assignments).

(** The display record of a profile. *)
Definition profile_view (profile_id name network network_label : pyval)
    : pyval :=
  PDict [("Profile ID", profile_id); ("Name", name);
         ("Network ID", network); ("Network Name", network_label)].

(** The display record of an assignment. *)
Definition assignment_view (networks : list network) (profiles : list profile)
    (a : assignment) : pyval :=
  PDict [("Assignment ID", PStr (assignmentId a));
         ("Network ID", PStr (assignedNetwork a));
         ("Network Name", name_of_network networks (assignedNetwork a));
         ("Profile ID", PStr (assignedProfile a));
         ("Profile Name", name_of_profile profiles (assignedProfile a))].

(** The server answers [GET endpoint], whenever asked, with a response
    outside 4xx and 5xx whose body parses to [body]. *)
Definition gets (w : World) (g : LocalDns.Globals) (endpoint : string)
    (body : pyval) : Prop :=
  exists r,
    (forall tr,
       requests_request w tr
         (request_for w "GET"
            (local_dns_url (LocalDns.ORGANIZATION_ID g) endpoint)
            (LocalDns.HEADERS g) PNone) = Responds r)
    /\ ~ (400 <= status_code r < 600)
    /\ strip_truthy (text r) = true
    /\ response_json w (text r) = Ok body.

(** The networks of the selected organization come as [listing]: from
    the cache, or from the SDK when the cache has no entry yet. *)
Definition networks_come_as (w : World) (g : LocalDns.Globals) (listing : pyval)
    : Prop :=
  let organization_id := default "" (LocalDns.ORGANIZATION_ID g) in
  LocalDns._networks_cache g !! organization_id = Some listing
  \/ (LocalDns._networks_cache g !! organization_id = None
      /\ (is_Some (LocalDns._dashboard g)
          \/ exists d, new_DashboardAPI w (LocalDns.API_KEY g) = Ok d)
      /\ forall tr, getOrganizationNetworks w tr organization_id = Ok listing).

(** An organization is selected, and the server and the SDK serve the
    three listings. *)
Definition serves (w : World) (networks : list network) (profiles : list profile)
    (assignments : list assignment) (g : LocalDns.Globals) : Prop :=
  str_truthy (LocalDns.ORGANIZATION_ID g) = true
  /\ networks_come_as w g (PList (map network_json networks))
  /\ gets w g "profiles" (items_json (map profile_json profiles))
  /\ gets w g "profiles/assignments" (items_json (map assignment_json assignments)).

(** A server for the organization "org-1" with one profile, one
    assignment and one network. *)
Definition demo_world : World :=
  mkWorld (Some "key") None
    (fun _ rq =>
       if String.eqb (req_url rq) (local_dns_url (Some "org-1") "profiles")
       then Responds (mkResponse 200 "profiles")
       else Responds (mkResponse 200 "assignments"))
    (fun body =>
       if String.eqb body "profiles"
       then Ok (items_json [profile_json (mkProfile "p1" "Test")])
       else Ok (items_json [assignment_json (mkAssignment "a1" "n1" "p1")]))
    (fun _ => "{}")
    (fun _ => Ok (PList []))
    (fun _ _ => Ok (PList [network_json (mkNetwork "n1" "Net1" "appliance" "UTC" ["hq"])]))
    show_exn.

Definition demo_globals : LocalDns.Globals :=
  LocalDns.set_organization_id (Some "org-1")
    (LocalDns.set_api_key demo_world None (LocalDns.init demo_world)).

(** A computation returns [a] and leaves the store [s'] and the calls [tr']. *)
Definition runs {S A} (c : M S A) (s : S) (tr : list io_event)
    (a : A) (s' : S) (tr' : list io_event) : Prop :=
  c s tr = (Ok a, s', tr').

(** The dict [{key(x): value(x) for x in l}], later entries winning. *)
Definition names_by {A} (key : A -> string) (value : A -> pyval) (l : list A)
    : gmap hkey pyval :=
  foldl (fun m x => <[HStr (key x) := value x]> m) ∅ l.

(** The display record of a network in [local_dns_logic.list_networks]. *)
Definition network_view (n : network) : pyval :=
  PDict [("ID", PStr (networkId n)); ("Name", PStr (networkName n));
         ("Type", PStr (networkType n)); ("Time Zone", PStr (timeZone n));
         ("Tags", PStr (join_strs ", " (tags n)))].

(** What [profile_to_network] holds for an assignment. *)
Definition network_info (networks : list network) (a : assignment) : pyval :=
  PDict [("Network ID", PStr (assignedNetwork a));
         ("Network Name", name_of_network networks (assignedNetwork a))].

(** The row of the enriched profile listing for a profile. *)
Definition enriched (networks : list network) (assignments : list assignment)
    (p : profile) : pyval :=
  match assignment_of assignments (profileId p) with
  | Some a =>
      profile_view (PStr (profileId p)) (PStr (profileName p))
        (PStr (assignedNetwork a))
        (name_of_network networks (assignedNetwork a))
  | None =>
      profile_view (PStr (profileId p)) (PStr (profileName p))
        (PStr "[unassigned]") (PStr "[unassigned]")
  end.

(** Two module states of one session: same organization, same headers. *)
Definition same_session (g g' : LocalDns.Globals) : Prop :=
  LocalDns.ORGANIZATION_ID g' = LocalDns.ORGANIZATION_ID g
  /\ LocalDns.HEADERS g' = LocalDns.HEADERS g.

(** The SDK client of an instance is the one built from its current
    key, and there is none when the key is unset. *)
Definition client_follows_key (s : Wrapper.MerakiAPIWrapper) : Prop :=
  Wrapper._dashboard s =
    if str_truthy (Wrapper._api_key s)
    then Some (mkDashboardAPI (default "" (Wrapper._api_key s)))
    else None.

(** An instance without a key holds no SDK client. *)
Definition no_client_without_key (s : Wrapper.MerakiAPIWrapper) : Prop :=
  Wrapper.is_api_key_set s = false -> Wrapper._dashboard s = None.

(** A step that does not break [no_client_without_key]. *)
Definition keeps_client (s s' : Wrapper.MerakiAPIWrapper) : Prop :=
  no_client_without_key s -> no_client_without_key s'.

(** The fields of a configuration that are required but not set. *)
Definition required_and_unset (s : Wrapper.MerakiAPIWrapper) (name : string) : Prop :=
  let required := Wrapper._required_app_setup_param s in
  (name = "API_KEY" /\ Wrapper.flag required "api_key" = true
   /\ Wrapper.is_api_key_set s = false)
  \/ (name = "ORGANIZATION_ID" /\ Wrapper.flag required "organization_id" = true
      /\ Wrapper.is_organization_id_set s = false)
  \/ (name = "NETWORK_ID" /\ Wrapper.flag required "network_id" = true
      /\ Wrapper.is_network_id_set s = false).

(** Two states hold the same stored configuration. *)
Definition same_configuration (s s' : Wrapper.MerakiAPIWrapper) : Prop :=
  Wrapper._required_app_setup_param s' = Wrapper._required_app_setup_param s.

(** An organization as the vendor SDK returns it; the [api] and
    [licensing] objects may be missing. *)
Record organization : Type := mkOrganization {
  organizationId : string;
  organizationName : string;
  organizationUrl : string;
  apiEnabled : option bool;
  licensingModel : option string;
}.

Definition organization_json (o : organization) : pyval :=
  PDict ([("id", PStr (organizationId o)); ("name", PStr (organizationName o));
          ("url", PStr (organizationUrl o))]
         ++ match apiEnabled o with
            | Some b => [("api", PDict [("enabled", PBool b)])]
            | None => []
            end
         ++ match licensingModel o with
            | Some m => [("licensing", PDict [("model", PStr m)])]
            | None => []
            end).

(** A DNS record as the vendor API returns it. *)
Record dns_record : Type := mkDnsRecord {
  recordId : string;
  hostname : string;
  address : string;
  recordProfile : string;
}.

Definition dns_record_json (r : dns_record) : pyval :=
  PDict [("recordId", PStr (recordId r)); ("hostname", PStr (hostname r));
         ("address", PStr (address r));
         ("profile", PDict [("id", PStr (recordProfile r))])].

(** The display records of the wrapper's listings. *)
Definition wrapper_organization_view (o : organization) : pyval :=
  PDict [("id", PStr (organizationId o)); ("name", PStr (organizationName o));
         ("url", PStr (organizationUrl o));
         ("api enabled", PBool (default false (apiEnabled o)));
         ("licensing model", of_opt_str (licensingModel o))].

Definition wrapper_network_view (n : network) : pyval :=
  PDict [("id", PStr (networkId n)); ("name", PStr (networkName n));
         ("yype", PStr (networkType n)); ("time zone", PStr (timeZone n));
         ("tags", PStr (join_strs ", " (tags n)))].

(** The display records of [local_dns_logic]. *)
Definition organization_view (o : organization) : pyval :=
  PDict [("ID", PStr (organizationId o)); ("Name", PStr (organizationName o));
         ("URL", PStr (organizationUrl o));
         ("API Enabled", PBool (default false (apiEnabled o)));
         ("Licensing Model", of_opt_str (licensingModel o))].

Definition dns_record_view (r : dns_record) : pyval :=
  PDict [("Record ID", PStr (recordId r)); ("Hostname", PStr (hostname r));
         ("Address", PStr (address r)); ("Profile ID", PStr (recordProfile r))].

(** The display records of [ProjectLogic]. *)
Definition project_dns_record_view (r : dns_record) : pyval :=
  PDict [("record id", PStr (recordId r)); ("hostname", PStr (hostname r));
         ("address", PStr (address r)); ("profile id", PStr (recordProfile r))].

Definition project_assignment_view (networks : list network)
    (profiles : list profile) (a : assignment) : pyval :=
  PDict [("assignment id", PStr (assignmentId a));
         ("network id", PStr (assignedNetwork a));
         ("network name", name_of_network networks (assignedNetwork a));
         ("profile id", PStr (assignedProfile a));
         ("profile name", name_of_profile profiles (assignedProfile a))].

Definition project_network_info (networks : list network) (a : assignment) : pyval :=
  PDict [("network id", PStr (assignedNetwork a));
         ("network name", name_of_network networks (assignedNetwork a))].

Definition project_enriched (networks : list network)
    (assignments : list assignment) (p : profile) : pyval :=
  match assignment_of assignments (profileId p) with
  | Some a =>
      PDict [("profile id", PStr (profileId p)); ("name", PStr (profileName p));
             ("network id", PStr (assignedNetwork a));
             ("network name", name_of_network networks (assignedNetwork a))]
  | None =>
      PDict [("profile id", PStr (profileId p)); ("name", PStr (profileName p));
             ("network id", PStr "[unassigned]");
             ("network name", PStr "[unassigned]")]
  end.

(** The organization id a call of the wrapper's network listing uses:
    the argument, unless it is [None]. *)
Definition resolved_organization (organization_id : option string)
    (s : Wrapper.MerakiAPIWrapper) : option string :=
  match organization_id with
  | Some i => Some i
  | None => Wrapper.get_organization_id s
  end.

(** The request a module-level operation sends. *)
Definition local_request (w : World) (g : LocalDns.Globals)
    (method endpoint : string) (payload : pyval) : http_request :=
  request_for w method (local_dns_url (LocalDns.ORGANIZATION_ID g) endpoint)
    (LocalDns.HEADERS g) payload.

(** The request an operation of [ProjectLogic] sends. *)
Definition project_request (w : World) (s : Wrapper.MerakiAPIWrapper)
    (method endpoint : string) (payload : pyval) : http_request :=
  request_for w method (local_dns_url (Wrapper.get_organization_id s) endpoint)
    (Wrapper.get_headers s) payload.

(** The server answers [rq], whenever asked, with status outside 4xx
    and 5xx and a body that parses to [body]. *)
Definition answers_with (w : World) (rq : http_request) (body : pyval) : Prop :=
  exists r,
    (forall tr, requests_request w tr rq = Responds r)
    /\ ~ (400 <= status_code r < 600)
    /\ strip_truthy (text r) = true
    /\ response_json w (text r) = Ok body.

(** A computation keeps a relation between the store before and after. *)
Definition keeps {S A} (R : S -> S -> Prop) (c : M S A) : Prop :=
  forall s tr, R s (c s tr).1.2.

(** A computation neither reads nor changes the store and issues no call. *)
Definition pure {S A} (c : M S A) : Prop :=
  exists r, forall s tr, c s tr = (r, s, tr).

(** A computation always returns normally. *)
Definition never_raises {S A} (c : M S A) : Prop :=
  forall s tr, exists a, (c s tr).1.1 = Ok a.

(** The scope fields of two wrapper states agree. *)
Definition same_scope (s s' : Wrapper.MerakiAPIWrapper) : Prop :=
  Wrapper._api_key s' = Wrapper._api_key s
  /\ Wrapper._organization_id s' = Wrapper._organization_id s
  /\ Wrapper._organization_name s' = Wrapper._organization_name s
  /\ Wrapper._network_id s' = Wrapper._network_id s
  /\ Wrapper._network_name s' = Wrapper._network_name s.

(** A computation sends the request [rq], calls nothing else and
    leaves the store as it is, whether it returns or raises. *)
Definition sends_only {S A} (c : M S A) (rq : http_request) (s : S) : Prop :=
  forall tr, exists r, c s tr = (r, s, tr ++ [HttpCall rq]).

(** A computation returns [a] without a call and leaves the store as
    it is. *)
Definition returns_at_once {S A} (c : M S A) (a : A) (s : S) : Prop :=
  forall tr, c s tr = (Ok a, s, tr).

(** The wrapper holds a credential and a selected organization, the
    SDK lists [networks] for it, and the server serves the two
    listings to the requests of [ProjectLogic]. *)
Definition project_serves (w : World) (networks : list network)
    (profiles : list profile) (assignments : list assignment)
    (s : Wrapper.MerakiAPIWrapper) : Prop :=
  Wrapper.is_api_key_set s = true
  /\ str_truthy (Wrapper.get_organization_id s) = true
  /\ (forall tr,
        getOrganizationNetworks w tr (default "" (Wrapper.get_organization_id s))
        = Ok (PList (map network_json networks)))
  /\ answers_with w (project_request w s "GET" "profiles" PNone)
       (items_json (map profile_json profiles))
  /\ answers_with w (project_request w s "GET" "profiles/assignments" PNone)
       (items_json (map assignment_json assignments)).

(** The record the request functions return for an outcome of the
    transport that is a failure: an exception of [requests] other than
    [HTTPError], or a response with a 4xx or 5xx status. *)
Definition failure_record (w : World) (o : http_outcome) : option pyval :=
  match o with
  | Fails (HTTPError _) => None
  | Fails e => Some (error_record (error_kind e) (PStr (exn_str w e)))
  | Responds r =>
      if (400 <=? status_code r) && (status_code r <? 600)
      then Some http_error_unknown else None
  end.

(** What [create_profile] makes of the parsed body of the answer,
    under the two labels of its display record. *)
Definition profile_created (id_label name_label : string) (body : pyval)
    : result pyval :=
  match body with
  | PDict d =>
      if is_error body then Ok body
      else Ok (PDict [(id_label, default PNone (assoc "profileId" d));
                      (name_label, default PNone (assoc "name" d))])
  | _ => Raise (Fault (NoAttribute (type_name body) "get"))
  end.

(** What [create_dns_record] makes of the parsed body of the answer. *)
Definition record_created (body : pyval) : result pyval :=
  match body with
  | PDict _ => Ok body
  | _ => Raise (Fault (NoAttribute (type_name body) "get"))
  end.

(** * Properties *)

(** ** Reasoning about computations *)

Section Frame.
Context {S : Type} (R : S -> S -> Prop).
Context {R_refl : Reflexive R} {R_trans : Transitive R}.

Lemma keeps_ret {A} (a : A) : keeps R (ret a).
Proof. intros s tr. apply R_refl. Qed.

Lemma keeps_raise {A} (e : exn) : keeps R (@raise S A e).
Proof. intros s tr. apply R_refl. Qed.

Lemma keeps_lift {A} (r : result A) : keeps R (lift r).
Proof. intros s tr. apply R_refl. Qed.

Lemma keeps_get : keeps R get.
Proof. intros s tr. apply R_refl. Qed.

Lemma keeps_call {A} ev (oracle : list io_event -> A) : keeps R (call ev oracle).
Proof. intros s tr. apply R_refl. Qed.

Lemma keeps_modify (f : S -> S) : (forall s, R s (f s)) -> keeps R (modify f).
Proof. intros Hf s tr. apply Hf. Qed.

Lemma keeps_bind {A B} (c : M S A) (k : A -> M S B) :
  keeps R c -> (forall a, keeps R (k a)) -> keeps R (bind c k).
Proof.
  intros Hc Hk s tr. unfold bind. specialize (Hc s tr).
  destruct (c s tr) as [[[a|e] s1] tr1]; simpl in *.
  - eapply R_trans; [exact Hc | apply Hk].
  - exact Hc.
Qed.

Lemma keeps_try {A} (c : M S A) (h : exn -> M S A) :
  keeps R c -> (forall e, keeps R (h e)) -> keeps R (try_except c h).
Proof.
  intros Hc Hh s tr. unfold try_except. specialize (Hc s tr).
  destruct (c s tr) as [[[a|e] s1] tr1]; simpl in *.
  - exact Hc.
  - eapply R_trans; [exact Hc | apply Hh].
Qed.

Lemma keeps_for_each {A B} (f : B -> A -> M S B) (l : list A) :
  (forall b a, keeps R (f b a)) -> forall acc, keeps R (for_each f l acc).
Proof.
  intros Hf. induction l as [|x l IH]; intros acc; simpl.
  - apply keeps_ret.
  - apply keeps_bind; [apply Hf | intros b; apply IH].
Qed.

Lemma keeps_comprehension (f : pyval -> M S pyval) (l : list pyval) :
  (forall x, keeps R (f x)) -> keeps R (comprehension f l).
Proof.
  intros Hf. unfold comprehension. apply keeps_for_each.
  intros b a. apply keeps_bind; [apply Hf | intros y; apply keeps_ret].
Qed.
End Frame.

Section Purity.
Context {S : Type}.

Lemma pure_ret {A} (a : A) : pure (@ret S A a).
Proof. exists (Ok a). reflexivity. Qed.

Lemma pure_lift {A} (r : result A) : pure (@lift S A r).
Proof. exists r. reflexivity. Qed.

Lemma pure_bind {A B} (c : M S A) (k : A -> M S B) :
  pure c -> (forall a, pure (k a)) -> pure (bind c k).
Proof.
  intros [r Hc] Hk. unfold bind. destruct r as [a|e].
  - destruct (Hk a) as [r' Hr']. exists r'. intros s tr. rewrite Hc. apply Hr'.
  - exists (Raise e). intros s tr. rewrite Hc. reflexivity.
Qed.

Lemma pure_for_each {A B} (f : B -> A -> M S B) (l : list A) :
  (forall b a, pure (f b a)) -> forall acc, pure (for_each f l acc).
Proof.
  intros Hf. induction l as [|x l IH]; intros acc; simpl.
  - apply pure_ret.
  - apply pure_bind; [apply Hf | intros b; apply IH].
Qed.

Lemma pure_comprehension (f : pyval -> M S pyval) (l : list pyval) :
  (forall x, pure (f x)) -> pure (comprehension f l).
Proof.
  intros Hf. unfold comprehension. apply pure_for_each.
  intros b a. apply pure_bind; [apply Hf | intros y; apply pure_ret].
Qed.
End Purity.

Ltac pure_step :=
  lazymatch goal with
  | |- pure (ret _) => apply pure_ret
  | |- pure (lift _) => apply pure_lift
  | |- pure (bind _ _) => apply pure_bind; [| intros ?]
  | |- pure (comprehension _ _) => apply pure_comprehension; intros ?
  | |- pure (for_each _ _ _) => apply pure_for_each; intros ? ?
  | |- pure (if ?b then _ else _) => destruct b
  | |- pure (match ?x with _ => _ end) => destruct x
  end.

Ltac pure_auto := repeat pure_step.

Global Instance same_scope_refl : Reflexive same_scope.
Proof. intros s. repeat split. Qed.

Global Instance same_scope_trans : Transitive same_scope.
Proof.
  intros a b c (H1 & H2 & H3 & H4 & H5) (K1 & K2 & K3 & K4 & K5).
  repeat split; congruence.
Qed.

(** Apply the frame lemmas down the structure of a computation. *)
Ltac keeps_step :=
  lazymatch goal with
  | |- keeps ?R (ret _) => apply (keeps_ret R)
  | |- keeps ?R (raise _) => apply (keeps_raise R)
  | |- keeps ?R (lift _) => apply (keeps_lift R)
  | |- keeps ?R get => apply (keeps_get R)
  | |- keeps ?R (call _ _) => apply (keeps_call R)
  | |- keeps ?R (bind _ _) => apply (keeps_bind R); [| intros ?]
  | |- keeps ?R (try_except _ _) => apply (keeps_try R); [| intros ?]
  | |- keeps ?R (comprehension _ _) => apply (keeps_comprehension R); intros ?
  | |- keeps ?R (for_each _ _ _) => apply (keeps_for_each R); intros ? ?
  | |- keeps _ (if ?b then _ else _) => destruct b
  | |- keeps _ (match ?x with _ => _ end) => destruct x
  end.

Ltac keeps_auto := repeat keeps_step.

(** ** Scope state *)

Import Wrapper.

Lemma str_truthy_Some (v : string) : v <> "" -> str_truthy (Some v) = true.
Proof.
  intros H. simpl. destruct (String.eqb_spec v ""); [contradiction | reflexivity].
Qed.

(** After [set_api_key] the key is the argument, else the environment
    variable, else unset. *)
Lemma set_api_key_value (w : World) (api_key : option string) (s : MerakiAPIWrapper) :
  _api_key (set_api_key w api_key s) =
    (if str_truthy api_key then api_key
     else if str_truthy (getenv_MK_CSM_KEY w) then getenv_MK_CSM_KEY w
     else None).
Proof.
  unfold set_api_key.
  destruct (str_truthy api_key) eqn:Ha;
    [| destruct (str_truthy (getenv_MK_CSM_KEY w)) eqn:He ];
    repeat (match goal with
            | |- context [match ?x with _ => _ end] => destruct x eqn:?
            end; simpl in *; try congruence).
Qed.

Lemma set_api_key_is_set (w : World) (api_key : option string) (s : MerakiAPIWrapper) :
  is_api_key_set (set_api_key w api_key s) =
    str_truthy api_key || str_truthy (getenv_MK_CSM_KEY w).
Proof.
  unfold is_api_key_set. rewrite set_api_key_value.
  destruct (str_truthy api_key) eqn:Ha.
  - destruct api_key; simpl in *; [exact Ha | discriminate].
  - simpl. destruct (str_truthy (getenv_MK_CSM_KEY w)) eqn:He; [| reflexivity].
    destruct (getenv_MK_CSM_KEY w); simpl in *; [exact He | discriminate].
Qed.

(** [set_api_key] touches the key and the SDK client only. *)
Lemma set_api_key_frame (w : World) (api_key : option string) (s : MerakiAPIWrapper) :
  let s' := set_api_key w api_key s in
  _organization_id s' = _organization_id s
  /\ _organization_name s' = _organization_name s
  /\ _network_id s' = _network_id s
  /\ _network_name s' = _network_name s
  /\ _enable_caching s' = _enable_caching s
  /\ _organizations_cache s' = _organizations_cache s
  /\ _networks_cache s' = _networks_cache s
  /\ _required_app_setup_param s' = _required_app_setup_param s.
Proof.
  unfold set_api_key.
  repeat (match goal with
          | |- context [if ?x then _ else _] => destruct x
          | |- context [match ?x with _ => _ end] => destruct x
          end; simpl);
    repeat split.
Qed.

Lemma set_organization_id_is_set (i n : option string) (s : MerakiAPIWrapper) :
  str_truthy i = true ->
  is_organization_id_set (set_organization_id i n s) = true
  /\ _organization_id (set_organization_id i n s) = i.
Proof.
  intros Hi. unfold set_organization_id, is_organization_id_set. rewrite Hi.
  destruct (str_truthy n); simpl; destruct i; simpl in *; auto; discriminate.
Qed.

Lemma set_network_id_is_set (i n : option string) (s : MerakiAPIWrapper) :
  str_truthy i = true ->
  is_network_id_set (set_network_id i n s) = true
  /\ _network_id (set_network_id i n s) = i.
Proof.
  intros Hi. unfold set_network_id, is_network_id_set. rewrite Hi.
  destruct (str_truthy n); simpl; destruct i; simpl in *; auto; discriminate.
Qed.

(** C1: the order check fails exactly when the organization id is
    required without the API key, or the network id is required without
    the API key or the organization id; when it fails,
    [setup_application_parameters] returns false whatever the supplied
    values; for every other configuration the check succeeds. *)
Theorem required_parameter_order (required_params : gmap string bool) :
  let api_key_required := flag required_params "api_key" in
  let organization_id_required := flag required_params "organization_id" in
  let network_id_required := flag required_params "network_id" in
  if (organization_id_required && negb api_key_required)
     || (network_id_required
         && (negb api_key_required || negb organization_id_required))
  then
    _check_required_parameter_order required_params = false
    /\ forall w app_setup_param enable_caching s,
         fst (setup_application_parameters w required_params
                app_setup_param enable_caching s) = false
  else _check_required_parameter_order required_params = true.
Proof.
  intros a o n. unfold setup_application_parameters, setup_run.
  unfold _check_required_parameter_order. fold a o n.
  destruct a, o, n; simpl; try reflexivity; split; try reflexivity; intros;
    destruct enable_caching; reflexivity.
Qed.

(** C10: [set_organization_id] with a non-empty id and no name changes
    the stored organization id and nothing else, so the name kept is
    that of the earlier selection; [set_network_id] likewise. *)
Theorem set_id_without_name_keeps_name (s : MerakiAPIWrapper) (id : string)
    (Hid : id <> "") :
  (let s' := set_organization_id (Some id) None s in
   _organization_id s' = Some id
   /\ _organization_name s' = _organization_name s
   /\ _api_key s' = _api_key s
   /\ _network_id s' = _network_id s
   /\ _network_name s' = _network_name s
   /\ _enable_caching s' = _enable_caching s
   /\ _dashboard s' = _dashboard s
   /\ _organizations_cache s' = _organizations_cache s
   /\ _networks_cache s' = _networks_cache s
   /\ _required_app_setup_param s' = _required_app_setup_param s)
  /\ (let s' := set_network_id (Some id) None s in
      _network_id s' = Some id
      /\ _network_name s' = _network_name s
      /\ _api_key s' = _api_key s
      /\ _organization_id s' = _organization_id s
      /\ _organization_name s' = _organization_name s
      /\ _enable_caching s' = _enable_caching s
      /\ _dashboard s' = _dashboard s
      /\ _organizations_cache s' = _organizations_cache s
      /\ _networks_cache s' = _networks_cache s
      /\ _required_app_setup_param s' = _required_app_setup_param s)
  /\ (forall id0 name0 : string, id0 <> "" -> name0 <> "" ->
      let s0 := set_organization_id (Some id0) (Some name0) s in
      let s' := set_organization_id (Some id) None s0 in
      (_organization_id s0, _organization_name s0) = (Some id0, Some name0)
      /\ (_organization_id s', _organization_name s') = (Some id, Some name0))
  /\ (forall id0 name0 : string, id0 <> "" -> name0 <> "" ->
      let s0 := set_network_id (Some id0) (Some name0) s in
      let s' := set_network_id (Some id) None s0 in
      (_network_id s0, _network_name s0) = (Some id0, Some name0)
      /\ (_network_id s', _network_name s') = (Some id, Some name0)).
Proof.
  unfold set_organization_id, set_network_id. simpl.
  repeat split; intros;
    repeat match goal with
           | |- context [String.eqb ?x ""] =>
               destruct (String.eqb_spec x ""); [contradiction |]
           end;
    reflexivity.
Qed.

Lemma set_id_without_name_keeps_name_witness :
  let s := set_organization_id (Some "org-A") (Some "Alpha") (init offline (Some "key") false) in
  let s' := set_organization_id (Some "org-B") None s in
  (_organization_id s', _organization_name s') = (Some "org-B", Some "Alpha").
Proof.
  intros s s'.
  pose proof (set_id_without_name_keeps_name s "org-B" ltac:(discriminate)) as H.
  destruct H as [(H1 & H2 & _) _]. fold s' in H1, H2.
  rewrite H1, H2. reflexivity.
Defined.

(** C5: when [setup_application_parameters] returns false at the
    organization step, the credential set by the credential step is
    still set and holds the same value; when it returns false at the
    network step, so do the credential and the organization id set by
    the organization step.  Fields of later steps keep the value they
    had before the call: nothing is rolled back. *)
Theorem setup_failure_keeps_earlier_fields (w : World)
    (required_app_setup_parm : gmap string bool)
    (app_setup_param : option (gmap string string))
    (enable_caching : option bool) (s : MerakiAPIWrapper)
    (e : setup_exit) (s' : MerakiAPIWrapper) :
  setup_run w required_app_setup_parm app_setup_param enable_caching s = (e, s') ->
  let supplied : gmap string string := default ∅ app_setup_param in
  setup_application_parameters w required_app_setup_parm app_setup_param
    enable_caching s = (exit_value e, s')
  /\ match e with
     | InvalidOrder => same_scope s s'
     | ApiKeyFailed =>
         _organization_id s' = _organization_id s
         /\ _organization_name s' = _organization_name s
         /\ _network_id s' = _network_id s
         /\ _network_name s' = _network_name s
     | OrgNeedsApiKey | OrgNotProvided | OrgFailed =>
         is_api_key_set s' = true
         /\ _api_key s' = _api_key (set_api_key w (supplied !! "api_key") s)
         /\ _organization_id s' = _organization_id s
         /\ _organization_name s' = _organization_name s
         /\ _network_id s' = _network_id s
         /\ _network_name s' = _network_name s
     | NetNeedsPrerequisites | NetNotProvided | NetFailed =>
         is_api_key_set s' = true
         /\ _api_key s' = _api_key (set_api_key w (supplied !! "api_key") s)
         /\ is_organization_id_set s' = true
         /\ _organization_id s' = supplied !! "organization_id"
         /\ _network_id s' = _network_id s
         /\ _network_name s' = _network_name s
     | SetupComplete => True
     end.
Proof.
  intros H supplied.
  split; [unfold setup_application_parameters; rewrite H; reflexivity |].
  revert H. unfold setup_run.
  set (s0 := match enable_caching with
             | Some b => assign_enable_caching b s
             | None => s
             end).
  assert (Hs0 : same_scope s s0) by (subst s0; destruct enable_caching; repeat split).
  unfold _check_required_parameter_order.
  fold supplied.
  destruct (flag required_app_setup_parm "api_key") eqn:Fa,
           (flag required_app_setup_parm "organization_id") eqn:Fo,
           (flag required_app_setup_parm "network_id") eqn:Fn; simpl;
    try (intros H; inversion H; subst; exact Hs0).
  all: set (s1 := assign_required_app_setup_param required_app_setup_parm s0).
  all: assert (Hs1 : same_scope s s1) by (destruct Hs0 as (?&?&?&?&?); repeat split; assumption).
  all: unfold setup_organization, setup_network; rewrite ?Fo, ?Fn.
  all: try (intros H; inversion H; subst; exact I).
  all: set (s2 := set_api_key w (supplied !! "api_key") s1).
  all: pose proof (set_api_key_frame w (supplied !! "api_key") s1) as Hfr;
       cbv zeta in Hfr; fold s2 in Hfr; destruct Hfr as (Q1 & Q2 & Q3 & Q4 & _).
  all: assert (Hkey : _api_key s2 = _api_key (set_api_key w (supplied !! "api_key") s))
         by (subst s2; rewrite !set_api_key_value; reflexivity).
  all: destruct Hs1 as (P0 & P1 & P2 & P3 & P4).
  all: destruct (is_api_key_set s2) eqn:Hset; simpl;
       try (intros H; inversion H; subst; repeat split; congruence).
  - (* organization and network required *)
    destruct (str_truthy (supplied !! "organization_id")) eqn:Ho;
      [| intros H; inversion H; subst; repeat split; congruence ].
    destruct (set_organization_id_is_set (supplied !! "organization_id")
                (supplied !! "org_name") s2 Ho) as [Hoset Hoid].
    set (s3 := set_organization_id (supplied !! "organization_id")
                 (supplied !! "org_name") s2) in *.
    assert (Hfr3 : _api_key s3 = _api_key s2 /\ _network_id s3 = _network_id s2
                   /\ _network_name s3 = _network_name s2).
    { subst s3. unfold set_organization_id. rewrite Ho.
      destruct (str_truthy (supplied !! "org_name")); repeat split. }
    destruct Hfr3 as (R1 & R2 & R3).
    assert (Hset3 : is_api_key_set s3 = true)
      by (unfold is_api_key_set in *; rewrite R1; exact Hset).
    rewrite Hoset, Hset3. simpl.
    destruct (str_truthy (supplied !! "network_id")) eqn:Hn.
    + destruct (set_network_id_is_set (supplied !! "network_id")
                  (supplied !! "net_name") s3 Hn) as [Hnset _].
      rewrite Hnset. simpl. intros H; inversion H; subst; exact I.
    + intros H; inversion H; subst. repeat split; congruence.
  - (* organization required, network not *)
    destruct (str_truthy (supplied !! "organization_id")) eqn:Ho;
      [| intros H; inversion H; subst; repeat split; congruence ].
    destruct (set_organization_id_is_set (supplied !! "organization_id")
                (supplied !! "org_name") s2 Ho) as [Hoset Hoid].
    rewrite Hoset. simpl. intros H; inversion H; subst; exact I.
Qed.

Lemma setup_failure_keeps_earlier_fields_witness :
  let required : gmap string bool :=
    {[ "api_key" := true; "organization_id" := true; "network_id" := true ]} in
  let supplied : gmap string string :=
    {[ "api_key" := "key-1"; "organization_id" := "org-1" ]} in
  let r := setup_application_parameters offline required (Some supplied) None
             (init offline None false) in
  fst r = false
  /\ _api_key (snd r) = Some "key-1"
  /\ _organization_id (snd r) = Some "org-1".
Proof.
  intros required supplied r.
  pose proof (setup_failure_keeps_earlier_fields offline required (Some supplied)
                None (init offline None false) _ _ (surjective_pairing _)) as H.
  cbv zeta in H. destruct H as [Hret H].
  assert (He : fst (setup_run offline required (Some supplied) None
                      (init offline None false)) = NetNotProvided)
    by (vm_compute; reflexivity).
  rewrite He in H, Hret. destruct H as (_ & Hk & _ & Ho & _).
  subst r. rewrite Hret. simpl. split; [reflexivity |].
  split; [rewrite Hk | rewrite Ho]; vm_compute; reflexivity.
Defined.

(** The fields a step of the setup leaves set. *)
Lemma setup_network_stays_set (r : gmap string bool) (p : gmap string string)
    (s : MerakiAPIWrapper) :
  let s' := snd (setup_network r p s) in
  _api_key s' = _api_key s
  /\ _organization_id s' = _organization_id s
  /\ (is_network_id_set s = true -> is_network_id_set s' = true).
Proof.
  unfold setup_network.
  destruct (flag r "network_id"); simpl; [| auto ].
  destruct (negb (is_api_key_set s) || negb (is_organization_id_set s));
    simpl; [auto |].
  destruct (str_truthy (p !! "network_id")) eqn:Hn; simpl; [| auto ].
  destruct (set_network_id_is_set (p !! "network_id") (p !! "net_name") s Hn)
    as [Hs _].
  rewrite Hs. simpl. rewrite Hs.
  unfold set_network_id. rewrite Hn.
  destruct (str_truthy (p !! "net_name")); auto.
Qed.

Lemma setup_organization_stays_set (r : gmap string bool) (p : gmap string string)
    (s : MerakiAPIWrapper) :
  let s' := snd (setup_organization r p s) in
  _api_key s' = _api_key s
  /\ (is_organization_id_set s = true -> is_organization_id_set s' = true)
  /\ (is_network_id_set s = true -> is_network_id_set s' = true).
Proof.
  unfold setup_organization.
  assert (Hnet : forall s0,
    let s' := snd (setup_network r p s0) in
    _api_key s' = _api_key s0
    /\ (is_organization_id_set s0 = true -> is_organization_id_set s' = true)
    /\ (is_network_id_set s0 = true -> is_network_id_set s' = true)).
  { intros s0. destruct (setup_network_stays_set r p s0) as (A & B & C).
    cbv zeta. unfold is_organization_id_set. rewrite B. auto. }
  destruct (flag r "organization_id"); [| apply Hnet ].
  destruct (negb (is_api_key_set s)); simpl; [auto |].
  destruct (str_truthy (p !! "organization_id")) eqn:Ho; simpl; [| auto ].
  destruct (set_organization_id_is_set (p !! "organization_id")
              (p !! "org_name") s Ho) as [Hs _].
  rewrite Hs. simpl.
  set (s1 := set_organization_id (p !! "organization_id") (p !! "org_name") s) in *.
  assert (Hfr : _api_key s1 = _api_key s /\ _network_id s1 = _network_id s).
  { subst s1. unfold set_organization_id. rewrite Ho.
    destruct (str_truthy (p !! "org_name")); auto. }
  destruct Hfr as [F1 F2]. destruct (Hnet s1) as (A & B & C).
  split; [congruence |]. split; [auto |].
  intros Hn. apply C. unfold is_network_id_set in *. rewrite F2. exact Hn.
Qed.

Lemma same_scope_stays_set (s s' : MerakiAPIWrapper) :
  same_scope s s' ->
  is_api_key_set s' = is_api_key_set s
  /\ is_organization_id_set s' = is_organization_id_set s
  /\ is_network_id_set s' = is_network_id_set s.
Proof.
  intros (A & B & _ & C & _).
  unfold is_api_key_set, is_organization_id_set, is_network_id_set.
  rewrite A, B, C. auto.
Qed.

(** The cache layer leaves the scope fields alone. *)
Lemma the_dashboard_scope : keeps same_scope the_dashboard.
Proof.
  intros s tr. unfold the_dashboard, get_dashboard.
  destruct (_dashboard s); simpl; [reflexivity |].
  destruct (negb (str_truthy (_api_key s))); simpl; repeat split.
Qed.

Lemma store_organizations_scope (v : pyval) : keeps same_scope (store_organizations v).
Proof.
  apply keeps_modify. intros s. destruct (_enable_caching s); repeat split.
Qed.

Lemma store_networks_scope (i : string) (v : pyval) :
  keeps same_scope (store_networks i v).
Proof.
  apply keeps_modify. intros s. destruct (_enable_caching s); repeat split.
Qed.

Lemma _get_organizations_scope (w : World) (use_cache : bool) :
  keeps same_scope (_get_organizations w use_cache).
Proof.
  unfold _get_organizations, fetch_organizations.
  keeps_auto; first [apply the_dashboard_scope | apply store_organizations_scope].
Qed.

Lemma _get_networks_scope (w : World) (i : option string) (use_cache : bool) :
  keeps same_scope (_get_networks w i use_cache).
Proof.
  unfold _get_networks, fetch_networks.
  keeps_auto;
    first [ apply the_dashboard_scope | apply store_networks_scope
          | apply keeps_modify; intros s; destruct (_networks_cache s); repeat split ].
Qed.

Lemma list_organizations_scope (w : World) (use_cache : bool) :
  keeps same_scope (list_organizations w use_cache).
Proof.
  unfold list_organizations, organization_row.
  keeps_auto; apply _get_organizations_scope.
Qed.

Lemma list_networks_scope (w : World) (i : option string) (use_cache : bool) :
  keeps same_scope (list_networks w i use_cache).
Proof.
  unfold list_networks, network_row.
  keeps_auto; apply _get_networks_scope.
Qed.

(** C6 as stated does not hold: a call of [set_api_key] without an
    argument, when the environment variable is missing, moves the
    credential of a live instance from set back to unset. *)
Lemma credential_goes_back_to_unset :
  ~ (forall (w : World) (op : operation) (s : MerakiAPIWrapper) (tr : list io_event),
       let s' := fst (step w op s tr) in
       (is_api_key_set s = true -> is_api_key_set s' = true)
       /\ (is_organization_id_set s = true -> is_organization_id_set s' = true)
       /\ (is_network_id_set s = true -> is_network_id_set s' = true)).
Proof.
  intros H.
  destruct (H offline (Call_set_api_key None) (init offline (Some "key") false) [])
    as [Hkey _].
  specialize (Hkey eq_refl). vm_compute in Hkey. discriminate.
Qed.

(** C6, amended: no method call moves the organization id or the
    network id from set to unset, and a set credential stays set after
    every call except [set_api_key], called directly or by a setup that
    requires the key, with neither a key argument nor the environment
    variable: that call leaves the credential unset. *)
Theorem scope_fields_stay_set (w : World) (op : operation) (s : MerakiAPIWrapper)
    (tr : list io_event) :
  let s' := fst (step w op s tr) in
  (is_organization_id_set s = true -> is_organization_id_set s' = true)
  /\ (is_network_id_set s = true -> is_network_id_set s' = true)
  /\ (is_api_key_set s = true ->
      is_api_key_set s' = negb (drops_credential w op)).
Proof.
  assert (Hkeep : forall {A} (c : M MerakiAPIWrapper A),
            keeps same_scope c ->
            let s' := fst (after c s tr) in
            (is_organization_id_set s = true -> is_organization_id_set s' = true)
            /\ (is_network_id_set s = true -> is_network_id_set s' = true)
            /\ (is_api_key_set s = true -> is_api_key_set s' = true)).
  { intros A c Hc. specialize (Hc s tr). unfold after.
    destruct (c s tr) as [[r s1] tr1]. simpl in *.
    destruct (same_scope_stays_set _ _ Hc) as (E1 & E2 & E3).
    rewrite E1, E2, E3. auto. }
  destruct op; simpl;
    try (split; [| split]; intros Hx; exact Hx);
    try (first [ apply (Hkeep _ _ (_get_organizations_scope w use_cache))
               | apply (Hkeep _ _ (_get_networks_scope w organization_id use_cache))
               | apply (Hkeep _ _ (list_organizations_scope w use_cache))
               | apply (Hkeep _ _ (list_networks_scope w organization_id use_cache)) ]).
  - (* set_api_key *)
    pose proof (set_api_key_frame w api_key s) as F. cbv zeta in F.
    destruct F as (F1 & _ & F3 & _).
    unfold is_organization_id_set, is_network_id_set. rewrite F1, F3.
    repeat split; auto. intros _. rewrite set_api_key_is_set.
    destruct (str_truthy api_key), (str_truthy (getenv_MK_CSM_KEY w)); reflexivity.
  - (* set_organization_id *)
    unfold set_organization_id.
    destruct (str_truthy organization_id) eqn:Ho; [| auto ].
    destruct (set_organization_id_is_set organization_id organization_name s Ho)
      as [Hs _].
    unfold set_organization_id in Hs. rewrite Ho in Hs.
    split; [intros _; exact Hs |].
    destruct (str_truthy organization_name); simpl; auto.
  - (* set_network_id *)
    unfold set_network_id.
    destruct (str_truthy network_id) eqn:Hn; [| auto ].
    destruct (set_network_id_is_set network_id network_name s Hn) as [Hs _].
    unfold set_network_id in Hs. rewrite Hn in Hs.
    split; [| split; [intros _; exact Hs |]];
      destruct (str_truthy network_name); simpl; auto.
  - (* get_dashboard *)
    unfold get_dashboard. destruct (_dashboard s); simpl; [auto |].
    destruct (negb (str_truthy (_api_key s))); simpl; auto.
  - (* setup_application_parameters *)
    unfold setup_run.
    set (s0 := match enable_caching with
               | Some b => assign_enable_caching b s
               | None => s
               end).
    assert (Hs0 : same_scope s s0)
      by (subst s0; destruct enable_caching; repeat split).
    destruct (same_scope_stays_set _ _ Hs0) as (E1 & E2 & E3).
    destruct (_check_required_parameter_order required_app_setup_parm); simpl;
      [| rewrite E1, E2, E3; auto ].
    set (s1 := assign_required_app_setup_param required_app_setup_parm s0).
    assert (Hs1 : same_scope s0 s1) by (subst s1; repeat split).
    destruct (same_scope_stays_set _ _ Hs1) as (G1 & G2 & G3).
    set (p := default ∅ app_setup_param).
    destruct (flag required_app_setup_parm "api_key"); simpl.
    + pose proof (set_api_key_frame w (p !! "api_key") s1) as F. cbv zeta in F.
      destruct F as (F1 & _ & F3 & _).
      pose proof (set_api_key_is_set w (p !! "api_key") s1) as Hset.
      set (s2 := set_api_key w (p !! "api_key") s1) in *.
      assert (Ho2 : is_organization_id_set s2 = is_organization_id_set s)
        by (unfold is_organization_id_set in *; rewrite F1; congruence).
      assert (Hn2 : is_network_id_set s2 = is_network_id_set s)
        by (unfold is_network_id_set in *; rewrite F3; congruence).
      destruct (is_api_key_set s2) eqn:Hk; simpl.
      * destruct (setup_organization_stays_set required_app_setup_parm p s2)
          as (A & B & C).
        split; [intros; apply B; congruence |].
        split; [intros; apply C; congruence |].
        intros _.
        replace (is_api_key_set (setup_organization required_app_setup_parm p s2).2)
          with (is_api_key_set s2)
          by (unfold is_api_key_set; rewrite A; reflexivity).
        rewrite Hk.
        destruct (str_truthy (p !! "api_key")),
                 (str_truthy (getenv_MK_CSM_KEY w)); simpl in *; congruence.
      * rewrite Ho2, Hn2. repeat split; auto. intros _.
        destruct (str_truthy (p !! "api_key")),
                 (str_truthy (getenv_MK_CSM_KEY w)); simpl in *; congruence.
    + destruct (setup_organization_stays_set required_app_setup_parm p s1)
        as (A & B & C).
      split; [intros; apply B; congruence |].
      split; [intros; apply C; congruence |].
      intros Hk.
      replace (is_api_key_set (setup_organization required_app_setup_parm p s1).2)
        with (is_api_key_set s1)
        by (unfold is_api_key_set; rewrite A; reflexivity).
      congruence.
Qed.

Lemma scope_fields_stay_set_witness :
  let s := set_network_id (Some "net-1") None
             (set_organization_id (Some "org-1") None
                (init offline (Some "key") false)) in
  let s' := fst (step offline (Call_set_api_key None) s []) in
  is_organization_id_set s' = true
  /\ is_network_id_set s' = true
  /\ is_api_key_set s' = false.
Proof.
  intros s s'.
  destruct (scope_fields_stay_set offline (Call_set_api_key None) s [])
    as (Ho & Hn & Hk).
  split; [apply Ho; vm_compute; reflexivity |].
  split; [apply Hn; vm_compute; reflexivity |].
  subst s'. rewrite Hk; vm_compute; reflexivity.
Defined.

(** ** Cache layer *)

Lemma get_dashboard_available (s : MerakiAPIWrapper) :
  is_api_key_set s = true ->
  exists d, get_dashboard s = (Some d, assign_dashboard (Some d) s)
            \/ get_dashboard s = (Some d, s).
Proof.
  unfold is_api_key_set, get_dashboard. intros H.
  destruct (_dashboard s) as [d|]; [eauto |].
  destruct (_api_key s) as [k|]; [| discriminate]. simpl. rewrite H. simpl. eauto.
Qed.

(** A cached entry is served without a call. *)
Lemma _get_networks_cached (w : World) (organization_id : option string)
    (oid : string) (s : MerakiAPIWrapper) (tr : list io_event)
    (m : gmap string pyval) (v : pyval) :
  match organization_id with
  | Some i => Some i
  | None => get_organization_id s
  end = Some oid ->
  oid <> "" ->
  _enable_caching s = true ->
  _networks_cache s = Some m ->
  m !! oid = Some v ->
  _get_networks w organization_id true s tr = (Ok v, s, tr).
Proof.
  intros Hres Hoid Hc Hm Hv.
  unfold _get_networks, bind, get, modify, ret. rewrite Hres.
  rewrite (str_truthy_Some oid Hoid). cbn [negb].
  change (default "" (Some oid)) with oid.
  rewrite Hm. cbv beta iota. rewrite Hm, Hc.
  change (default ∅ (Some m)) with m. cbn [andb]. rewrite Hv. reflexivity.
Qed.

(** C8: with caching enabled, a fetch of the organizations that fails
    returns the structured error record, a dict with the key "error"
    (for an error of the vendor API: "MerakiAPIError" with its message
    and status code; for any other exception: "UnexpectedError" with
    its text), and leaves the empty list in the organization slot of
    the cache; a later call with [use_cache = True] returns that empty
    list and issues no call.  The same holds for the networks of an
    organization, in the cache entry of that organization id. *)
Theorem failed_fetch_is_cached_as_empty (w : World) (s : MerakiAPIWrapper)
    (tr : list io_event) (use_cache : bool) (e : exn) :
  _enable_caching s = true ->
  is_api_key_set s = true ->
  let returned :=
    match e with
    | APIError status message =>
        PDict [("error", PStr "MerakiAPIError"); ("details", message);
               ("status_code", PInt status)]
    | _ => PDict [("error", PStr "UnexpectedError");
                  ("details", PStr (exn_str w e))]
    end in
  is_error returned = true
  /\ ((use_cache = false \/ _organizations_cache s = None) ->
      getOrganizations w tr = Raise e ->
      let '(r, s1, tr1) := _get_organizations w use_cache s tr in
      r = Ok returned
      /\ tr1 = tr ++ [SdkGetOrganizations]
      /\ _organizations_cache s1 = Some (PList [])
      /\ forall w2 tr2,
           _get_organizations w2 true s1 tr2 = (Ok (PList []), s1, tr2))
  /\ (forall (organization_id : option string) (oid : string),
        match organization_id with
        | Some i => Some i
        | None => get_organization_id s
        end = Some oid ->
        oid <> "" ->
        (use_cache = false \/ default ∅ (_networks_cache s) !! oid = None) ->
        getOrganizationNetworks w tr oid = Raise e ->
        let '(r, s1, tr1) := _get_networks w organization_id use_cache s tr in
        r = Ok returned
        /\ tr1 = tr ++ [SdkGetOrganizationNetworks oid]
        /\ default ∅ (_networks_cache s1) !! oid = Some (PList [])
        /\ forall w2 tr2,
             _get_networks w2 organization_id true s1 tr2
             = (Ok (PList []), s1, tr2)).
Proof.
  intros Hcache Hkey returned.
  split; [subst returned; destruct e; reflexivity |].
  destruct (get_dashboard_available s Hkey) as [d Hd].
  subst returned. split.
  - intros Hfetch Hfail.
    unfold _get_organizations at 1. unfold bind at 1, get at 1. rewrite Hcache.
    assert (Hmiss : (if use_cache && true then _organizations_cache s else None)
                    = None).
    { destruct Hfetch as [-> | ->]; [reflexivity | destruct use_cache; reflexivity]. }
    rewrite Hmiss.
    unfold fetch_organizations, bind, the_dashboard, try_except, call, lift,
      store_organizations, modify, ret.
    destruct Hd as [-> | ->]; rewrite Hfail; destruct e; simpl; rewrite Hcache;
      (split; [reflexivity |]); (split; [reflexivity |]);
      (split; [reflexivity |]); intros w2 tr2;
      unfold _get_organizations, bind, get, ret; simpl; rewrite Hcache; reflexivity.
  - intros organization_id oid Hres Hoid Hfetch Hfail.
    unfold _get_networks at 1. unfold bind at 1, get at 1. rewrite Hres.
    rewrite (str_truthy_Some oid Hoid). cbn [negb].
    change (default "" (Some oid)) with oid.
    unfold bind at 1, modify at 1.
    set (sA := match _networks_cache s with
               | Some _ => s
               | None => assign_networks_cache (Some ∅) s
               end).
    assert (HcA : _enable_caching sA = true)
      by (subst sA; destruct (_networks_cache s); assumption).
    assert (HkA : is_api_key_set sA = true)
      by (subst sA; destruct (_networks_cache s); assumption).
    assert (HnA : default ∅ (_networks_cache sA) = default ∅ (_networks_cache s))
      by (subst sA; destruct (_networks_cache s) eqn:E; simpl; rewrite ?E;
          reflexivity).
    assert (HoA : get_organization_id sA = get_organization_id s)
      by (subst sA; destruct (_networks_cache s); reflexivity).
    unfold bind at 1, get at 1. rewrite HcA, HnA.
    assert (Hmiss : (if use_cache && true
                     then default ∅ (_networks_cache s) !! oid else None) = None).
    { destruct Hfetch as [-> | ->]; [reflexivity | destruct use_cache; reflexivity]. }
    rewrite Hmiss.
    destruct (get_dashboard_available sA HkA) as [dA HdA].
    unfold fetch_networks, bind, the_dashboard, try_except, call, lift,
      store_networks, modify, ret.
    assert (Hres' : forall s1, get_organization_id s1 = get_organization_id s ->
              match organization_id with
              | Some i => Some i
              | None => get_organization_id s1
              end = Some oid)
      by (intros s1 E; destruct organization_id; [exact Hres | rewrite E; exact Hres]).
    destruct HdA as [-> | ->]; rewrite Hfail; destruct e; simpl; rewrite HcA;
      (split; [reflexivity |]); (split; [reflexivity |]);
      (split; [simpl; apply lookup_insert_eq |]); intros w2 tr2;
      (eapply _get_networks_cached;
       [ apply Hres'; exact HoA | exact Hoid | exact HcA | reflexivity
       | apply lookup_insert_eq ]).
Qed.

Lemma failed_fetch_is_cached_as_empty_witness :
  let w := failing_sdk (APIError 500 (PStr "server error")) in
  let s := set_organization_id (Some "org-1") None (init offline (Some "key") true) in
  let returned :=
    PDict [("error", PStr "MerakiAPIError"); ("details", PStr "server error");
           ("status_code", PInt 500)] in
  (let '(r, s1, tr1) := _get_organizations w true s [] in
   r = Ok returned
   /\ tr1 = [SdkGetOrganizations]
   /\ _organizations_cache s1 = Some (PList [])
   /\ forall w2 tr2, _get_organizations w2 true s1 tr2 = (Ok (PList []), s1, tr2))
  /\ (let '(r, s1, tr1) := _get_networks w None true s [] in
      r = Ok returned
      /\ tr1 = [SdkGetOrganizationNetworks "org-1"]
      /\ default ∅ (_networks_cache s1) !! "org-1" = Some (PList [])
      /\ forall w2 tr2, _get_networks w2 None true s1 tr2 = (Ok (PList []), s1, tr2)).
Proof.
  intros w s returned.
  destruct (failed_fetch_is_cached_as_empty w s [] true
              (APIError 500 (PStr "server error")) eq_refl eq_refl)
    as (_ & Horg & Hnet).
  split.
  - apply Horg; [right |]; reflexivity.
  - apply (Hnet None "org-1"); [reflexivity | discriminate | right | reflexivity].
    reflexivity.
Defined.


(** Formatting the raw listing is a function of the listing alone. *)
Lemma organizations_table_pure (raw_response : pyval) :
  pure (S := MerakiAPIWrapper)
    (if is_error raw_response then ret raw_response
     else
       match raw_response with
       | PList organizations_data =>
           if truthy raw_response then
             table_data <- comprehension organization_row organizations_data ;;
             ret (PList table_data)
           else ret (PList [])
       | _ =>
           ret (error_record "UnexpectedReturnType"
                  (PStr "Internal function returned an unexpected type."))
       end).
Proof. unfold organization_row. pure_auto. Qed.

(** With caching enabled, a read through the cache that returns
    normally can be repeated: the second read returns the same raw
    listing from the cache and changes nothing. *)
Lemma _get_organizations_repeat (w1 w2 : World) (s : MerakiAPIWrapper)
    (tr : list io_event) (orgs : list pyval) :
  _enable_caching s = true ->
  getOrganizations w1 tr = Ok (PList orgs) ->
  exists raw s1 tr1,
    _get_organizations w1 true s tr = (Ok raw, s1, tr1)
    /\ _get_organizations w2 true s1 tr1 = (Ok raw, s1, tr1)
    /\ (_organizations_cache s = None -> is_api_key_set s = true ->
        raw = PList orgs /\ tr1 = tr ++ [SdkGetOrganizations]
        /\ _organizations_cache s1 = Some (PList orgs)).
Proof.
  intros Hc Hok.
  unfold _get_organizations at 1. unfold bind at 1, get at 1. rewrite Hc.
  cbn [andb]. destruct (_organizations_cache s) as [c|] eqn:Hcache.
  - exists c, s, tr. split; [reflexivity |]. split; [| discriminate].
    unfold _get_organizations, bind, get, ret. rewrite Hc, Hcache. reflexivity.
  - unfold fetch_organizations, bind, the_dashboard, try_except, call, lift,
      store_organizations, modify, ret.
    unfold get_dashboard, is_api_key_set.
    destruct (_dashboard s) as [d|] eqn:Hd;
      [| destruct (str_truthy (_api_key s)) eqn:Hk; cbn [negb] ].
    + rewrite Hok. simpl. rewrite Hc.
      eexists _, _, _. split; [reflexivity |]. split; [| auto ].
      unfold _get_organizations, bind, get, ret. simpl. rewrite Hc. reflexivity.
    + rewrite Hok. simpl. rewrite Hc.
      eexists _, _, _. split; [reflexivity |]. split; [| auto ].
      unfold _get_organizations, bind, get, ret. simpl. rewrite Hc. reflexivity.
    + eexists _, _, _. split; [reflexivity |]. split.
      * unfold _get_organizations, bind, get, ret. rewrite Hc, Hcache. cbn [andb].
        unfold fetch_organizations, bind, the_dashboard, get_dashboard, ret.
        rewrite Hd, Hk. reflexivity.
      * intros _ Hset. exfalso. unfold str_truthy in Hk.
        destruct (_api_key s); congruence.
Qed.

(** C9: with caching enabled, when the fetch of the first call
    succeeds, two consecutive calls of [list_organizations] with
    [use_cache = True] return the same display records; the second call
    reads the cache, issues no call and leaves the instance as it is.
    On an empty cache the first call is the one that fetches. *)
Theorem list_organizations_twice (w1 w2 : World) (s : MerakiAPIWrapper)
    (tr : list io_event) (orgs : list pyval) :
  _enable_caching s = true ->
  getOrganizations w1 tr = Ok (PList orgs) ->
  let '(r1, s1, tr1) := list_organizations w1 true s tr in
  let '(r2, s2, tr2) := list_organizations w2 true s1 tr1 in
  r2 = r1 /\ s2 = s1 /\ tr2 = tr1
  /\ (_organizations_cache s = None -> is_api_key_set s = true ->
      tr1 = tr ++ [SdkGetOrganizations]
      /\ _organizations_cache s1 = Some (PList orgs)).
Proof.
  intros Hc Hok.
  destruct (_get_organizations_repeat w1 w2 s tr orgs Hc Hok)
    as (raw & s1 & tr1 & H1 & H2 & H3).
  destruct (organizations_table_pure raw) as [r Hr].
  unfold list_organizations, bind. rewrite H1, Hr, H2, Hr.
  repeat split; try reflexivity; apply H3; assumption.
Qed.

Lemma list_organizations_twice_witness :
  let org := PDict [("id", PStr "1"); ("name", PStr "Acme");
                    ("url", PStr "https://example.org/o/1");
                    ("api", PDict [("enabled", PBool true)]);
                    ("licensing", PDict [("model", PStr "co-term")])] in
  let w := listing_sdk (PList [org]) in
  let '(r1, s1, tr1) := list_organizations w true (init offline (Some "key") true) [] in
  let '(r2, s2, tr2) := list_organizations offline true s1 tr1 in
  r1 = Ok (PList [PDict [("id", PStr "1"); ("name", PStr "Acme");
                         ("url", PStr "https://example.org/o/1");
                         ("api enabled", PBool true);
                         ("licensing model", PStr "co-term")]])
  /\ r2 = r1 /\ tr1 = [SdkGetOrganizations] /\ tr2 = tr1.
Proof.
  intros org w.
  pose proof (list_organizations_twice w offline (init offline (Some "key") true)
                [] [org] eq_refl eq_refl) as H.
  destruct (list_organizations w true (init offline (Some "key") true) [])
    as [[r1 s1] tr1] eqn:E1.
  destruct (list_organizations offline true s1 tr1) as [[r2 s2] tr2].
  destruct H as (H2 & _ & H3 & H4).
  destruct (H4 eq_refl eq_refl) as [H5 _].
  vm_compute in E1. inversion E1; subst.
  repeat split; assumption.
Defined.

(** ** REST client *)

(** The request is sent exactly once, the store is not touched, and no
    exception leaves the [try] block. *)
Lemma send_request_returns {S} (w : World) (method url : string)
    (headers : gmap string string) (payload : pyval) (s : S) (tr : list io_event) :
  exists v,
    send_request w method url headers payload s tr
    = (Ok v, s, tr ++ [HttpCall (request_for w method url headers payload)]).
Proof.
  unfold send_request, request_for, try_except, bind, call, lift, ret.
  destruct (requests_request w tr _) as [r | e].
  - destruct (raise_for_status r) as [[] | e] eqn:Hst.
    + destruct (strip_truthy (text r)); [| eauto ].
      destruct (response_json w (text r)) as [v | e]; [eauto |].
      destruct e; eauto.
    + destruct e; eauto.
  - destruct e; eauto.
Qed.

Section SendRequest.
Context {S : Type} (w : World) (method url : string)
  (headers : gmap string string) (payload : pyval) (s : S) (tr : list io_event).

Let rq := request_for w method url headers payload.

(** A 4xx or 5xx response: [raise_for_status] raises, and since the
    response object tests false the record carries the two
    placeholders instead of the status code and the body. *)
Lemma send_request_http_error (r : Response) :
  requests_request w tr rq = Responds r ->
  400 <= status_code r < 600 ->
  send_request w method url headers payload s tr
  = (Ok http_error_unknown, s, tr ++ [HttpCall rq]).
Proof.
  intros Hr [Hlo Hhi].
  unfold send_request, try_except, bind, call, lift, ret.
  fold (request_for w method url headers payload). fold rq. rewrite Hr.
  unfold raise_for_status, response_truthy, response_ok, raise_for_status.
  assert (Hst : (400 <=? status_code r) && (status_code r <? 600) = true)
    by (apply andb_true_intro; split; [apply Z.leb_le | apply Z.ltb_lt]; lia).
  rewrite Hst. cbv beta iota. rewrite !Hst. reflexivity.
Qed.

(** The transport raises something other than an [HTTPError]. *)
Lemma send_request_transport_failure (e : exn) :
  requests_request w tr rq = Fails e ->
  (forall r, e <> HTTPError r) ->
  send_request w method url headers payload s tr
  = (Ok (error_record (error_kind e) (PStr (exn_str w e))), s,
     tr ++ [HttpCall rq]).
Proof.
  intros Hr Hne.
  unfold send_request, try_except, bind, call, lift, ret.
  fold (request_for w method url headers payload). fold rq. rewrite Hr.
  destruct e; try reflexivity. exfalso. eapply Hne. reflexivity.
Qed.

(** A response outside 4xx and 5xx with a blank body. *)
Lemma send_request_no_content (r : Response) :
  requests_request w tr rq = Responds r ->
  ~ (400 <= status_code r < 600) ->
  strip_truthy (text r) = false ->
  send_request w method url headers payload s tr
  = (Ok PNone, s, tr ++ [HttpCall rq]).
Proof.
  intros Hr Hst Hblank.
  unfold send_request, try_except, bind, call, lift, ret.
  fold (request_for w method url headers payload). fold rq. rewrite Hr.
  unfold raise_for_status.
  assert (Hb : (400 <=? status_code r) && (status_code r <? 600) = false).
  { apply andb_false_iff.
    destruct (Z.leb_spec 400 (status_code r)); [| auto ].
    destruct (Z.ltb_spec (status_code r) 600); [| auto ]. lia. }
  rewrite Hb, Hblank. reflexivity.
Qed.

(** A response outside 4xx and 5xx with a body that parses. *)
Lemma send_request_json (r : Response) (v : pyval) :
  requests_request w tr rq = Responds r ->
  ~ (400 <= status_code r < 600) ->
  strip_truthy (text r) = true ->
  response_json w (text r) = Ok v ->
  send_request w method url headers payload s tr
  = (Ok v, s, tr ++ [HttpCall rq]).
Proof.
  intros Hr Hst Hbody Hv.
  unfold send_request, try_except, bind, call, lift, ret.
  fold (request_for w method url headers payload). fold rq. rewrite Hr.
  unfold raise_for_status.
  assert (Hb : (400 <=? status_code r) && (status_code r <? 600) = false).
  { apply andb_false_iff.
    destruct (Z.leb_spec 400 (status_code r)); [| auto ].
    destruct (Z.ltb_spec (status_code r) 600); [| auto ]. lia. }
  rewrite Hb, Hbody, Hv. reflexivity.
Qed.
End SendRequest.

(** [local_dns_logic.make_request] without an organization: the
    structured record, and no call. *)
Lemma make_request_needs_organization (w : World) (method endpoint : string)
    (payload : pyval) (g : LocalDns.Globals) (tr : list io_event) :
  str_truthy (LocalDns.ORGANIZATION_ID g) = false ->
  LocalDns.make_request w method endpoint payload g tr
  = (Ok no_organization_selected, g, tr).
Proof.
  intros H. unfold LocalDns.make_request, bind, get, ret. rewrite H. reflexivity.
Qed.

(** [ProjectLogic._make_request] has no such guard: the request is
    sent whatever the scope state, and an unset organization id is
    rendered into the URL as the text [None]. *)
Lemma project_request_always_sent (w : World) (method endpoint : string)
    (payload : pyval) (s : MerakiAPIWrapper) (tr : list io_event) :
  exists v,
    Project._make_request w method endpoint payload s tr
    = (Ok v, s,
       tr ++ [HttpCall (request_for w method
                          (local_dns_url (get_organization_id s) endpoint)
                          (get_headers s) payload)]).
Proof.
  unfold Project._make_request, bind, get. apply send_request_returns.
Qed.

(** C2: with no organization selected, [local_dns_logic.make_request]
    returns the "NoOrganizationSelected" record without a call, but
    [ProjectLogic._make_request] sends the request to the URL of the
    organization "None" and returns what the server answers. *)
Theorem project_request_without_organization :
  let w := answering (mkResponse 200 "[]") (PList []) in
  let s := init w (Some "key") false in
  get_organization_id s = None
  /\ LocalDns.make_request w "GET" "profiles" PNone (LocalDns.init w) []
     = (Ok no_organization_selected, LocalDns.init w, [])
  /\ Project._make_request w "GET" "profiles" PNone s []
     = (Ok (PList []), s,
        [HttpCall
           (mkRequest "GET"
              "https://api.meraki.com/api/v1/organizations/None/appliance/dns/local/profiles"
              (headers_for (Some "key")) None)]).
Proof. repeat split. Qed.

(** Both request functions return normally on every outcome of the
    transport. *)
Lemma make_request_never_raises (w : World) (method endpoint : string)
    (payload : pyval) :
  never_raises (LocalDns.make_request w method endpoint payload)
  /\ never_raises (Project._make_request w method endpoint payload).
Proof.
  split; intros s tr.
  - unfold LocalDns.make_request, bind, get, ret.
    destruct (negb (str_truthy (LocalDns.ORGANIZATION_ID s))); [eauto |].
    destruct (send_request_returns w method
                (local_dns_url (LocalDns.ORGANIZATION_ID s) endpoint)
                (LocalDns.HEADERS s) payload s tr) as [v ->]. eauto.
  - destruct (project_request_always_sent w method endpoint payload s tr)
      as [v ->]. eauto.
Qed.

(** Connection failures, timeouts and other failures of [requests]
    each map to their kind, with the text of the exception as details;
    a timeout while connecting is reported as a connection failure. *)
Lemma make_request_transport_failure (w : World) (method endpoint : string)
    (payload : pyval) (g : LocalDns.Globals) (tr : list io_event) (e : exn) :
  str_truthy (LocalDns.ORGANIZATION_ID g) = true ->
  requests_request w tr
    (request_for w method (local_dns_url (LocalDns.ORGANIZATION_ID g) endpoint)
       (LocalDns.HEADERS g) payload) = Fails e ->
  (forall r, e <> HTTPError r) ->
  (LocalDns.make_request w method endpoint payload g tr).1.1
  = Ok (error_record (error_kind e) (PStr (exn_str w e))).
Proof.
  intros Ho Hf Hne. unfold LocalDns.make_request, bind, get. rewrite Ho.
  cbn [negb]. erewrite send_request_transport_failure by eassumption. reflexivity.
Qed.

(** On every 4xx or 5xx response both request functions return the
    "HTTPError" record with the placeholders ["Unknown"] and
    ["No response text"], not the status code and the body. *)
Lemma make_request_http_error (w : World) (method endpoint : string)
    (payload : pyval) (g : LocalDns.Globals) (tr : list io_event) (r : Response) :
  str_truthy (LocalDns.ORGANIZATION_ID g) = true ->
  requests_request w tr
    (request_for w method (local_dns_url (LocalDns.ORGANIZATION_ID g) endpoint)
       (LocalDns.HEADERS g) payload) = Responds r ->
  400 <= status_code r < 600 ->
  (LocalDns.make_request w method endpoint payload g tr).1.1
  = Ok http_error_unknown.
Proof.
  intros Ho Hr Hst. unfold LocalDns.make_request, bind, get. rewrite Ho.
  cbn [negb]. erewrite send_request_http_error by eassumption. reflexivity.
Qed.

(** C4: on an HTTP 404 with body "not found", [make_request] and
    [ProjectLogic._make_request] return normally, but the record they
    return holds ["Unknown"] as status code and ["No response text"] as
    details instead of 404 and the body. *)
Theorem http_error_record_lacks_status_and_body :
  let w := answering (mkResponse 404 "not found") PNone in
  let g := LocalDns.set_organization_id (Some "org-1") (LocalDns.init w) in
  let s := set_organization_id (Some "org-1") None (init w (Some "key") false) in
  let returned :=
    Ok (PDict [("error", PStr "HTTPError");
               ("details", PStr "No response text");
               ("status_code", PStr "Unknown")]) in
  (LocalDns.make_request w "DELETE" "profiles/p1" PNone g []).1.1 = returned
  /\ (Project._make_request w "DELETE" "profiles/p1" PNone s []).1.1 = returned
  /\ returned <> Ok (PDict [("error", PStr "HTTPError");
                            ("details", PStr "not found");
                            ("status_code", PInt 404)]).
Proof. repeat split. discriminate. Qed.

(** ** Domain operations *)

(** With an empty 2xx body, [create_profile] calls [.get] on [None]. *)
Lemma create_profile_no_content (w : World) (profile_name : pyval)
    (g : LocalDns.Globals) (tr : list io_event) (r : Response) :
  str_truthy (LocalDns.ORGANIZATION_ID g) = true ->
  requests_request w tr
    (request_for w "POST" (local_dns_url (LocalDns.ORGANIZATION_ID g) "profiles")
       (LocalDns.HEADERS g) (PDict [("name", profile_name)])) = Responds r ->
  ~ (400 <= status_code r < 600) ->
  strip_truthy (text r) = false ->
  (LocalDns.create_profile w profile_name g tr).1.1
  = Raise (Fault (NoAttribute "NoneType" "get")).
Proof.
  intros Ho Hr Hst Hblank.
  unfold LocalDns.create_profile, LocalDns.make_request, bind, get.
  rewrite Ho. cbn [negb].
  erewrite send_request_no_content by eassumption. reflexivity.
Qed.

(** The operations that hand the result of the request back as it is,
    and the two listings wrapped in [try], return normally. *)
Lemma pass_through_operations_never_raise (w : World) :
  (forall i, never_raises (LocalDns.delete_profile w i))
  /\ (forall i, never_raises (LocalDns.delete_dns_record w i))
  /\ (forall n p, never_raises (LocalDns.assign_profile_to_network w n p))
  /\ (forall a, never_raises (LocalDns.remove_network_assignment w a))
  /\ never_raises (LocalDns.list_network_assignments w)
  /\ never_raises (LocalDns.list_profiles w).
Proof.
  assert (Hthen : forall method endpoint payload,
            never_raises (response <- LocalDns.make_request w method endpoint payload ;;
                          ret response)).
  { intros method endpoint payload s tr. unfold bind.
    destruct (make_request_never_raises w method endpoint payload) as [H _].
    destruct (H s tr) as [v Hv].
    destruct (LocalDns.make_request w method endpoint payload s tr) as [[r s1] tr1].
    simpl in Hv. subst r. simpl. eauto. }
  assert (Htry : forall (c : M LocalDns.Globals pyval),
            never_raises (try_except c (LocalDns.unexpected_error w))).
  { intros c s tr. unfold try_except, LocalDns.unexpected_error, ret.
    destruct (c s tr) as [[[v|e] s1] tr1]; simpl; eauto. }
  repeat split; intros; first [apply Hthen | apply Htry].
Qed.

(** C7: when the server answers a creation with a 2xx status and an
    empty body, [make_request] returns [None] and [create_profile]
    raises [AttributeError] instead of returning; so do
    [ProjectLogic.create_profile] and [create_dns_record]. *)
Theorem create_raises_on_empty_body :
  let w := answering (mkResponse 201 "") PNone in
  let g := LocalDns.set_organization_id (Some "org-1") (LocalDns.init w) in
  let s := set_organization_id (Some "org-1") None (init w (Some "key") false) in
  let raised := Raise (Fault (NoAttribute "NoneType" "get")) in
  (LocalDns.make_request w "POST" "profiles" (PDict [("name", PStr "Test")]) g []).1.1
  = Ok PNone
  /\ (LocalDns.create_profile w (PStr "Test") g []).1.1 = raised
  /\ (Project.create_profile w (PStr "Test") s []).1.1 = raised
  /\ (LocalDns.create_dns_record w (PStr "p1") (PStr "host") (PStr "10.0.0.1") g []).1.1
     = raised
  /\ (Project.create_dns_record w (PStr "p1") (PStr "host") (PStr "10.0.0.1") s []).1.1
     = raised.
Proof. repeat split. Qed.

(** ** Joins across listings *)

Section Runs.
Context {S : Type}.

Lemma runs_ret {A} (a : A) (s : S) tr : runs (ret a) s tr a s tr.
Proof. reflexivity. Qed.

Lemma runs_lift {A} (a : A) (s : S) tr : runs (lift (Ok a)) s tr a s tr.
Proof. reflexivity. Qed.

Lemma runs_bind {A B} (c : M S A) (k : A -> M S B) s tr a s1 tr1 b s2 tr2 :
  runs c s tr a s1 tr1 -> runs (k a) s1 tr1 b s2 tr2 ->
  runs (bind c k) s tr b s2 tr2.
Proof. unfold runs, bind. intros -> H. exact H. Qed.

Lemma runs_try {A} (c : M S A) (h : exn -> M S A) s tr a s1 tr1 :
  runs c s tr a s1 tr1 -> runs (try_except c h) s tr a s1 tr1.
Proof. unfold runs, try_except. intros ->. reflexivity. Qed.

(** A loop whose body is a function of accumulator and element. *)
Lemma for_each_map {A B C} (f : B -> A -> M S B) (enc : C -> A)
    (step : B -> C -> B) (l : list C) (s : S) tr :
  (forall b x, runs (f b (enc x)) s tr (step b x) s tr) ->
  forall acc, runs (for_each f (map enc l) acc) s tr (foldl step acc l) s tr.
Proof.
  intros Hf. induction l as [|x l IH]; intros acc; simpl.
  - reflexivity.
  - eapply runs_bind; [apply Hf | apply IH].
Qed.

Lemma comprehension_map {C} (f : pyval -> M S pyval) (enc : C -> pyval)
    (view : C -> pyval) (l : list C) (s : S) tr :
  (forall x, runs (f (enc x)) s tr (view x) s tr) ->
  runs (comprehension f (map enc l)) s tr (map view l) s tr.
Proof.
  intros Hf. unfold comprehension.
  pose proof (for_each_map (fun acc x => y <- f x ;; ret (acc ++ [y])) enc
                (fun acc x => acc ++ [view x]) l s tr) as H.
  assert (Hfold : forall acc, foldl (fun acc x => acc ++ [view x]) acc l
                              = acc ++ map view l).
  { clear. induction l as [|x l IH]; intros acc; simpl.
    - rewrite app_nil_r. reflexivity.
    - rewrite IH, <- app_assoc. reflexivity. }
  specialize (Hfold []). simpl in Hfold. rewrite <- Hfold. apply H.
  intros b x. eapply runs_bind; [apply Hf | apply runs_ret].
Qed.
End Runs.

(** What a dict filled in a loop holds for a key: the value of the
    last element that was stored under it. *)
Lemma lookup_foldl_insert_if {A V} (c : A -> bool) (kf : A -> hkey) (vf : A -> V)
    (k : hkey) (P : A -> Prop) `{!forall x, Decision (P x)} :
  (forall x, P x <-> c x = true /\ kf x = k) ->
  forall (l : list A) (m0 : gmap hkey V),
    m0 !! k = None ->
    foldl (fun m x => if c x then <[kf x := vf x]> m else m) m0 l !! k
    = vf <$> last (filter P l).
Proof.
  intros HP l m0 Hm0. induction l as [|x l IH] using rev_ind.
  - simpl. rewrite Hm0. reflexivity.
  - rewrite foldl_snoc, filter_app, last_app.
    destruct (decide (P x)) as [Hx | Hx].
    + rewrite (filter_cons_True P x []) by exact Hx. simpl.
      apply HP in Hx as [Hc Hk]. rewrite Hc, <- Hk. apply lookup_insert_eq.
    + rewrite (filter_cons_False P x []) by exact Hx. simpl.
      destruct (c x) eqn:Hc; [| exact IH ].
      rewrite lookup_insert_ne; [exact IH |].
      intros Hk. apply Hx. apply HP. auto.
Qed.

Lemma names_by_lookup {A} (key : A -> string) (value : A -> pyval)
    (l : list A) (k : string) :
  names_by key value l !! HStr k = value <$> last (filter (fun x => key x = k) l).
Proof.
  unfold names_by.
  apply (lookup_foldl_insert_if (fun _ => true) (fun x => HStr (key x)) value
           (HStr k) (fun x => key x = k)); [| apply lookup_empty ].
  intros x. split; [intros ->; auto | intros [_ H]; congruence ].
Qed.

Lemma all_strs_PStr (l : list string) : all_strs (map PStr l) = Some l.
Proof. induction l as [|x l IH]; simpl; [| rewrite IH ]; reflexivity. Qed.

Lemma truthy_PList_map {A} (f : A -> pyval) (l : list A) :
  truthy (PList (map f l)) = match l with [] => false | _ :: _ => true end.
Proof. destruct l; reflexivity. Qed.

Lemma gets_same_session (w : World) (g g' : LocalDns.Globals) (endpoint : string)
    (body : pyval) :
  same_session g g' -> gets w g endpoint body -> gets w g' endpoint body.
Proof. intros [Ho Hh]. unfold gets. rewrite Ho, Hh. auto. Qed.

Lemma make_request_gets (w : World) (g : LocalDns.Globals) (tr : list io_event)
    (endpoint : string) (body : pyval) :
  str_truthy (LocalDns.ORGANIZATION_ID g) = true ->
  gets w g endpoint body ->
  exists tr', runs (LocalDns.make_request w "GET" endpoint PNone) g tr body g tr'.
Proof.
  intros Ho (r & Hr & Hst & Hbody & Hjson).
  unfold runs, LocalDns.make_request, bind, get. rewrite Ho. cbn [negb].
  eexists. eapply send_request_json; eauto.
Qed.

Lemma _get_networks_listing (w : World) (g : LocalDns.Globals)
    (tr : list io_event) (l : list pyval) :
  str_truthy (LocalDns.ORGANIZATION_ID g) = true ->
  networks_come_as w g (PList l) ->
  exists g' tr',
    runs (LocalDns._get_networks w) g tr (PList l) g' tr'
    /\ same_session g g'
    /\ networks_come_as w g' (PList l).
Proof.
  intros Ho Hn. unfold runs, LocalDns._get_networks, bind, get. rewrite Ho.
  cbn [negb]. destruct Hn as [Hhit | (Hmiss & Hdash & Hsdk)].
  - rewrite Hhit. exists g, tr. repeat split. left. exact Hhit.
  - rewrite Hmiss.
    unfold LocalDns._get_dashboard, bind, get, lift, modify, ret, try_except,
      call, LocalDns.store_networks.
    destruct (LocalDns._dashboard g) as [d|] eqn:Hd.
    + rewrite Hsdk. simpl. eexists _, _. split; [reflexivity |].
      split; [split; reflexivity |]. left. simpl. apply lookup_insert_eq.
    + destruct Hdash as [[d' Hd'] | [d' Hd']]; [discriminate |].
      rewrite Hd'. rewrite Hsdk. simpl. eexists _, _. split; [reflexivity |].
      split; [split; reflexivity |]. left. simpl. apply lookup_insert_eq.
Qed.

Section Rows.
Context {S : Type} (s : S) (tr : list io_event).
Context (networks : list network) (profiles : list profile)
        (assignments : list assignment).

Let network_map := names_by networkId (fun n => PStr (networkName n)) networks.
Let profile_map := names_by profileId (fun p => PStr (profileName p)) profiles.
Let profile_to_network : gmap hkey pyval :=
  foldl (fun m a =>
           if truthy (PStr (assignedProfile a)) && truthy (PStr (assignedNetwork a))
           then <[HStr (assignedProfile a) := network_info networks a]> m
           else m)
    ∅ assignments.

Lemma network_row_runs (n : network) :
  runs (LocalDns.network_row (network_json n)) s tr (network_view n) s tr.
Proof.
  unfold runs, LocalDns.network_row, bind, lift, ret. simpl.
  unfold py_join. simpl. rewrite all_strs_PStr. reflexivity.
Qed.

Lemma dict_by_raw_networks :
  runs (LocalDns.dict_by "id" "name" (PList (map network_json networks)))
    s tr network_map s tr.
Proof.
  unfold LocalDns.dict_by. eapply runs_bind; [apply runs_lift |].
  apply (for_each_map _ network_json
           (fun m n => <[HStr (networkId n) := PStr (networkName n)]> m)).
  intros b x. reflexivity.
Qed.

Lemma dict_by_network_views :
  runs (LocalDns.dict_by "ID" "Name" (PList (map network_view networks)))
    s tr network_map s tr.
Proof.
  unfold LocalDns.dict_by. eapply runs_bind; [apply runs_lift |].
  apply (for_each_map _ network_view
           (fun m n => <[HStr (networkId n) := PStr (networkName n)]> m)).
  intros b x. reflexivity.
Qed.

Lemma dict_by_profiles :
  runs (LocalDns.dict_by "profileId" "name" (PList (map profile_json profiles)))
    s tr profile_map s tr.
Proof.
  unfold LocalDns.dict_by. eapply runs_bind; [apply runs_lift |].
  apply (for_each_map _ profile_json
           (fun m p => <[HStr (profileId p) := PStr (profileName p)]> m)).
  intros b x. reflexivity.
Qed.

Lemma network_map_name (id : string) :
  default (PStr "[unknown]") (network_map !! HStr id) = name_of_network networks id.
Proof.
  subst network_map. rewrite names_by_lookup. unfold name_of_network.
  destruct (last _); reflexivity.
Qed.

Lemma profile_map_name (id : string) :
  default (PStr "[unknown]") (profile_map !! HStr id) = name_of_profile profiles id.
Proof.
  subst profile_map. rewrite names_by_lookup. unfold name_of_profile.
  destruct (last _); reflexivity.
Qed.

Lemma assignment_row_runs (a : assignment) :
  runs (LocalDns.assignment_row network_map profile_map (assignment_json a))
    s tr (assignment_view networks profiles a) s tr.
Proof.
  unfold runs, LocalDns.assignment_row, LocalDns.get_nested,
    LocalDns.name_or_unknown, bind, lift, ret. simpl.
  rewrite network_map_name, profile_map_name. reflexivity.
Qed.

Lemma note_assignment_runs (m : gmap hkey pyval) (a : assignment) :
  runs (LocalDns.note_assignment network_map m (assignment_view networks profiles a))
    s tr
    (if truthy (PStr (assignedProfile a)) && truthy (PStr (assignedNetwork a))
     then <[HStr (assignedProfile a) := network_info networks a]> m
     else m)
    s tr.
Proof.
  unfold runs, LocalDns.note_assignment, LocalDns.name_or_unknown,
    bind, lift, ret. simpl.
  destruct (negb (String.eqb (assignedProfile a) "")
            && negb (String.eqb (assignedNetwork a) "")); [| reflexivity ].
  simpl. rewrite network_map_name. reflexivity.
Qed.

Lemma profile_to_network_lookup (id : string) :
  profile_to_network !! HStr id
  = network_info networks <$> assignment_of assignments id.
Proof.
  subst profile_to_network. unfold assignment_of.
  apply (lookup_foldl_insert_if
           (fun a => truthy (PStr (assignedProfile a))
                     && truthy (PStr (assignedNetwork a)))
           (fun a => HStr (assignedProfile a)) (network_info networks) (HStr id)
           (fun a => assignedProfile a = id
                     /\ assignedProfile a <> "" /\ assignedNetwork a <> ""));
    [| apply lookup_empty ].
  intros a. simpl.
  destruct (String.eqb_spec (assignedProfile a) "") as [Ep | Ep],
           (String.eqb_spec (assignedNetwork a) "") as [En | En]; simpl;
    split; try (intros (? & ? & ?); contradiction);
    try (intros [? ?]; discriminate).
  - intros (-> & _ & _). auto.
  - intros [_ H]. inversion H. auto.
Qed.

Lemma profile_row_runs (p : profile) :
  runs (LocalDns.profile_row profile_to_network (profile_json p))
    s tr (enriched networks assignments p) s tr.
Proof.
  unfold runs, LocalDns.profile_row, bind, lift, ret. simpl.
  rewrite profile_to_network_lookup. unfold enriched.
  destruct (assignment_of assignments (profileId p)); reflexivity.
Qed.
End Rows.

Lemma same_session_refl (g : LocalDns.Globals) : same_session g g.
Proof. split; reflexivity. Qed.

Lemma same_session_trans (g1 g2 g3 : LocalDns.Globals) :
  same_session g1 g2 -> same_session g2 g3 -> same_session g1 g3.
Proof. intros [A B] [C D]. split; congruence. Qed.

Lemma same_session_selected (g g' : LocalDns.Globals) :
  same_session g g' ->
  str_truthy (LocalDns.ORGANIZATION_ID g) = true ->
  str_truthy (LocalDns.ORGANIZATION_ID g') = true.
Proof. intros [-> _]. auto. Qed.

Section Listings.
Context (w : World).
Context (networks : list network) (profiles : list profile)
        (assignments : list assignment).

Let serves := serves w networks profiles assignments.

Lemma serves_same_session (g g' : LocalDns.Globals) :
  same_session g g' ->
  networks_come_as w g' (PList (map network_json networks)) ->
  serves g -> serves g'.
Proof.
  intros Hs Hn (Ho & _ & Hp & Ha).
  split; [eapply same_session_selected; eauto |].
  split; [exact Hn |].
  split; eapply gets_same_session; eauto.
Qed.

Lemma list_networks_runs (g : LocalDns.Globals) (tr : list io_event) :
  serves g ->
  exists g' tr',
    runs (LocalDns.list_networks w) g tr (PList (map network_view networks)) g' tr'
    /\ same_session g g' /\ serves g'.
Proof.
  intros Hg. pose proof Hg as (Ho & Hn & _).
  destruct (_get_networks_listing w g tr _ Ho Hn) as (g' & tr' & Hrun & Hs & Hn').
  exists g', tr'. split; [| split; [exact Hs | eapply serves_same_session; eauto ] ].
  unfold LocalDns.list_networks. eapply runs_bind; [exact Hrun |].
  cbn [is_error]. rewrite truthy_PList_map.
  destruct networks as [|n l] eqn:E; [reflexivity |]. rewrite <- E.
  eapply runs_bind; [apply runs_lift |].
  eapply runs_bind; [| apply runs_ret ].
  apply comprehension_map. intros x. apply network_row_runs.
Qed.

Lemma list_network_assignments_runs (g : LocalDns.Globals) (tr : list io_event) :
  serves g ->
  exists g' tr',
    runs (LocalDns.list_network_assignments w) g tr
      (PList (map (assignment_view networks profiles) assignments)) g' tr'
    /\ same_session g g' /\ serves g'.
Proof.
  intros Hg. pose proof Hg as (Ho & Hn & _).
  destruct (_get_networks_listing w g tr _ Ho Hn) as (g1 & tr1 & Hrun & Hs & Hn1).
  assert (Hg1 : serves g1) by (eapply serves_same_session; eauto).
  destruct Hg1 as (Ho1 & _ & Hp1 & Ha1).
  destruct (make_request_gets w g1 tr1 _ _ Ho1 Hp1) as (tr2 & Hrun2).
  destruct (make_request_gets w g1 tr2 _ _ Ho1 Ha1) as (tr3 & Hrun3).
  exists g1, tr3. split; [| split; [exact Hs | eapply serves_same_session; eauto ] ].
  unfold LocalDns.list_network_assignments. apply runs_try.
  eapply runs_bind; [exact Hrun |]. cbn [is_error].
  eapply runs_bind; [apply dict_by_raw_networks |].
  eapply runs_bind; [exact Hrun2 |].
  change (is_error (items_json (map profile_json profiles))) with false.
  change (truthy (items_json (map profile_json profiles))) with true.
  cbv iota.
  eapply runs_bind; [apply runs_lift |].
  eapply runs_bind; [apply dict_by_profiles |].
  eapply runs_bind; [exact Hrun3 |].
  change (is_error (items_json (map assignment_json assignments))) with false.
  cbv iota.
  eapply runs_bind; [reflexivity |]. cbv iota.
  eapply runs_bind; [apply runs_lift |].
  eapply runs_bind; [apply runs_lift |].
  eapply runs_bind; [| apply runs_ret ].
  apply comprehension_map. intros a. apply assignment_row_runs.
Qed.

(** The enriched profile listing, end to end. *)
Lemma list_profiles_runs (g : LocalDns.Globals) (tr : list io_event) :
  serves g ->
  exists g' tr',
    runs (LocalDns.list_profiles w) g tr
      (PList (map (enriched networks assignments) profiles)) g' tr'.
Proof.
  intros Hg. pose proof Hg as (Ho & _ & Hp & _).
  destruct (make_request_gets w g tr _ _ Ho Hp) as (tr1 & Hrun1).
  destruct (list_network_assignments_runs g tr1 Hg)
    as (g2 & tr2 & Hrun2 & Hs2 & Hg2).
  destruct (list_networks_runs g2 tr2 Hg2) as (g3 & tr3 & Hrun3 & Hs3 & Hg3).
  exists g3, tr3.
  unfold LocalDns.list_profiles. apply runs_try.
  eapply runs_bind; [exact Hrun1 |].
  change (is_error (items_json (map profile_json profiles))) with false.
  cbv iota.
  eapply runs_bind; [reflexivity |]. cbn [negb].
  eapply runs_bind; [apply runs_lift |].
  eapply runs_bind; [apply runs_lift |].
  eapply runs_bind; [exact Hrun2 |]. cbn [is_error].
  replace (if negb (truthy (PList (map (assignment_view networks profiles)
                                     assignments)))
           then PList []
           else PList (map (assignment_view networks profiles) assignments))
    with (PList (map (assignment_view networks profiles) assignments))
    by (destruct assignments; reflexivity).
  eapply runs_bind; [exact Hrun3 |]. cbn [is_error].
  eapply (runs_bind _ _ _ _
            (names_by networkId (fun n => PStr (networkName n)) networks) g3 tr3).
  { rewrite truthy_PList_map. destruct networks as [|n l] eqn:E.
    - reflexivity.
    - rewrite <- E. apply dict_by_network_views. }
  eapply runs_bind; [apply runs_lift |].
  eapply runs_bind.
  { apply (for_each_map _ (assignment_view networks profiles)).
    intros m a. apply note_assignment_runs. }
  eapply runs_bind; [apply runs_lift |].
  eapply runs_bind; [| apply runs_ret ].
  apply comprehension_map. intros p. apply profile_row_runs.
Qed.
End Listings.

Lemma last_filter_cases {A} (P : A -> Prop) `{!forall x, Decision (P x)}
    (l : list A) :
  (last (filter P l) = None /\ forall x, x ∈ l -> ~ P x)
  \/ (exists x, last (filter P l) = Some x /\ x ∈ l /\ P x).
Proof.
  destruct (last (filter P l)) as [x|] eqn:E.
  - right. exists x. split; [reflexivity |].
    apply last_Some_elem_of, list_elem_of_filter in E. tauto.
  - left. split; [reflexivity |]. apply last_None in E.
    intros x Hx HP. exact (filter_nil_not_elem_of P l x E HP Hx).
Qed.

(** A network id missing from the list gets the sentinel; an id in
    the list gets the name the list gives it. *)
Lemma name_of_network_cases (networks : list network) (id : string) :
  ((forall n, n ∈ networks -> networkId n <> id) ->
   name_of_network networks id = PStr "[unknown]")
  /\ (forall n, n ∈ networks -> networkId n = id ->
      (forall n', n' ∈ networks -> networkId n' = id ->
                  networkName n' = networkName n) ->
      name_of_network networks id = PStr (networkName n)).
Proof.
  unfold name_of_network.
  destruct (last_filter_cases (fun n => networkId n = id) networks)
    as [[-> Hnone] | (x & -> & Hx & Hid)].
  - split; [reflexivity |]. intros n Hn Hi. destruct (Hnone n Hn Hi).
  - split.
    + intros H. destruct (H x Hx Hid).
    + intros n Hn Hi Hsame. rewrite (Hsame x Hx Hid). reflexivity.
Qed.

(** C3: when the server serves a profile list, an assignment list and
    a network list, [list_profiles] returns, without raising, one row
    per profile.  A profile that no assignment names gets
    ["[unassigned]"] as network id and network name; a profile named by
    an assignment gets the network id of the assignment and the name
    the network list gives to that id, which is ["[unknown]"] when the
    id is missing from the network list.  [list_network_assignments]
    resolves the network name of each assignment the same way.  Both
    listings return normally whatever the server sends. *)
Theorem enriched_profile_listing (w : World) (networks : list network)
    (profiles : list profile) (assignments : list assignment)
    (g : LocalDns.Globals) (tr : list io_event) :
  serves w networks profiles assignments g ->
  (never_raises (LocalDns.list_profiles w)
   /\ never_raises (LocalDns.list_network_assignments w))
  /\ (exists g' tr',
        runs (LocalDns.list_profiles w) g tr
          (PList (map (enriched networks assignments) profiles)) g' tr')
  /\ (exists g' tr',
        runs (LocalDns.list_network_assignments w) g tr
          (PList (map (assignment_view networks profiles) assignments)) g' tr')
  /\ (forall p,
        (forall a, a ∈ assignments -> assignedProfile a <> profileId p) ->
        enriched networks assignments p
        = profile_view (PStr (profileId p)) (PStr (profileName p))
            (PStr "[unassigned]") (PStr "[unassigned]"))
  /\ (forall p a,
        a ∈ assignments -> assignedProfile a = profileId p ->
        profileId p <> "" -> assignedNetwork a <> "" ->
        (forall a', a' ∈ assignments -> assignedProfile a' = profileId p ->
                    assignedNetwork a' = assignedNetwork a) ->
        enriched networks assignments p
        = profile_view (PStr (profileId p)) (PStr (profileName p))
            (PStr (assignedNetwork a))
            (name_of_network networks (assignedNetwork a)))
  /\ (forall id,
        ((forall n, n ∈ networks -> networkId n <> id) ->
         name_of_network networks id = PStr "[unknown]")
        /\ (forall n, n ∈ networks -> networkId n = id ->
            (forall n', n' ∈ networks -> networkId n' = id ->
                        networkName n' = networkName n) ->
            name_of_network networks id = PStr (networkName n))).
Proof.
  intros Hg.
  split.
  { destruct (pass_through_operations_never_raise w) as (_ & _ & _ & _ & Ha & Hp).
    split; assumption. }
  split; [apply list_profiles_runs; exact Hg |].
  split.
  { destruct (list_network_assignments_runs w networks profiles assignments g tr Hg)
      as (g' & tr' & H & _). eauto. }
  split; [| split; [| intros id; apply name_of_network_cases ] ].
  - intros p Hnone. unfold enriched, assignment_of.
    destruct (last_filter_cases
                (fun a => assignedProfile a = profileId p
                          /\ assignedProfile a <> "" /\ assignedNetwork a <> "")
                assignments) as [[-> _] | (x & _ & Hx & Hp & _)];
      [reflexivity | destruct (Hnone x Hx Hp) ].
  - intros p a Ha Hp Hpid Hnid Hsame. unfold enriched, assignment_of.
    destruct (last_filter_cases
                (fun a => assignedProfile a = profileId p
                          /\ assignedProfile a <> "" /\ assignedNetwork a <> "")
                assignments) as [[_ Hnone] | (x & -> & Hx & Hxp & _)].
    + exfalso. apply (Hnone a Ha). rewrite Hp. auto.
    + rewrite (Hsame x Hx Hxp). reflexivity.
Qed.

Lemma enriched_profile_listing_witness :
  exists g' tr',
    runs (LocalDns.list_profiles demo_world) demo_globals []
      (PList [profile_view (PStr "p1") (PStr "Test") (PStr "n1") (PStr "Net1")])
      g' tr'.
Proof.
  assert (Hg : serves demo_world
                 [mkNetwork "n1" "Net1" "appliance" "UTC" ["hq"]]
                 [mkProfile "p1" "Test"] [mkAssignment "a1" "n1" "p1"]
                 demo_globals).
  { split; [reflexivity |]. split.
    - right. split; [reflexivity |]. split; [| intros tr; reflexivity ].
      right. eexists. reflexivity.
    - split; [exists (mkResponse 200 "profiles") | exists (mkResponse 200 "assignments")];
        (split; [intros tr; reflexivity |]);
        (split; [simpl; lia |]); split; reflexivity. }
  destruct (enriched_profile_listing demo_world _ _ _ demo_globals [] Hg)
    as (_ & (g' & tr' & Hrun) & _).
  exists g', tr'. exact Hrun.
Defined.


(** * Further properties of the scope state *)

Global Instance keeps_client_refl : Reflexive keeps_client.
Proof. intros s H. exact H. Qed.

Global Instance keeps_client_trans : Transitive keeps_client.
Proof. intros a b c H1 H2 H. exact (H2 (H1 H)). Qed.

Lemma set_api_key_client (w : World) (api_key : option string) (s : MerakiAPIWrapper) :
  client_follows_key (set_api_key w api_key s).
Proof.
  unfold set_api_key.
  match goal with
  | |- context [if str_truthy (_api_key ?x) then _ else _] => generalize x
  end.
  intros s1. unfold client_follows_key.
  destruct (str_truthy (_api_key s1)) eqn:E; simpl; rewrite E; reflexivity.
Qed.

(** A client that follows the key is none without a key. *)
Lemma follows_key_no_client (s : MerakiAPIWrapper) :
  client_follows_key s -> no_client_without_key s.
Proof.
  unfold client_follows_key, no_client_without_key, is_api_key_set, str_truthy.
  intros -> ->. reflexivity.
Qed.

(** Key and client are the same in two states. *)
Lemma same_client_keeps (s s' : MerakiAPIWrapper) :
  _api_key s' = _api_key s -> _dashboard s' = _dashboard s -> keeps_client s s'.
Proof.
  unfold keeps_client, no_client_without_key, is_api_key_set. intros -> ->. auto.
Qed.

Lemma setup_network_client (r : gmap string bool) (p : gmap string string)
    (s : MerakiAPIWrapper) :
  keeps_client s (setup_network r p s).2.
Proof.
  unfold setup_network, set_network_id.
  repeat match goal with
         | |- context [if ?b then _ else _] => destruct b
         end; simpl; apply same_client_keeps; reflexivity.
Qed.

Lemma setup_organization_client (r : gmap string bool) (p : gmap string string)
    (s : MerakiAPIWrapper) :
  keeps_client s (setup_organization r p s).2.
Proof.
  unfold setup_organization.
  destruct (flag r "organization_id"); [| apply setup_network_client ].
  destruct (negb (is_api_key_set s)); [reflexivity |].
  destruct (str_truthy (p !! "organization_id")) eqn:Ho; [| reflexivity ].
  set (s1 := set_organization_id _ _ s).
  assert (H1 : keeps_client s s1).
  { subst s1. unfold set_organization_id. rewrite Ho.
    destruct (str_truthy (p !! "org_name")); apply same_client_keeps; reflexivity. }
  destruct (negb (is_organization_id_set s1)); [exact H1 |].
  etransitivity; [exact H1 | apply setup_network_client ].
Qed.

Lemma the_dashboard_client : keeps keeps_client the_dashboard.
Proof.
  intros s tr. unfold the_dashboard, get_dashboard, keeps_client,
    no_client_without_key, is_api_key_set, str_truthy.
  destruct (_dashboard s) eqn:Hd; simpl; [rewrite Hd; auto |].
  destruct (_api_key s) as [k|] eqn:Hk; simpl; rewrite ?Hk, ?Hd; auto.
  destruct (negb (String.eqb k "")) eqn:Ek; simpl; rewrite ?Hk, ?Hd, ?Ek; auto.
  discriminate.
Qed.

Lemma cache_computations_client (w : World) :
  (forall u, keeps keeps_client (_get_organizations w u))
  /\ (forall i u, keeps keeps_client (_get_networks w i u))
  /\ (forall u, keeps keeps_client (list_organizations w u))
  /\ (forall i u, keeps keeps_client (list_networks w i u)).
Proof.
  assert (Horg : forall v, keeps keeps_client (store_organizations v)).
  { intros v. apply keeps_modify. intros s.
    destruct (_enable_caching s); apply same_client_keeps; reflexivity. }
  assert (Hnet : forall i v, keeps keeps_client (store_networks i v)).
  { intros i v. apply keeps_modify. intros s.
    destruct (_enable_caching s); apply same_client_keeps; reflexivity. }
  assert (H1 : forall u, keeps keeps_client (_get_organizations w u)).
  { intros u. unfold _get_organizations, fetch_organizations.
    keeps_auto; first [apply the_dashboard_client | apply Horg]. }
  assert (H2 : forall i u, keeps keeps_client (_get_networks w i u)).
  { intros i u. unfold _get_networks, fetch_networks.
    keeps_auto;
      first [ apply the_dashboard_client | apply Hnet
            | apply keeps_modify; intros s; destruct (_networks_cache s);
              apply same_client_keeps; reflexivity ]. }
  repeat split; [exact H1 | exact H2 | |].
  - intros u. unfold list_organizations, organization_row. keeps_auto. apply H1.
  - intros i u. unfold list_networks, network_row. keeps_auto. apply H2.
Qed.

(** X1: an instance never holds an SDK client without holding a key:
    this is so after [__init__] and is kept by every method call.  So
    once [set_api_key] has found no key, whatever client the instance
    held before is gone, and [get_dashboard] returns [None] and leaves
    the instance as it is. *)
Theorem no_client_without_credential (w : World) :
  (forall initial_api_key enable_caching,
     no_client_without_key (init w initial_api_key enable_caching))
  /\ (forall op s tr,
        no_client_without_key s -> no_client_without_key (step w op s tr).1)
  /\ (forall api_key s,
        str_truthy api_key = false ->
        str_truthy (getenv_MK_CSM_KEY w) = false ->
        is_api_key_set (set_api_key w api_key s) = false
        /\ _dashboard (set_api_key w api_key s) = None)
  /\ (forall s,
        no_client_without_key s -> is_api_key_set s = false ->
        get_dashboard s = (None, s)).
Proof.
  split; [| split; [| split ] ].
  - intros k c. unfold init.
    pose proof (follows_key_no_client _
                  (set_api_key_client w k
                     (mkWrapper None None None None None c None None None ∅))) as H.
    revert H. apply same_client_keeps; reflexivity.
  - intros op s tr Hs.
    destruct (cache_computations_client w) as (H1 & H2 & H3 & H4).
    assert (Hafter : forall {A} (c : M MerakiAPIWrapper A),
              keeps keeps_client c -> no_client_without_key (after c s tr).1).
    { intros A c Hc. specialize (Hc s tr). unfold after.
      destruct (c s tr) as [[r s1] tr1]. simpl in *. apply Hc, Hs. }
    destruct op; simpl; try exact Hs; try (apply Hafter; auto).
    + apply follows_key_no_client, set_api_key_client.
    + revert Hs. unfold set_organization_id.
      destruct (str_truthy organization_id), (str_truthy organization_name);
        apply same_client_keeps; reflexivity.
    + revert Hs. unfold set_network_id.
      destruct (str_truthy network_id), (str_truthy network_name);
        apply same_client_keeps; reflexivity.
    + pose proof (the_dashboard_client s tr Hs) as H. unfold the_dashboard in H.
      destruct (get_dashboard s). exact H.
    + unfold setup_run.
      set (s0 := match enable_caching with
                 | Some b => assign_enable_caching b s
                 | None => s
                 end).
      assert (H0 : no_client_without_key s0)
        by (revert Hs; subst s0; destruct enable_caching;
            apply same_client_keeps; reflexivity).
      destruct (negb (_check_required_parameter_order required_app_setup_parm));
        [exact H0 |].
      set (s1 := assign_required_app_setup_param required_app_setup_parm s0).
      assert (Hs1 : no_client_without_key s1)
        by (revert H0; apply same_client_keeps; reflexivity).
      destruct (flag required_app_setup_parm "api_key").
      * set (s2 := set_api_key w _ s1).
        pose proof (follows_key_no_client _
                      (set_api_key_client w
                         (default ∅ app_setup_param !! "api_key") s1)) as Hs2.
        fold s2 in Hs2.
        destruct (negb (is_api_key_set s2)); [exact Hs2 |].
        exact (setup_organization_client _ _ s2 Hs2).
      * exact (setup_organization_client _ _ s1 Hs1).
  - intros api_key s Ha He. unfold set_api_key, is_api_key_set.
    rewrite Ha, He. simpl. split; reflexivity.
  - intros s Hs Hk. unfold get_dashboard. rewrite (Hs Hk).
    unfold is_api_key_set in Hk. unfold str_truthy. rewrite Hk. reflexivity.
Qed.

Lemma no_client_without_credential_witness :
  let s := init offline (Some "key-1") false in
  let s' := (step offline (Call_set_api_key None) s []).1 in
  _dashboard s = Some (mkDashboardAPI "key-1")
  /\ _dashboard s' = None
  /\ get_dashboard s' = (None, s').
Proof.
  intros s s'.
  destruct (no_client_without_credential offline) as (Hinit & Hstep & Hdrop & Hget).
  pose proof (Hstep (Call_set_api_key None) s [] (Hinit (Some "key-1") false)) as Hs.
  fold s' in Hs.
  destruct (Hdrop None s eq_refl eq_refl) as [Hk Hd].
  split; [reflexivity |]. split; [exact Hd |]. exact (Hget s' Hs Hk).
Defined.

Lemma setup_network_complete (r : gmap string bool) (p : gmap string string)
    (s s' : MerakiAPIWrapper) :
  setup_network r p s = (SetupComplete, s') ->
  _api_key s' = _api_key s
  /\ _organization_id s' = _organization_id s
  /\ _required_app_setup_param s' = _required_app_setup_param s
  /\ (if flag r "network_id"
      then is_network_id_set s' = true /\ _network_id s' = p !! "network_id"
      else s' = s).
Proof.
  unfold setup_network.
  destruct (flag r "network_id"); [| intros H; inversion H; subst; auto ].
  destruct (negb (is_api_key_set s) || negb (is_organization_id_set s));
    [discriminate |].
  destruct (str_truthy (p !! "network_id")) eqn:Hn; [| discriminate ].
  destruct (set_network_id_is_set (p !! "network_id") (p !! "net_name") s Hn)
    as [Hs Hi].
  rewrite Hs. simpl. intros H; inversion H; subst s'. clear H.
  split; [| split; [| split; [| auto ] ] ];
    unfold set_network_id; rewrite Hn;
    destruct (str_truthy (p !! "net_name")); reflexivity.
Qed.

Lemma setup_organization_complete (r : gmap string bool) (p : gmap string string)
    (s s' : MerakiAPIWrapper) :
  setup_organization r p s = (SetupComplete, s') ->
  _api_key s' = _api_key s
  /\ _required_app_setup_param s' = _required_app_setup_param s
  /\ (if flag r "organization_id"
      then is_organization_id_set s' = true
           /\ _organization_id s' = p !! "organization_id"
      else _organization_id s' = _organization_id s)
  /\ (if flag r "network_id"
      then is_network_id_set s' = true /\ _network_id s' = p !! "network_id"
      else _network_id s' = _network_id s).
Proof.
  unfold setup_organization.
  destruct (flag r "organization_id").
  - destruct (negb (is_api_key_set s)); [discriminate |].
    destruct (str_truthy (p !! "organization_id")) eqn:Ho; [| discriminate ].
    destruct (set_organization_id_is_set (p !! "organization_id")
                (p !! "org_name") s Ho) as [Hs Hi].
    set (s1 := set_organization_id _ _ s) in *.
    rewrite Hs. simpl. intros H.
    destruct (setup_network_complete r p s1 s' H) as (A & B & C & D).
    assert (F : _api_key s1 = _api_key s
                /\ _required_app_setup_param s1 = _required_app_setup_param s
                /\ _network_id s1 = _network_id s).
    { subst s1. unfold set_organization_id. rewrite Ho.
      destruct (str_truthy (p !! "org_name")); auto. }
    destruct F as (F1 & F2 & F3).
    split; [congruence |]. split; [congruence |]. split.
    + unfold is_organization_id_set in *. rewrite B. auto.
    + destruct (flag r "network_id"); [exact D | subst s'; exact F3 ].
  - intros H. destruct (setup_network_complete r p s s' H) as (A & B & C & D).
    split; [exact A |]. split; [exact C |]. split; [exact B |].
    destruct (flag r "network_id"); [exact D | subst s'; reflexivity ].
Qed.

(** What a successful setup leaves: shared by the statements below. *)
Lemma setup_complete_state (w : World) (r : gmap string bool)
    (p : option (gmap string string)) (c : option bool) (s s' : MerakiAPIWrapper) :
  setup_application_parameters w r p c s = (true, s') ->
  _check_required_parameter_order r = true
  /\ _required_app_setup_param s' = r
  /\ (if flag r "api_key" then is_api_key_set s' = true
      else _api_key s' = _api_key s)
  /\ (if flag r "organization_id"
      then is_organization_id_set s' = true
           /\ _organization_id s' = default ∅ p !! "organization_id"
      else _organization_id s' = _organization_id s)
  /\ (if flag r "network_id"
      then is_network_id_set s' = true
           /\ _network_id s' = default ∅ p !! "network_id"
      else _network_id s' = _network_id s).
Proof.
  unfold setup_application_parameters. intros H.
  destruct (setup_run w r p c s) as [e s1] eqn:Hrun. simpl in H.
  assert (e = SetupComplete) by (destruct e; simpl in H; congruence).
  assert (s1 = s') by congruence. subst e s1. clear H.
  revert Hrun. unfold setup_run.
  set (s0 := match c with
             | Some b => assign_enable_caching b s
             | None => s
             end).
  assert (H0 : _api_key s0 = _api_key s /\ _organization_id s0 = _organization_id s
               /\ _network_id s0 = _network_id s)
    by (subst s0; destruct c; auto).
  destruct H0 as (K0 & O0 & N0).
  destruct (_check_required_parameter_order r); [| discriminate ]. cbn [negb].
  set (s1 := assign_required_app_setup_param r s0).
  destruct (flag r "api_key") eqn:Fa.
  - set (s2 := set_api_key w _ s1).
    pose proof (set_api_key_frame w (default ∅ p !! "api_key") s1) as F.
    cbv zeta in F. fold s2 in F.
    destruct F as (F1 & _ & F3 & _ & _ & _ & _ & F8).
    destruct (is_api_key_set s2) eqn:Hk; [| discriminate ]. cbn [negb].
    intros H. destruct (setup_organization_complete r _ s2 s' H) as (A & B & C & D).
    split; [reflexivity |]. split; [rewrite B, F8; reflexivity |].
    split; [unfold is_api_key_set in *; rewrite A; exact Hk |].
    split.
    + destruct (flag r "organization_id"); [exact C |].
      rewrite C, F1. exact O0.
    + destruct (flag r "network_id"); [exact D |]. rewrite D, F3. exact N0.
  - intros H. destruct (setup_organization_complete r _ s1 s' H) as (A & B & C & D).
    split; [reflexivity |]. split; [rewrite B; reflexivity |].
    split; [rewrite A; exact K0 |].
    split.
    + destruct (flag r "organization_id"); [exact C | rewrite C; exact O0 ].
    + destruct (flag r "network_id"); [exact D | rewrite D; exact N0 ].
Qed.

(** X2: when [setup_application_parameters] returns true, the
    configuration passed the order check and is stored, every required
    field is set (organization and network id to the supplied values),
    and the fields that are not required hold what they held before. *)
Theorem setup_success_sets_required (w : World)
    (required_app_setup_parm : gmap string bool)
    (app_setup_param : option (gmap string string))
    (enable_caching : option bool) (s s' : MerakiAPIWrapper) :
  setup_application_parameters w required_app_setup_parm app_setup_param
    enable_caching s = (true, s') ->
  _check_required_parameter_order required_app_setup_parm = true
  /\ _required_app_setup_param s' = required_app_setup_parm
  /\ (if flag required_app_setup_parm "api_key"
      then is_api_key_set s' = true
      else _api_key s' = _api_key s)
  /\ (if flag required_app_setup_parm "organization_id"
      then is_organization_id_set s' = true
           /\ _organization_id s' = default ∅ app_setup_param !! "organization_id"
      else _organization_id s' = _organization_id s)
  /\ (if flag required_app_setup_parm "network_id"
      then is_network_id_set s' = true
           /\ _network_id s' = default ∅ app_setup_param !! "network_id"
      else _network_id s' = _network_id s).
Proof. apply setup_complete_state. Qed.

Lemma setup_success_sets_required_witness :
  let required : gmap string bool :=
    {[ "api_key" := true; "organization_id" := true ]} in
  let supplied : gmap string string :=
    {[ "api_key" := "key-1"; "organization_id" := "org-1" ]} in
  let s' := (setup_application_parameters offline required (Some supplied) None
               (init offline None false)).2 in
  is_api_key_set s' = true
  /\ _organization_id s' = Some "org-1"
  /\ _network_id s' = None.
Proof.
  intros required supplied s'.
  destruct (setup_success_sets_required offline required (Some supplied) None
              (init offline None false) s') as (_ & _ & Hk & Ho & Hn).
  { subst s'. vm_compute. reflexivity. }
  change (flag required "api_key") with true in Hk.
  change (flag required "organization_id") with true in Ho.
  change (flag required "network_id") with false in Hn.
  destruct Ho as [_ Ho]. split; [exact Hk |]. split; [rewrite Ho | rewrite Hn];
    reflexivity.
Defined.

(** X3: after a successful setup with a non-empty configuration,
    [check_current_parameters_status] reports that all is set, with an
    empty list of missing names. *)
Theorem status_after_successful_setup (w : World)
    (required_app_setup_parm : gmap string bool)
    (app_setup_param : option (gmap string string))
    (enable_caching : option bool) (s s' : MerakiAPIWrapper) :
  required_app_setup_parm <> ∅ ->
  setup_application_parameters w required_app_setup_parm app_setup_param
    enable_caching s = (true, s') ->
  check_current_parameters_status s' = (true, []).
Proof.
  intros Hne H.
  destruct (setup_complete_state _ _ _ _ _ _ H) as (Hord & Hreq & Hk & Ho & Hn).
  unfold check_current_parameters_status. rewrite Hreq.
  rewrite bool_decide_eq_false_2 by exact Hne. rewrite Hord. cbn [negb].
  destruct (flag required_app_setup_parm "api_key");
    destruct (flag required_app_setup_parm "organization_id");
    destruct (flag required_app_setup_parm "network_id");
    rewrite ?Hk, ?(proj1 Ho), ?(proj1 Hn); reflexivity.
Qed.

Lemma status_after_successful_setup_witness :
  let required : gmap string bool := {[ "api_key" := true ]} in
  let supplied : gmap string string := {[ "api_key" := "key-1" ]} in
  check_current_parameters_status
    (setup_application_parameters offline required (Some supplied) None
       (init offline None false)).2 = (true, []).
Proof.
  intros required supplied.
  apply (status_after_successful_setup offline required (Some supplied) None
           (init offline None false)).
  - intros H. apply (f_equal (fun m : gmap string bool => m !! "api_key")) in H.
    vm_compute in H. discriminate.
  - vm_compute. reflexivity.
Defined.

(** X4: a setup with the empty configuration succeeds and leaves the
    scope fields as they were, yet afterwards, as on a fresh instance,
    [check_current_parameters_status] answers false with the
    placeholder "No required parameters defined". *)
Theorem empty_configuration_is_never_complete (w : World)
    (app_setup_param : option (gmap string string))
    (enable_caching : option bool) (s : MerakiAPIWrapper) :
  let r := setup_application_parameters w ∅ app_setup_param enable_caching s in
  r.1 = true
  /\ same_scope s r.2
  /\ check_current_parameters_status r.2
     = (false, ["No required parameters defined"])
  /\ forall k c,
       check_current_parameters_status (init w k c)
       = (false, ["No required parameters defined"]).
Proof.
  unfold setup_application_parameters, setup_run, setup_organization,
    setup_network, _check_required_parameter_order, flag.
  rewrite !lookup_empty. simpl.
  split; [reflexivity |].
  split; [destruct enable_caching; repeat split |].
  split; [destruct enable_caching; reflexivity |].
  intros k c. reflexivity.
Qed.

(** X5: what [check_current_parameters_status] answers for a stored
    configuration that is not empty.  When the configuration passes
    the order check, the list holds a name exactly when that field is
    required and not set, in the order API_KEY, ORGANIZATION_ID,
    NETWORK_ID, and the answer is true exactly when the list is empty.
    When the configuration fails the order check, as it can once the
    caller has changed the dict it handed to the setup, the answer is
    false and the list holds the single entry "Invalid
    required_app_setup_parm configuration stored in instance",
    whatever is set. *)
Theorem status_lists_what_is_missing (s : MerakiAPIWrapper) :
  _required_app_setup_param s <> ∅ ->
  let '(all_set, missing) := check_current_parameters_status s in
  (_check_required_parameter_order (_required_app_setup_param s) = true ->
   (forall name, name ∈ missing <-> required_and_unset s name)
   /\ sublist missing ["API_KEY"; "ORGANIZATION_ID"; "NETWORK_ID"]
   /\ (all_set = true <-> missing = []))
  /\ (_check_required_parameter_order (_required_app_setup_param s) = false ->
      all_set = false
      /\ missing
         = ["Invalid required_app_setup_parm configuration stored in instance"]).
Proof.
  intros Hne. unfold check_current_parameters_status, required_and_unset.
  rewrite bool_decide_eq_false_2 by exact Hne.
  destruct (_check_required_parameter_order (_required_app_setup_param s));
    cbn [negb]; [| split; [discriminate | intros _; split; reflexivity ] ].
  destruct (flag (_required_app_setup_param s) "api_key"),
           (flag (_required_app_setup_param s) "organization_id"),
           (flag (_required_app_setup_param s) "network_id"),
           (is_api_key_set s), (is_organization_id_set s), (is_network_id_set s);
    simpl;
    (split; [intros _ | discriminate ]);
    (split; [| split ];
     [ intros name; rewrite ?elem_of_cons, ?elem_of_nil; intuition congruence
     | repeat first [apply sublist_nil | apply sublist_skip | apply sublist_cons]
     | split; intros; congruence ]).
Qed.

Lemma status_lists_what_is_missing_witness :
  let required : gmap string bool :=
    {[ "api_key" := true; "organization_id" := true ]} in
  let supplied : gmap string string := {[ "api_key" := "key-1" ]} in
  let s := (setup_application_parameters offline required (Some supplied) None
              (init offline None false)).2 in
  let edited : gmap string bool :=
    {[ "api_key" := false; "organization_id" := true ]} in
  check_current_parameters_status s = (false, ["ORGANIZATION_ID"])
  /\ required_and_unset s "ORGANIZATION_ID"
  /\ check_current_parameters_status (assign_required_app_setup_param edited s)
     = (false, ["Invalid required_app_setup_parm configuration stored in instance"]).
Proof.
  intros required supplied s edited.
  assert (Hst : check_current_parameters_status s = (false, ["ORGANIZATION_ID"]))
    by (vm_compute; reflexivity).
  split; [exact Hst |].
  split.
  - pose proof (status_lists_what_is_missing s) as H. rewrite Hst in H.
    apply H.
    + intros E. apply (f_equal (fun m : gmap string bool => m !! "api_key")) in E.
      vm_compute in E. discriminate.
    + vm_compute. reflexivity.
    + apply list_elem_of_here.
  - vm_compute. reflexivity.
Defined.


Global Instance same_configuration_refl : Reflexive same_configuration.
Proof. intros s. reflexivity. Qed.

Global Instance same_configuration_trans : Transitive same_configuration.
Proof. intros a b c H1 H2. unfold same_configuration in *. congruence. Qed.

(** The organization and network steps of the setup change nothing
    but the organization and the network selection. *)
Lemma setup_organization_frame (r : gmap string bool) (p : gmap string string)
    (s : MerakiAPIWrapper) :
  let s' := (setup_organization r p s).2 in
  _api_key s' = _api_key s
  /\ _enable_caching s' = _enable_caching s
  /\ _dashboard s' = _dashboard s
  /\ _organizations_cache s' = _organizations_cache s
  /\ _networks_cache s' = _networks_cache s
  /\ _required_app_setup_param s' = _required_app_setup_param s.
Proof.
  unfold setup_organization, setup_network, set_organization_id, set_network_id.
  repeat match goal with
         | |- context [if ?b then _ else _] => destruct b
         end; simpl; repeat split.
Qed.

Lemma cache_computations_configuration (w : World) :
  (forall u, keeps same_configuration (_get_organizations w u))
  /\ (forall i u, keeps same_configuration (_get_networks w i u))
  /\ (forall u, keeps same_configuration (list_organizations w u))
  /\ (forall i u, keeps same_configuration (list_networks w i u)).
Proof.
  assert (Hd : keeps same_configuration the_dashboard).
  { intros s tr. unfold the_dashboard, get_dashboard.
    destruct (_dashboard s); simpl; [reflexivity |].
    destruct (negb (str_truthy (_api_key s))); reflexivity. }
  assert (Horg : forall v, keeps same_configuration (store_organizations v)).
  { intros v. apply keeps_modify. intros s. destruct (_enable_caching s); reflexivity. }
  assert (Hnet : forall i v, keeps same_configuration (store_networks i v)).
  { intros i v. apply keeps_modify. intros s. destruct (_enable_caching s); reflexivity. }
  assert (H1 : forall u, keeps same_configuration (_get_organizations w u)).
  { intros u. unfold _get_organizations, fetch_organizations.
    keeps_auto; first [apply Hd | apply Horg]. }
  assert (H2 : forall i u, keeps same_configuration (_get_networks w i u)).
  { intros i u. unfold _get_networks, fetch_networks.
    keeps_auto;
      first [ apply Hd | apply Hnet
            | apply keeps_modify; intros s; destruct (_networks_cache s); reflexivity ]. }
  repeat split; [exact H1 | exact H2 | |].
  - intros u. unfold list_organizations, organization_row. keeps_auto. apply H1.
  - intros i u. unfold list_networks, network_row. keeps_auto. apply H2.
Qed.

(** X6: no method of an instance changes the stored configuration,
    except [setup_application_parameters] called with a configuration
    that passes the order check, which stores that configuration.  A
    stored configuration that fails the check therefore never comes
    from a method call, only from a caller that edits the dict it
    handed to the setup. *)
Theorem stored_configuration_changes_only_by_setup (w : World)
    (op : operation) (s : MerakiAPIWrapper) (tr : list io_event) :
  let s' := (step w op s tr).1 in
  _required_app_setup_param s' = _required_app_setup_param s
  \/ exists r p c,
       op = Call_setup_application_parameters r p c
       /\ _check_required_parameter_order r = true
       /\ _required_app_setup_param s' = r.
Proof.
  cbv zeta.
  destruct (cache_computations_configuration w) as (H1 & H2 & H3 & H4).
  assert (Hafter : forall {A} (c : M MerakiAPIWrapper A),
            keeps same_configuration c ->
            _required_app_setup_param (after c s tr).1 = _required_app_setup_param s).
  { intros A c Hc. specialize (Hc s tr). unfold after.
    destruct (c s tr) as [[r s1] tr1]. simpl in *. exact Hc. }
  destruct op; simpl; try (left; reflexivity); try (left; apply Hafter; auto).
  - left. pose proof (set_api_key_frame w api_key s) as F. cbv zeta in F.
    destruct F as (_ & _ & _ & _ & _ & _ & _ & F8). exact F8.
  - left. unfold set_organization_id.
    destruct (str_truthy organization_id), (str_truthy organization_name);
      reflexivity.
  - left. unfold set_network_id.
    destruct (str_truthy network_id), (str_truthy network_name); reflexivity.
  - left. unfold get_dashboard. destruct (_dashboard s); simpl; [reflexivity |].
    destruct (negb (str_truthy (_api_key s))); reflexivity.
  - unfold setup_run.
    destruct (_check_required_parameter_order required_app_setup_parm) eqn:Hord;
      cbn [negb]; [| left; destruct enable_caching; reflexivity ].
    right. exists required_app_setup_parm, app_setup_param, enable_caching.
    split; [reflexivity |]. split; [exact Hord |].
    match goal with
    | |- context [assign_required_app_setup_param ?r ?s0] =>
        set (s1 := assign_required_app_setup_param r s0)
    end.
    destruct (flag required_app_setup_parm "api_key").
    + set (s2 := set_api_key w _ s1).
      pose proof (set_api_key_frame w
                    (default ∅ app_setup_param !! "api_key") s1) as F.
      cbv zeta in F. fold s2 in F.
      destruct F as (_ & _ & _ & _ & _ & _ & _ & F8).
      destruct (negb (is_api_key_set s2)); simpl; [rewrite F8; reflexivity |].
      destruct (setup_organization_frame required_app_setup_parm
                  (default ∅ app_setup_param) s2) as (_ & _ & _ & _ & _ & G).
      rewrite G, F8. reflexivity.
    + destruct (setup_organization_frame required_app_setup_parm
                  (default ∅ app_setup_param) s1) as (_ & _ & _ & _ & _ & G).
      rewrite G. reflexivity.
Qed.

(** ** Masking the API key *)

Lemma length_stars (n : nat) : String.length (stars n) = n.
Proof. induction n; simpl; congruence. Qed.

Lemma length_string_app (a b : string) :
  String.length (a +:+ b) = (String.length a + String.length b)%nat.
Proof.
  induction a as [|c a IH]; [reflexivity |].
  change (String c a +:+ b) with (String c (a +:+ b)).
  cbn [String.length]. rewrite IH. reflexivity.
Qed.

Lemma length_substring (n m : nat) (s : string) :
  String.length (String.substring n m s) = Nat.min m (String.length s - n).
Proof.
  revert n m. induction s as [|c s IH]; intros n m.
  - destruct n, m; reflexivity.
  - destruct n as [|n]; [destruct m as [|m] |]; simpl.
    + reflexivity.
    + rewrite IH. rewrite Nat.sub_0_r. reflexivity.
    + apply IH.
Qed.

Lemma get_stars (n i : nat) :
  (i < n)%nat -> String.get i (stars n) = Some (Ascii.ascii_of_nat 42).
Proof.
  revert i. induction n as [|n IH]; intros i Hi; [lia |].
  destruct i; simpl; [reflexivity | apply IH; lia ].
Qed.

Lemma get_beyond (s : string) (i : nat) :
  (String.length s <= i)%nat -> String.get i s = None.
Proof.
  revert i. induction s as [|c s IH]; intros i Hi; [destruct i; reflexivity |].
  destruct i; simpl in *; [lia | apply IH; lia ].
Qed.

Lemma substring_all (s : string) (m : nat) :
  (String.length s <= m)%nat -> String.substring 0 m s = s.
Proof.
  revert m. induction s as [|c s IH]; intros m Hm; [destruct m; reflexivity |].
  destruct m; simpl in *; [lia |]. rewrite IH by lia. reflexivity.
Qed.

(** X7: the API key is displayed masked.  For a key of ASCII
    characters, [get_current_params] shows under "API Key", and
    [get_current_app_params] shows as the value of its "api_key" entry
    when the key is required, one and the same text: it has the length
    of the key, an asterisk in every position but the last four, and
    there the characters of the key; a key of at most four characters
    is shown as it is.  An unset or empty key is shown as "N/A", and
    [get_current_app_params] has no "api_key" entry when the key is
    not required. *)
Theorem displayed_key_is_masked (key : string) :
  key <> "" ->
  is_ascii key = true ->
  (exists shown,
     (forall g,
        LocalDns.API_KEY g = Some key ->
        py_get (LocalDns.get_current_params g) "API Key" PNone = Ok (PStr shown))
     /\ (forall s,
           _api_key s = Some key ->
           flag (_required_app_setup_param s) "api_key" = true ->
           py_get (get_current_app_params s) "api_key" PNone
           = Ok (PDict [("value", PStr shown); ("label", PStr "API Key")]))
     /\ String.length shown = String.length key
     /\ (forall i, (i < String.length key - 4)%nat ->
           String.get i shown = Some (Ascii.ascii_of_nat 42))
     /\ (forall i, (String.length key - 4 <= i)%nat ->
           String.get i shown = String.get i key)
     /\ ((String.length key <= 4)%nat -> shown = key))
  /\ (forall g,
        str_truthy (LocalDns.API_KEY g) = false ->
        py_get (LocalDns.get_current_params g) "API Key" PNone = Ok (PStr "N/A"))
  /\ (forall s,
        str_truthy (_api_key s) = false ->
        flag (_required_app_setup_param s) "api_key" = true ->
        py_get (get_current_app_params s) "api_key" PNone
        = Ok (PDict [("value", PStr "N/A"); ("label", PStr "API Key")]))
  /\ (forall s,
        flag (_required_app_setup_param s) "api_key" = false ->
        py_in "api_key" (get_current_app_params s) = Ok false).
Proof.
  intros Hkey _.
  split; [| split; [| split ] ].
  - exists (mask_key (Some key)).
    split; [| split ].
    + intros g Hg. unfold LocalDns.get_current_params. rewrite Hg. reflexivity.
    + intros s Hs Hf. unfold get_current_app_params. rewrite Hs, Hf. reflexivity.
    + unfold mask_key. rewrite (str_truthy_Some key Hkey).
      change (default "" (Some key)) with key. cbv zeta.
      set (n := (String.length key - 4)%nat).
      split; [| split; [| split ] ].
      * rewrite length_string_app, length_stars. unfold last_four. fold n.
        rewrite length_substring. lia.
      * intros i Hi.
        rewrite <- String.append_correct1 by (rewrite length_stars; exact Hi).
        apply get_stars. exact Hi.
      * intros i Hi.
        replace i with ((i - n) + String.length (stars n))%nat at 1
          by (rewrite length_stars; lia).
        rewrite <- String.append_correct2. unfold last_four. fold n.
        destruct (Nat.lt_ge_cases (i - n) 4) as [Hlt | Hge].
        -- rewrite String.substring_correct1 by exact Hlt. f_equal. lia.
        -- rewrite String.substring_correct2 by exact Hge. symmetry.
           apply get_beyond. subst n. lia.
      * intros Hshort. replace n with 0%nat by (subst n; lia). simpl.
        unfold last_four. replace (String.length key - 4)%nat with 0%nat by lia.
        apply substring_all. exact Hshort.
  - intros g Hg. unfold LocalDns.get_current_params, mask_key. rewrite Hg.
    reflexivity.
  - intros s Hs Hf. unfold get_current_app_params, mask_key. rewrite Hs, Hf.
    reflexivity.
  - intros s Hf. unfold get_current_app_params. rewrite Hf.
    destruct (flag (_required_app_setup_param s) "organization_id"),
             (flag (_required_app_setup_param s) "network_id"); reflexivity.
Qed.

Lemma displayed_key_is_masked_witness :
  let g := LocalDns.set_api_key offline (Some "0123456789abcdef")
             (LocalDns.init offline) in
  py_get (LocalDns.get_current_params g) "API Key" PNone
  = Ok (PStr "************cdef").
Proof.
  intros g.
  destruct (displayed_key_is_masked "0123456789abcdef" ltac:(discriminate) eq_refl)
    as ((shown & Hg & _) & _).
  pose proof (Hg g eq_refl) as E. rewrite E. vm_compute in E.
  injection E as <-. reflexivity.
Defined.


Lemma set_network_id_fixed (i n : option string) (u : MerakiAPIWrapper) :
  _network_id u = i ->
  (str_truthy n = true -> _network_name u = n) ->
  set_network_id i n u = u.
Proof.
  destruct u as [k oi on ni nn ec d oc nc rq]. simpl. intros <- Hn.
  unfold set_network_id. destruct (str_truthy ni); [| reflexivity ].
  destruct (str_truthy n); [rewrite <- Hn by reflexivity |]; reflexivity.
Qed.

Lemma set_organization_id_fixed (i n : option string) (u : MerakiAPIWrapper) :
  _organization_id u = i ->
  (str_truthy n = true -> _organization_name u = n) ->
  set_organization_id i n u = u.
Proof.
  destruct u as [k oi on ni nn ec d oc nc rq]. simpl. intros <- Hn.
  unfold set_organization_id. destruct (str_truthy oi); [| reflexivity ].
  destruct (str_truthy n); [rewrite <- Hn by reflexivity |]; reflexivity.
Qed.

Lemma set_api_key_fixed (w : World) (k : option string) (u u0 : MerakiAPIWrapper) :
  _api_key u = _api_key (set_api_key w k u0) ->
  _dashboard u = _dashboard (set_api_key w k u0) ->
  set_api_key w k u = u.
Proof.
  intros Hk Hd. pose proof (set_api_key_client w k u0) as Hc.
  unfold client_follows_key in Hc. rewrite <- Hk, <- Hd in Hc.
  rewrite set_api_key_value in Hk. clear Hd.
  destruct u as [ku oi on ni nn ec d oc nc rq]. simpl in *.
  unfold set_api_key.
  destruct (str_truthy k) eqn:Ek;
    [| destruct (str_truthy (getenv_MK_CSM_KEY w)) eqn:Ee ];
    simpl; subst ku; simpl; rewrite ?Ek, ?Ee in *; simpl; subst d; reflexivity.
Qed.

(** The written fields of the network setter. *)
Lemma set_network_id_written (i n : option string) (t : MerakiAPIWrapper) :
  str_truthy i = true ->
  let t1 := set_network_id i n t in
  _network_id t1 = i
  /\ (str_truthy n = true -> _network_name t1 = n)
  /\ is_api_key_set t1 = is_api_key_set t
  /\ is_organization_id_set t1 = is_organization_id_set t.
Proof.
  intros Hi. unfold set_network_id. rewrite Hi.
  destruct (str_truthy n); repeat split; intros; try reflexivity; discriminate.
Qed.

Lemma setup_network_idempotent (r : gmap string bool) (p : gmap string string)
    (t : MerakiAPIWrapper) :
  setup_network r p (setup_network r p t).2 = setup_network r p t.
Proof.
  unfold setup_network. destruct (flag r "network_id"); [| reflexivity ].
  destruct (negb (is_api_key_set t) || negb (is_organization_id_set t)) eqn:Hpre;
    cbn [snd]; [rewrite Hpre; reflexivity |].
  destruct (str_truthy (p !! "network_id")) eqn:Hn;
    cbn [snd]; [| rewrite Hpre; reflexivity ].
  destruct (set_network_id_is_set (p !! "network_id") (p !! "net_name") t Hn)
    as [Hs _].
  destruct (set_network_id_written (p !! "network_id") (p !! "net_name") t Hn)
    as (W1 & W2 & W3 & W4).
  set (t1 := set_network_id (p !! "network_id") (p !! "net_name") t) in *.
  rewrite Hs. cbn [negb snd]. rewrite W3, W4, Hpre.
  rewrite (set_network_id_fixed _ _ t1 W1 W2). rewrite Hs. reflexivity.
Qed.

Lemma set_organization_id_written (i n : option string) (t : MerakiAPIWrapper) :
  str_truthy i = true ->
  let t1 := set_organization_id i n t in
  _organization_id t1 = i
  /\ (str_truthy n = true -> _organization_name t1 = n)
  /\ is_api_key_set t1 = is_api_key_set t.
Proof.
  intros Hi. unfold set_organization_id. rewrite Hi.
  destruct (str_truthy n); repeat split; intros; try reflexivity; discriminate.
Qed.

(** The network step leaves the credential and the organization alone. *)
Lemma setup_network_frame (r : gmap string bool) (p : gmap string string)
    (t : MerakiAPIWrapper) :
  let t' := (setup_network r p t).2 in
  _api_key t' = _api_key t
  /\ _organization_id t' = _organization_id t
  /\ _organization_name t' = _organization_name t.
Proof.
  unfold setup_network, set_network_id.
  repeat match goal with
         | |- context [if ?b then _ else _] => destruct b
         end; simpl; repeat split.
Qed.

Lemma setup_organization_idempotent (r : gmap string bool) (p : gmap string string)
    (t : MerakiAPIWrapper) :
  setup_organization r p (setup_organization r p t).2 = setup_organization r p t.
Proof.
  unfold setup_organization.
  destruct (flag r "organization_id"); [| apply setup_network_idempotent ].
  destruct (negb (is_api_key_set t)) eqn:Hk; cbn [snd]; [rewrite Hk; reflexivity |].
  destruct (str_truthy (p !! "organization_id")) eqn:Ho;
    cbn [snd]; [| rewrite Hk; reflexivity ].
  destruct (set_organization_id_is_set (p !! "organization_id") (p !! "org_name")
              t Ho) as [Hs _].
  destruct (set_organization_id_written (p !! "organization_id") (p !! "org_name")
              t Ho) as (W1 & W2 & W3).
  set (t1 := set_organization_id (p !! "organization_id") (p !! "org_name") t) in *.
  rewrite Hs. cbn [negb].
  destruct (setup_network_frame r p t1) as (F1 & F2 & F3).
  set (t2 := (setup_network r p t1).2) in *.
  assert (Hk2 : negb (is_api_key_set t2) = false)
    by (unfold is_api_key_set in *; rewrite F1, W3; exact Hk).
  rewrite Hk2.
  assert (Hfix : set_organization_id (p !! "organization_id") (p !! "org_name") t2
                 = t2).
  { apply set_organization_id_fixed; [congruence |].
    intros Hn. rewrite F3. apply W2, Hn. }
  rewrite Hfix.
  assert (Hs2 : is_organization_id_set t2 = true)
    by (unfold is_organization_id_set in *; rewrite F2; exact Hs).
  rewrite Hs2. cbn [negb]. subst t2. apply setup_network_idempotent.
Qed.

Lemma assign_enable_caching_fixed (c : option bool) (u : MerakiAPIWrapper) :
  (forall b, c = Some b -> _enable_caching u = b) ->
  match c with
  | Some b => assign_enable_caching b u
  | None => u
  end = u.
Proof.
  destruct c as [b|]; [| reflexivity ]. intros H. specialize (H b eq_refl).
  destruct u. simpl in H. subst. reflexivity.
Qed.

Lemma assign_required_fixed (r : gmap string bool) (u : MerakiAPIWrapper) :
  _required_app_setup_param u = r -> assign_required_app_setup_param r u = u.
Proof. destruct u. simpl. intros ->. reflexivity. Qed.

(** X8: a setup is idempotent: run again with the same arguments on
    the state it left, it takes the same exit, returns the same answer
    and leaves that state unchanged. *)
Theorem setup_is_idempotent (w : World)
    (required_app_setup_parm : gmap string bool)
    (app_setup_param : option (gmap string string))
    (enable_caching : option bool) (s : MerakiAPIWrapper) :
  let first := setup_application_parameters w required_app_setup_parm
                 app_setup_param enable_caching s in
  setup_application_parameters w required_app_setup_parm app_setup_param
    enable_caching first.2 = first
  /\ setup_run w required_app_setup_parm app_setup_param enable_caching first.2
     = setup_run w required_app_setup_parm app_setup_param enable_caching s.
Proof.
  cbv zeta.
  assert (Hrun : setup_run w required_app_setup_parm app_setup_param enable_caching
                   (setup_run w required_app_setup_parm app_setup_param
                      enable_caching s).2
                 = setup_run w required_app_setup_parm app_setup_param
                     enable_caching s).
  { unfold setup_run at 2 3.
    set (s0 := match enable_caching with
               | Some b => assign_enable_caching b s
               | None => s
               end).
    assert (C0 : forall b, enable_caching = Some b -> _enable_caching s0 = b)
      by (intros b ->; reflexivity).
    destruct (_check_required_parameter_order required_app_setup_parm) eqn:Hord;
      cbn [negb snd].
    2:{ unfold setup_run. rewrite (assign_enable_caching_fixed _ s0 C0), Hord.
        reflexivity. }
    set (p := default ∅ app_setup_param).
    set (s1 := assign_required_app_setup_param required_app_setup_parm s0).
    assert (C1 : forall b, enable_caching = Some b -> _enable_caching s1 = b)
      by exact C0.
    destruct (flag required_app_setup_parm "api_key") eqn:Fa.
    - set (s2 := set_api_key w (p !! "api_key") s1).
      pose proof (set_api_key_frame w (p !! "api_key") s1) as F.
      cbv zeta in F. fold s2 in F.
      destruct F as (_ & _ & _ & _ & F5 & _ & _ & F8).
      destruct (is_api_key_set s2) eqn:Hk; cbn [negb snd].
      + destruct (setup_organization_frame required_app_setup_parm p s2)
          as (G1 & G2 & G3 & _ & _ & G6).
        set (s3 := (setup_organization required_app_setup_parm p s2).2) in *.
        unfold setup_run. fold p.
        rewrite (assign_enable_caching_fixed _ s3)
          by (intros b Hb; rewrite G2, F5; apply C1, Hb).
        rewrite Hord. cbn [negb].
        rewrite (assign_required_fixed _ s3) by (rewrite G6, F8; reflexivity).
        rewrite Fa.
        rewrite (set_api_key_fixed w (p !! "api_key") s3 s1 G1 G3).
        assert (Hk3 : is_api_key_set s3 = true)
          by (unfold is_api_key_set in *; rewrite G1; exact Hk).
        rewrite Hk3. cbn [negb]. subst s3. apply setup_organization_idempotent.
      + unfold setup_run. fold p.
        rewrite (assign_enable_caching_fixed _ s2)
          by (intros b Hb; rewrite F5; apply C1, Hb).
        rewrite Hord. cbn [negb].
        rewrite (assign_required_fixed _ s2) by (rewrite F8; reflexivity).
        rewrite Fa.
        rewrite (set_api_key_fixed w (p !! "api_key") s2 s1 eq_refl eq_refl).
        rewrite Hk. reflexivity.
    - destruct (setup_organization_frame required_app_setup_parm p s1)
        as (G1 & G2 & G3 & _ & _ & G6).
      set (s3 := (setup_organization required_app_setup_parm p s1).2) in *.
      unfold setup_run. fold p.
      rewrite (assign_enable_caching_fixed _ s3)
        by (intros b Hb; rewrite G2; apply C1, Hb).
      rewrite Hord. cbn [negb].
      rewrite (assign_required_fixed _ s3) by (rewrite G6; reflexivity).
      rewrite Fa. subst s3. apply setup_organization_idempotent. }
  split; [| exact Hrun ].
  unfold setup_application_parameters. cbn [snd]. rewrite Hrun. reflexivity.
Qed.

(** * Further properties of the cache layer *)

(** X9: the wrapper's network listing needs an organization id: when
    the argument, or without an argument the selected organization, is
    empty or unset, [_get_networks] and [list_networks] return the
    "NoOrganizationSelected" record, call nothing and leave the instance
    as it is.  An empty string as argument is not replaced by the
    selected organization. *)
Theorem networks_need_an_organization (w : World)
    (organization_id : option string) (use_cache : bool)
    (s : MerakiAPIWrapper) (tr : list io_event) :
  str_truthy (resolved_organization organization_id s) = false ->
  _get_networks w organization_id use_cache s tr
  = (Ok no_organization_selected, s, tr)
  /\ list_networks w organization_id use_cache s tr
     = (Ok no_organization_selected, s, tr).
Proof.
  intros H. unfold resolved_organization in H.
  assert (H1 : _get_networks w organization_id use_cache s tr
               = (Ok no_organization_selected, s, tr)).
  { unfold _get_networks, bind, get, ret. rewrite H. reflexivity. }
  split; [exact H1 |]. unfold list_networks, bind. rewrite H1. reflexivity.
Qed.

Lemma networks_need_an_organization_witness :
  let s := set_organization_id (Some "org-1") (Some "Acme")
             (init offline (Some "key") true) in
  list_networks offline (Some "") true s [] = (Ok no_organization_selected, s, []).
Proof.
  intros s.
  apply (networks_need_an_organization offline (Some "") true s []). reflexivity.
Defined.

(** What a read that goes to the SDK returns and stores. *)
Lemma fresh_read (w : World) (s : MerakiAPIWrapper)
    (tr : list io_event) (listing : list pyval) :
  is_api_key_set s = true ->
  (getOrganizations w tr = Ok (PList listing) ->
   let '(r, s1, tr1) := _get_organizations w false s tr in
   r = Ok (PList listing)
   /\ tr1 = tr ++ [SdkGetOrganizations]
   /\ _organizations_cache s1
      = (if _enable_caching s then Some (PList listing)
         else _organizations_cache s)
   /\ same_scope s s1)
  /\ (forall organization_id oid,
        resolved_organization organization_id s = Some oid ->
        oid <> "" ->
        getOrganizationNetworks w tr oid = Ok (PList listing) ->
        let '(r, s1, tr1) := _get_networks w organization_id false s tr in
        r = Ok (PList listing)
        /\ tr1 = tr ++ [SdkGetOrganizationNetworks oid]
        /\ default ∅ (_networks_cache s1) !! oid
           = (if _enable_caching s then Some (PList listing)
              else default ∅ (_networks_cache s) !! oid)
        /\ same_scope s s1).
Proof.
  intros Hkey. split.
  - intros Hok.
    pose proof (_get_organizations_scope w false s tr) as Hscope.
    unfold _get_organizations, bind, get in *. cbn [andb] in *.
    unfold fetch_organizations, bind, the_dashboard, try_except, call, lift,
      store_organizations, modify, ret in *.
    destruct (get_dashboard_available s Hkey) as [d [Hd | Hd]];
      rewrite Hd in *; rewrite Hok in *; simpl in *;
      destruct (_enable_caching s); simpl in *; auto.
  - intros organization_id oid Hres Hoid Hok.
    pose proof (_get_networks_scope w organization_id false s tr) as Hscope.
    unfold resolved_organization in Hres.
    unfold _get_networks, bind, get in *. rewrite Hres in *.
    rewrite (str_truthy_Some oid Hoid) in *. cbn [negb] in *.
    change (default "" (Some oid)) with oid in *.
    unfold modify at 1 in Hscope. unfold modify at 1.
    set (sA := match _networks_cache s with
               | Some _ => s
               | None => assign_networks_cache (Some ∅) s
               end) in *.
    assert (HkA : is_api_key_set sA = true)
      by (subst sA; destruct (_networks_cache s); assumption).
    assert (HcA : _enable_caching sA = _enable_caching s)
      by (subst sA; destruct (_networks_cache s); reflexivity).
    assert (HnA : default ∅ (_networks_cache sA) = default ∅ (_networks_cache s))
      by (subst sA; destruct (_networks_cache s) eqn:E; simpl; rewrite ?E;
          reflexivity).
    cbn [andb] in *.
    unfold fetch_networks, bind, the_dashboard, try_except, call, lift,
      store_networks, modify, ret in *.
    destruct (get_dashboard_available sA HkA) as [d [Hd | Hd]];
      rewrite Hd in *; rewrite Hok in *; simpl in *; rewrite HcA in *;
      destruct (_enable_caching s); simpl in *;
      (split; [reflexivity |]); (split; [reflexivity |]);
      (split; [| exact Hscope ]);
      rewrite ?HnA; try apply lookup_insert_eq; reflexivity.
Qed.

(** X10: a call with [use_cache = False] asks the SDK whatever the
    cache holds: with a credential set and a listing returned, the
    organizations are fetched with exactly one call and returned, and
    when caching is enabled the listing replaces the cached one;
    likewise for the networks of an organization and its cache entry. *)
Theorem uncached_read_fetches (w : World) (s : MerakiAPIWrapper)
    (tr : list io_event) (listing : list pyval) :
  is_api_key_set s = true ->
  (getOrganizations w tr = Ok (PList listing) ->
   let '(r, s1, tr1) := _get_organizations w false s tr in
   r = Ok (PList listing)
   /\ tr1 = tr ++ [SdkGetOrganizations]
   /\ _organizations_cache s1
      = (if _enable_caching s then Some (PList listing)
         else _organizations_cache s)
   /\ same_scope s s1)
  /\ (forall organization_id oid,
        resolved_organization organization_id s = Some oid ->
        oid <> "" ->
        getOrganizationNetworks w tr oid = Ok (PList listing) ->
        let '(r, s1, tr1) := _get_networks w organization_id false s tr in
        r = Ok (PList listing)
        /\ tr1 = tr ++ [SdkGetOrganizationNetworks oid]
        /\ default ∅ (_networks_cache s1) !! oid
           = (if _enable_caching s then Some (PList listing)
              else default ∅ (_networks_cache s) !! oid)
        /\ same_scope s s1).
Proof. apply fresh_read. Qed.

Lemma uncached_read_fetches_witness :
  let w := listing_sdk (PList [PStr "fresh"]) in
  let s := assign_organizations_cache (Some (PList [PStr "stale"]))
             (init offline (Some "key") true) in
  let '(r, s1, tr1) := _get_organizations w false s [] in
  r = Ok (PList [PStr "fresh"])
  /\ tr1 = [SdkGetOrganizations]
  /\ _organizations_cache s1 = Some (PList [PStr "fresh"]).
Proof.
  intros w s.
  destruct (uncached_read_fetches w s [] [PStr "fresh"] eq_refl) as [H _].
  specialize (H eq_refl).
  destruct (_get_organizations w false s []) as [[r s1] tr1].
  destruct H as (H1 & H2 & H3 & _). auto.
Defined.

(** X11: with caching disabled nothing is ever stored: whatever the
    SDK answers, a read of the organizations or of the networks leaves
    the cached listings as they were, and with a credential set every
    read, also one with [use_cache = True], issues its SDK call. *)
Theorem disabled_cache_is_never_written (w : World) (s : MerakiAPIWrapper)
    (tr : list io_event) (use_cache : bool) :
  _enable_caching s = false ->
  (let '(r, s1, tr1) := _get_organizations w use_cache s tr in
   _organizations_cache s1 = _organizations_cache s
   /\ _enable_caching s1 = false
   /\ (is_api_key_set s = true -> tr1 = tr ++ [SdkGetOrganizations]))
  /\ (forall organization_id oid,
        resolved_organization organization_id s = Some oid ->
        oid <> "" ->
        let '(r, s1, tr1) := _get_networks w organization_id use_cache s tr in
        default ∅ (_networks_cache s1) = default ∅ (_networks_cache s)
        /\ _enable_caching s1 = false
        /\ (is_api_key_set s = true ->
            tr1 = tr ++ [SdkGetOrganizationNetworks oid])).
Proof.
  intros Hoff. split.
  - unfold _get_organizations, bind, get. rewrite Hoff.
    replace (use_cache && false) with false by (destruct use_cache; reflexivity).
    unfold fetch_organizations, bind, the_dashboard, try_except, call, lift,
      store_organizations, modify, ret.
    unfold get_dashboard, is_api_key_set.
    destruct (_dashboard s) as [d|];
      [| destruct (_api_key s) as [k|]; simpl;
         [destruct (negb (String.eqb k "")); simpl |] ];
      try (repeat split; [exact Hoff | discriminate ]);
      (destruct (getOrganizations w tr) as [v | e];
       [ destruct (py_len v) as [n | e] | ]; try destruct e;
       simpl; rewrite ?Hoff; simpl; rewrite ?Hoff; auto).
  - intros organization_id oid Hres Hoid. unfold resolved_organization in Hres.
    unfold _get_networks, bind, get. rewrite Hres.
    rewrite (str_truthy_Some oid Hoid). cbn [negb].
    change (default "" (Some oid)) with oid.
    unfold modify at 1.
    set (sA := match _networks_cache s with
               | Some _ => s
               | None => assign_networks_cache (Some ∅) s
               end).
    assert (HcA : _enable_caching sA = false)
      by (subst sA; destruct (_networks_cache s); assumption).
    assert (HkA : is_api_key_set sA = is_api_key_set s)
      by (subst sA; destruct (_networks_cache s); reflexivity).
    assert (HnA : default ∅ (_networks_cache sA) = default ∅ (_networks_cache s))
      by (subst sA; destruct (_networks_cache s) eqn:E; simpl; rewrite ?E;
          reflexivity).
    rewrite HcA, <- HnA, <- HkA. clearbody sA.
    replace (use_cache && false) with false by (destruct use_cache; reflexivity).
    unfold fetch_networks, bind, the_dashboard, try_except, call, lift,
      store_networks, modify, ret.
    unfold get_dashboard, is_api_key_set.
    destruct (_dashboard sA) as [d|];
      [| destruct (_api_key sA) as [k|]; simpl;
         [destruct (negb (String.eqb k "")); simpl |] ];
      try (repeat split; [exact HcA | discriminate ]);
      (destruct (getOrganizationNetworks w tr oid) as [v | e];
       [ destruct (py_len v) as [n | e] | ]; try destruct e;
       simpl; rewrite ?HcA; simpl; rewrite ?HcA; auto).
Qed.

Lemma disabled_cache_is_never_written_witness :
  let w := listing_sdk (PList [PStr "listing"]) in
  let s := init offline (Some "key") false in
  let '(r, s1, tr1) := _get_organizations w true s [] in
  let '(r', s2, tr2) := _get_organizations w true s1 tr1 in
  _organizations_cache s2 = None
  /\ tr2 = [SdkGetOrganizations; SdkGetOrganizations].
Proof.
  intros w s.
  destruct (disabled_cache_is_never_written w s [] true eq_refl) as [H1 _].
  destruct (_get_organizations w true s []) as [[r s1] tr1] eqn:E1.
  destruct H1 as (C1 & Off1 & T1).
  vm_compute in E1. inversion E1; subst r s1 tr1. clear E1.
  match goal with
  | |- context [_get_organizations w true ?s1 ?tr1] =>
      destruct (disabled_cache_is_never_written w s1 tr1 true Off1) as [H2 _];
      destruct (_get_organizations w true s1 tr1) as [[r' s2] tr2]
  end.
  destruct H2 as (C2 & _ & T2).
  split; [exact C2 | exact (T2 eq_refl) ].
Defined.

(** X12: without a credential no listing is fetched and the failure
    is not cached: on an instance without key, a read that does not
    hit the cache returns the "DashboardAPIError" record, issues no
    call and stores nothing, so a later read tries again. *)
Theorem no_credential_no_fetch (w : World) (s : MerakiAPIWrapper)
    (tr : list io_event) (use_cache : bool) :
  client_follows_key s ->
  is_api_key_set s = false ->
  ((use_cache && _enable_caching s = false \/ _organizations_cache s = None) ->
   _get_organizations w use_cache s tr = (Ok dashboard_error, s, tr))
  /\ (forall organization_id oid,
        resolved_organization organization_id s = Some oid ->
        oid <> "" ->
        (use_cache && _enable_caching s = false
         \/ default ∅ (_networks_cache s) !! oid = None) ->
        let '(r, s1, tr1) := _get_networks w organization_id use_cache s tr in
        r = Ok dashboard_error /\ tr1 = tr
        /\ default ∅ (_networks_cache s1) = default ∅ (_networks_cache s)
        /\ _organizations_cache s1 = _organizations_cache s).
Proof.
  intros Hc Hk.
  assert (Hd : forall u, _api_key u = _api_key s -> _dashboard u = _dashboard s ->
                         get_dashboard u = (None, u)).
  { intros u Eu Ed. unfold get_dashboard, client_follows_key, is_api_key_set in *.
    rewrite Ed, Eu, Hc.
    destruct (_api_key s) as [k|]; simpl in *; [| reflexivity ].
    rewrite Hk. reflexivity. }
  split.
  - intros Hmiss. unfold _get_organizations, bind, get.
    assert (E : (if use_cache && _enable_caching s
                 then _organizations_cache s else None) = None)
      by (destruct Hmiss as [-> | ->];
          [reflexivity | destruct (use_cache && _enable_caching s); reflexivity]).
    rewrite E. unfold fetch_organizations, bind, the_dashboard.
    rewrite (Hd s eq_refl eq_refl). reflexivity.
  - intros organization_id oid Hres Hoid Hmiss. unfold resolved_organization in Hres.
    unfold _get_networks, bind, get. rewrite Hres.
    rewrite (str_truthy_Some oid Hoid). cbn [negb].
    change (default "" (Some oid)) with oid.
    unfold modify at 1.
    set (sA := match _networks_cache s with
               | Some _ => s
               | None => assign_networks_cache (Some ∅) s
               end).
    assert (HcA : _enable_caching sA = _enable_caching s)
      by (subst sA; destruct (_networks_cache s); reflexivity).
    assert (HnA : default ∅ (_networks_cache sA) = default ∅ (_networks_cache s))
      by (subst sA; destruct (_networks_cache s) eqn:E; simpl; rewrite ?E;
          reflexivity).
    assert (HoA : _organizations_cache sA = _organizations_cache s)
      by (subst sA; destruct (_networks_cache s); reflexivity).
    assert (HdA : get_dashboard sA = (None, sA))
      by (apply Hd; subst sA; destruct (_networks_cache s); reflexivity).
    rewrite HcA, HnA.
    assert (E : (if use_cache && _enable_caching s
                 then default ∅ (_networks_cache s) !! oid else None) = None)
      by (destruct Hmiss as [-> | ->];
          [reflexivity | destruct (use_cache && _enable_caching s); reflexivity]).
    rewrite E. unfold fetch_networks, bind, the_dashboard. rewrite HdA.
    simpl. auto.
Qed.

Lemma no_credential_no_fetch_witness :
  let w := listing_sdk (PList [PStr "listing"]) in
  let s := init w None true in
  _get_organizations w true s [] = (Ok dashboard_error, s, []).
Proof.
  intros w s.
  destruct (no_credential_no_fetch w s [] true) as [H _].
  - unfold client_follows_key. reflexivity.
  - reflexivity.
  - apply H. right. reflexivity.
Defined.

(** * Further properties of the wrapper's listings *)

(** X13: with a credential set and a listing returned by the SDK, the
    wrapper's [list_networks] returns one row per network, in order,
    holding id, name, time zone and the tags joined by ", "; the
    network type is stored under the key "yype", and no row has a key
    "type".  An empty listing gives the empty list. *)
Theorem wrapper_network_rows (w : World) (s : MerakiAPIWrapper)
    (tr : list io_event) (organization_id : option string) (oid : string)
    (networks : list network) :
  is_api_key_set s = true ->
  resolved_organization organization_id s = Some oid ->
  oid <> "" ->
  getOrganizationNetworks w tr oid = Ok (PList (map network_json networks)) ->
  (list_networks w organization_id false s tr).1.1
  = Ok (PList (map wrapper_network_view networks))
  /\ forall n,
       py_get (wrapper_network_view n) "yype" PNone = Ok (PStr (networkType n))
       /\ py_get (wrapper_network_view n) "type" PNone = Ok PNone.
Proof.
  intros Hkey Hres Hoid Hok. split; [| intros n; split; reflexivity ].
  destruct (fresh_read w s tr (map network_json networks) Hkey)
    as [_ H].
  specialize (H organization_id oid Hres Hoid Hok).
  unfold list_networks, bind.
  destruct (_get_networks w organization_id false s tr) as [[r s1] tr1].
  destruct H as (-> & _). cbn [is_error]. rewrite truthy_PList_map.
  destruct networks as [|n l] eqn:E; [reflexivity |]. rewrite <- E. cbn [negb].
  assert (Hrows : runs (comprehension Wrapper.network_row (map network_json networks))
                    s1 tr1 (map wrapper_network_view networks) s1 tr1).
  { apply comprehension_map. intros x.
    unfold runs, Wrapper.network_row, bind, lift, ret. simpl.
    unfold py_join. simpl. rewrite all_strs_PStr. reflexivity. }
  unfold runs in Hrows. rewrite Hrows. reflexivity.
Qed.

Lemma wrapper_network_rows_witness :
  let n := mkNetwork "n1" "Net1" "appliance" "UTC" ["hq"; "lab"] in
  let w := mkWorld None None (fun _ _ => Fails (ConnectionError "unreachable"))
             (fun _ => Raise (RequestException "not JSON")) (fun _ => "{}")
             (fun _ => Ok (PList []))
             (fun _ _ => Ok (PList [network_json n])) show_exn in
  let s := set_organization_id (Some "org-1") None (init w (Some "key") false) in
  (list_networks w None false s []).1.1
  = Ok (PList [PDict [("id", PStr "n1"); ("name", PStr "Net1");
                      ("yype", PStr "appliance"); ("time zone", PStr "UTC");
                      ("tags", PStr "hq, lab")]]).
Proof.
  intros n w s.
  pose proof (wrapper_network_rows w s [] None "org-1" [n] eq_refl eq_refl
                ltac:(discriminate) eq_refl) as [H _].
  exact H.
Defined.

(** X14: with caching enabled or not, when the SDK returns a listing
    the wrapper's [list_organizations] returns one row per
    organization, in order; an organization without the [api] object
    is shown with API access disabled, and one without the [licensing]
    object with no licensing model.  An empty listing gives the empty
    list. *)
Theorem wrapper_organization_rows (w : World) (s : MerakiAPIWrapper)
    (tr : list io_event) (organizations : list organization) :
  is_api_key_set s = true ->
  getOrganizations w tr = Ok (PList (map organization_json organizations)) ->
  (list_organizations w false s tr).1.1
  = Ok (PList (map wrapper_organization_view organizations))
  /\ forall o,
       (apiEnabled o = None ->
        py_get (wrapper_organization_view o) "api enabled" PNone = Ok (PBool false))
       /\ (licensingModel o = None ->
           py_get (wrapper_organization_view o) "licensing model" (PStr "")
           = Ok PNone).
Proof.
  intros Hkey Hok. split.
  2:{ intros o. unfold wrapper_organization_view. split; intros ->; reflexivity. }
  destruct (fresh_read w s tr (map organization_json organizations) Hkey)
    as [H _].
  specialize (H Hok). unfold list_organizations, bind.
  destruct (_get_organizations w false s tr) as [[r s1] tr1].
  destruct H as (-> & _). cbn [is_error]. rewrite truthy_PList_map.
  destruct organizations as [|o l] eqn:E; [reflexivity |]. rewrite <- E.
  assert (Hrows : runs (comprehension Wrapper.organization_row
                          (map organization_json organizations))
                    s1 tr1 (map wrapper_organization_view organizations) s1 tr1).
  { apply comprehension_map. intros [i n u [b|] [m|]]; reflexivity. }
  unfold runs in Hrows. rewrite Hrows. reflexivity.
Qed.

Lemma wrapper_organization_rows_witness :
  let o := mkOrganization "1" "Acme" "https://example.org/o/1" None None in
  let w := listing_sdk (PList [organization_json o]) in
  (list_organizations w false (init w (Some "key") false) []).1.1
  = Ok (PList [PDict [("id", PStr "1"); ("name", PStr "Acme");
                      ("url", PStr "https://example.org/o/1");
                      ("api enabled", PBool false);
                      ("licensing model", PNone)]]).
Proof.
  intros o w.
  pose proof (wrapper_organization_rows w (init w (Some "key") false) [] [o]
                eq_refl eq_refl) as [H _].
  exact H.
Defined.

(** * Further properties of local_dns_logic *)

(** The module-level client, when it can be obtained. *)
Lemma _get_dashboard_runs (w : World) (g : LocalDns.Globals) (tr : list io_event) :
  (is_Some (LocalDns._dashboard g)
   \/ exists d, new_DashboardAPI w (LocalDns.API_KEY g) = Ok d) ->
  exists d g1,
    LocalDns._get_dashboard w g tr = (Ok d, g1, tr)
    /\ LocalDns._networks_cache g1 = LocalDns._networks_cache g
    /\ LocalDns._organizations_cache g1 = LocalDns._organizations_cache g
    /\ same_session g g1.
Proof.
  intros H. unfold LocalDns._get_dashboard, bind, get, lift, modify, ret.
  destruct (LocalDns._dashboard g) as [d|] eqn:Hd.
  - exists d, g. repeat split.
  - destruct H as [[d H] | [d H]]; [discriminate |]. rewrite H.
    eexists _, _. repeat split.
Qed.

(** X15: the module-level caches keep a failure for the rest of the
    session: when the fetch of the networks of the selected
    organization raises, [_get_networks] returns the error record and
    stores the empty list, and from then on [_get_networks] and
    [list_networks] return the empty list without asking the SDK,
    whatever it would answer; [_get_organizations] and
    [get_organizations] behave the same. *)
Theorem module_cache_keeps_failures (w : World) (g : LocalDns.Globals)
    (tr : list io_event) (e : exn) :
  (is_Some (LocalDns._dashboard g)
   \/ exists d, new_DashboardAPI w (LocalDns.API_KEY g) = Ok d) ->
  (forall oid,
     LocalDns.ORGANIZATION_ID g = Some oid -> oid <> "" ->
     LocalDns._networks_cache g !! oid = None ->
     getOrganizationNetworks w tr oid = Raise e ->
     let '(r, g1, tr1) := LocalDns._get_networks w g tr in
     (exists v, r = Ok v /\ is_error v = true)
     /\ tr1 = tr ++ [SdkGetOrganizationNetworks oid]
     /\ forall w2 tr2,
          LocalDns._get_networks w2 g1 tr2 = (Ok (PList []), g1, tr2)
          /\ LocalDns.list_networks w2 g1 tr2 = (Ok (PList []), g1, tr2))
  /\ (LocalDns._organizations_cache g = None ->
      getOrganizations w tr = Raise e ->
      let '(r, g1, tr1) := LocalDns._get_organizations w g tr in
      (exists v, r = Ok v /\ is_error v = true)
      /\ tr1 = tr ++ [SdkGetOrganizations]
      /\ forall w2 tr2,
           LocalDns._get_organizations w2 g1 tr2 = (Ok (PList []), g1, tr2)
           /\ LocalDns.get_organizations w2 g1 tr2 = (Ok (PList []), g1, tr2)).
Proof.
  intros Hdash.
  destruct (_get_dashboard_runs w g tr Hdash) as (d & g1 & Hd & Hn & Ho & Hs1 & Hs2).
  split.
  - intros oid Horg Hoid Hmiss Hfail.
    unfold LocalDns._get_networks at 1. unfold bind at 1, get at 1.
    rewrite Horg, (str_truthy_Some oid Hoid). cbn [negb].
    change (default "" (Some oid)) with oid. rewrite Hmiss.
    unfold bind at 1. rewrite Hd.
    unfold try_except, bind, call, lift, LocalDns.store_networks, modify, ret.
    rewrite Hfail.
    assert (Hlater : forall w2 tr2,
              let g2 := LocalDns.assign_networks_cache
                          (<[oid := PList []]> (LocalDns._networks_cache g1)) g1 in
              LocalDns._get_networks w2 g2 tr2 = (Ok (PList []), g2, tr2)
              /\ LocalDns.list_networks w2 g2 tr2 = (Ok (PList []), g2, tr2)).
    { intros w2 tr2 g2.
      assert (H2 : LocalDns._get_networks w2 g2 tr2 = (Ok (PList []), g2, tr2)).
      { unfold LocalDns._get_networks, bind, get, ret.
        change (LocalDns.ORGANIZATION_ID g2) with (LocalDns.ORGANIZATION_ID g1).
        rewrite Hs1, Horg, (str_truthy_Some oid Hoid). cbn [negb].
        change (default "" (Some oid)) with oid.
        change (LocalDns._networks_cache g2)
          with (<[oid := PList []]> (LocalDns._networks_cache g1)).
        rewrite lookup_insert_eq. reflexivity. }
      split; [exact H2 |].
      unfold LocalDns.list_networks, bind. rewrite H2. reflexivity. }
    destruct e; simpl;
      (split; [eexists; split; reflexivity |]); (split; [reflexivity |]);
      intros w2 tr2; apply (Hlater w2 tr2).
  - intros Hmiss Hfail.
    unfold LocalDns._get_organizations at 1. unfold bind at 1, get at 1.
    rewrite Hmiss. unfold bind at 1. rewrite Hd.
    unfold try_except, bind, call, lift, modify, ret. rewrite Hfail.
    assert (Hlater : forall w2 tr2,
              let g2 := LocalDns.assign_organizations_cache (Some (PList [])) g1 in
              LocalDns._get_organizations w2 g2 tr2 = (Ok (PList []), g2, tr2)
              /\ LocalDns.get_organizations w2 g2 tr2 = (Ok (PList []), g2, tr2)).
    { intros w2 tr2 g2.
      assert (H2 : LocalDns._get_organizations w2 g2 tr2
                   = (Ok (PList []), g2, tr2)) by reflexivity.
      split; [exact H2 |].
      unfold LocalDns.get_organizations, bind. rewrite H2. reflexivity. }
    destruct e; simpl;
      (split; [eexists; split; reflexivity |]); (split; [reflexivity |]);
      intros w2 tr2; apply (Hlater w2 tr2).
Qed.

Lemma module_cache_keeps_failures_witness :
  let w := failing_sdk (APIError 500 (PStr "server error")) in
  let g := LocalDns.set_organization_id (Some "org-1")
             (LocalDns.set_api_key w (Some "key") (LocalDns.init w)) in
  let '(r, g1, tr1) := LocalDns._get_networks w g [] in
  r = Ok (LocalDns.api_error_record (PStr "server error") 500)
  /\ LocalDns.list_networks demo_world g1 tr1 = (Ok (PList []), g1, tr1).
Proof.
  intros w g.
  destruct (module_cache_keeps_failures w g [] (APIError 500 (PStr "server error")))
    as [H _].
  { right. eexists. reflexivity. }
  specialize (H "org-1" eq_refl ltac:(discriminate) eq_refl eq_refl).
  destruct (LocalDns._get_networks w g []) as [[r g1] tr1] eqn:E.
  destruct H as (_ & _ & H). split; [| apply H ].
  vm_compute in E. inversion E. reflexivity.
Defined.

(** X16: the module-level [set_api_key] rewrites the request headers
    only when it finds a key: with a key from the argument or the
    environment the Authorization header becomes "Bearer <key>"; with
    none, [API_KEY] becomes unset but the headers stay as they were, so
    the requests sent afterwards still carry the earlier Authorization
    header. *)
Theorem module_key_and_headers (w : World) (api_key : option string)
    (g : LocalDns.Globals) :
  let g' := LocalDns.set_api_key w api_key g in
  (forall key,
     (if str_truthy api_key then api_key else getenv_MK_CSM_KEY w) = Some key ->
     key <> "" ->
     LocalDns.API_KEY g' = Some key
     /\ LocalDns.HEADERS g' !! "Authorization" = Some ("Bearer " +:+ key)
     /\ LocalDns.HEADERS g' !! "Accept" = Some "application/json"
     /\ LocalDns.HEADERS g' !! "Content-Type" = Some "application/json")
  /\ (str_truthy api_key = false ->
      str_truthy (getenv_MK_CSM_KEY w) = false ->
      LocalDns.API_KEY g' = None
      /\ LocalDns.is_api_not_null g' = false
      /\ LocalDns.HEADERS g' = LocalDns.HEADERS g
      /\ forall method endpoint payload tr,
           str_truthy (LocalDns.ORGANIZATION_ID g) = true ->
           exists v rq,
             LocalDns.make_request w method endpoint payload g' tr
             = (Ok v, g', tr ++ [HttpCall rq])
             /\ req_headers rq = LocalDns.HEADERS g).
Proof.
  cbv zeta. split.
  - intros key Hkey Hne. unfold LocalDns.set_api_key.
    assert (Hchosen : (if str_truthy api_key then api_key
                       else if str_truthy (getenv_MK_CSM_KEY w)
                            then getenv_MK_CSM_KEY w else None) = Some key).
    { destruct (str_truthy api_key); [exact Hkey |]. rewrite Hkey.
      rewrite (str_truthy_Some key Hne). reflexivity. }
    rewrite Hchosen. cbn [LocalDns.API_KEY LocalDns.HEADERS].
    rewrite (str_truthy_Some key Hne).
    split; [reflexivity |].
    unfold headers_for, fstr. change (default "None" (Some key)) with key.
    repeat split; apply lookup_union_Some_l; simplify_map_eq; reflexivity.
  - intros Ha He. unfold LocalDns.set_api_key. rewrite Ha, He.
    cbn [str_truthy LocalDns.API_KEY LocalDns.HEADERS LocalDns.is_api_not_null].
    repeat split. intros method endpoint payload tr Ho.
    unfold LocalDns.make_request, bind, get.
    cbn [LocalDns.ORGANIZATION_ID LocalDns.HEADERS]. rewrite Ho. cbn [negb].
    match goal with
    | |- context [send_request w method ?url ?h payload ?s tr] =>
        destruct (send_request_returns w method url h payload s tr) as [v Hv]
    end.
    eexists v, _. split; [exact Hv | reflexivity ].
Qed.

Lemma module_key_and_headers_witness :
  let g := LocalDns.set_organization_id (Some "org-1")
             (LocalDns.set_api_key offline (Some "old-key") (LocalDns.init offline)) in
  let g' := LocalDns.set_api_key offline None g in
  LocalDns.API_KEY g' = None
  /\ LocalDns.HEADERS g' !! "Authorization" = Some "Bearer old-key".
Proof.
  intros g g'.
  destruct (module_key_and_headers offline None g) as [_ H].
  destruct (H eq_refl eq_refl) as (Hk & _ & Hh & _).
  fold g' in Hk, Hh. split; [exact Hk |]. rewrite Hh.
  destruct (module_key_and_headers offline (Some "old-key") (LocalDns.init offline))
    as [H1 _].
  destruct (H1 "old-key" eq_refl ltac:(discriminate)) as (_ & Ha & _).
  exact Ha.
Defined.

Lemma str_truthy_inv' (o : option string) :
  str_truthy o = true -> exists v, o = Some v.
Proof. destruct o; [eauto | discriminate]. Qed.

(** X17: with an organization selected, [make_request] sends exactly
    one request, whatever the outcome (no retry): to the Local-DNS URL
    of that organization and endpoint, with the current headers, and
    with the serialized payload as body exactly when the payload is
    truthy.  It returns normally and leaves the module state, caches
    included, as it was. *)
Theorem make_request_sends_once (w : World) (method endpoint : string)
    (payload : pyval) (g : LocalDns.Globals) (tr : list io_event) :
  str_truthy (LocalDns.ORGANIZATION_ID g) = true ->
  exists v,
    LocalDns.make_request w method endpoint payload g tr
    = (Ok v, g,
       tr ++ [HttpCall
                (mkRequest method
                   ("https://api.meraki.com/api/v1/organizations/"
                    +:+ default "" (LocalDns.ORGANIZATION_ID g)
                    +:+ "/appliance/dns/local/" +:+ endpoint)
                   (LocalDns.HEADERS g)
                   (if truthy payload then Some (json_dumps w payload) else None))]).
Proof.
  intros Ho. unfold LocalDns.make_request, bind, get. rewrite Ho. cbn [negb].
  destruct (str_truthy_inv' (LocalDns.ORGANIZATION_ID g) Ho) as [oid Hoid].
  rewrite Hoid.
  destruct (send_request_returns w method (local_dns_url (Some oid) endpoint)
              (LocalDns.HEADERS g) payload g tr) as [v Hv].
  exists v. exact Hv.
Qed.

Lemma make_request_sends_once_witness :
  let g := LocalDns.set_organization_id (Some "org-1") (LocalDns.init offline) in
  exists v,
    LocalDns.make_request offline "DELETE" "profiles/p1" PNone g []
    = (Ok v, g,
       [HttpCall
          (mkRequest "DELETE"
             "https://api.meraki.com/api/v1/organizations/org-1/appliance/dns/local/profiles/p1"
             (LocalDns.HEADERS g) None)]).
Proof.
  intros g.
  exact (make_request_sends_once offline "DELETE" "profiles/p1" PNone g [] eq_refl).
Defined.

(** X18: the module-level SDK client is a singleton that a change of
    the key does not replace: once it exists, [set_api_key] leaves it
    and both caches as they are, so [_get_dashboard] goes on returning
    the client built with the earlier key, and the organization and
    network listings cached under the earlier key are still served,
    without a call. *)
Theorem module_client_survives_key_change (w w2 : World)
    (api_key : option string) (g : LocalDns.Globals) (tr : list io_event)
    (d : DashboardAPI) :
  LocalDns._dashboard g = Some d ->
  let g' := LocalDns.set_api_key w api_key g in
  LocalDns._get_dashboard w2 g' tr = (Ok d, g', tr)
  /\ (forall cached,
        LocalDns._organizations_cache g = Some cached ->
        LocalDns._get_organizations w2 g' tr = (Ok cached, g', tr))
  /\ (forall oid cached,
        LocalDns.ORGANIZATION_ID g = Some oid -> oid <> "" ->
        LocalDns._networks_cache g !! oid = Some cached ->
        LocalDns._get_networks w2 g' tr = (Ok cached, g', tr)).
Proof.
  intros Hd g'. split; [| split ].
  - unfold LocalDns._get_dashboard, bind, get. subst g'.
    cbn [LocalDns.set_api_key LocalDns._dashboard]. rewrite Hd. reflexivity.
  - intros cached Hc. unfold LocalDns._get_organizations, bind, get. subst g'.
    cbn [LocalDns.set_api_key LocalDns._organizations_cache]. rewrite Hc.
    reflexivity.
  - intros oid cached Ho Hne Hc. unfold LocalDns._get_networks, bind, get.
    subst g'. cbn [LocalDns.set_api_key LocalDns.ORGANIZATION_ID
                   LocalDns._networks_cache].
    rewrite Ho, (str_truthy_Some oid Hne). cbn [negb].
    change (default "" (Some oid)) with oid. rewrite Hc. reflexivity.
Qed.

Lemma module_client_survives_key_change_witness :
  let g := (LocalDns._get_dashboard demo_world demo_globals []).1.2 in
  let g' := LocalDns.set_api_key offline (Some "new-key") g in
  LocalDns.API_KEY g' = Some "new-key"
  /\ LocalDns._get_dashboard offline g' [] = (Ok (mkDashboardAPI "key"), g', []).
Proof.
  intros g g'. split; [reflexivity |].
  exact (proj1 (module_client_survives_key_change offline offline (Some "new-key")
                  g [] (mkDashboardAPI "key") eq_refl)).
Defined.

(** ** Requests of the domain operations *)

Lemma sends_only_then {S A B} (c : M S A) (k : A -> M S B)
    (rq : http_request) (s : S) :
  sends_only c rq s -> (forall a, pure (k a)) -> sends_only (bind c k) rq s.
Proof.
  intros Hc Hk tr. destruct (Hc tr) as [r Hr]. unfold bind. rewrite Hr.
  destruct r as [a|e]; [| eauto ].
  destruct (Hk a) as [r' Hr']. rewrite Hr'. eauto.
Qed.

Lemma make_request_sends_only (w : World) (method endpoint : string)
    (payload : pyval) (g : LocalDns.Globals) :
  str_truthy (LocalDns.ORGANIZATION_ID g) = true ->
  sends_only (LocalDns.make_request w method endpoint payload)
    (local_request w g method endpoint payload) g.
Proof.
  intros Ho tr. unfold LocalDns.make_request, bind, get. rewrite Ho. cbn [negb].
  destruct (send_request_returns w method
              (local_dns_url (LocalDns.ORGANIZATION_ID g) endpoint)
              (LocalDns.HEADERS g) payload g tr) as [v Hv].
  exists (Ok v). exact Hv.
Qed.

Lemma project_request_sends_only (w : World) (method endpoint : string)
    (payload : pyval) (s : MerakiAPIWrapper) :
  sends_only (Project._make_request w method endpoint payload)
    (project_request w s method endpoint payload) s.
Proof.
  intros tr. unfold Project._make_request, bind, get.
  destruct (send_request_returns w method
              (local_dns_url (get_organization_id s) endpoint)
              (get_headers s) payload s tr) as [v Hv].
  exists (Ok v). exact Hv.
Qed.

Lemma pure_get_nested {S} (v : pyval) (outer inner : string) :
  pure (@LocalDns.get_nested S v outer inner).
Proof. unfold LocalDns.get_nested. pure_auto. Qed.

Lemma pure_record_row {S} (x : pyval) : pure (@LocalDns.record_row S x).
Proof.
  unfold LocalDns.record_row.
  repeat first [apply pure_get_nested | pure_step].
Qed.

Lemma pure_project_record_row {S} (x : pyval) : pure (@Project.record_row S x).
Proof.
  unfold Project.record_row.
  repeat first [apply pure_get_nested | pure_step].
Qed.

(** X19: with an organization selected, each of the seven
    single-request operations of [local_dns_logic] ([create_profile],
    [delete_profile], [create_dns_record], [list_dns_records],
    [delete_dns_record], [assign_profile_to_network],
    [remove_network_assignment]) sends exactly one request, with the
    method, endpoint and payload of the operation, and leaves the
    module state, caches included, as it was: there is no retry and no
    second request, whether the server accepts or rejects and whether
    the operation returns or raises. *)
Theorem module_operations_send_one_request (w : World) (g : LocalDns.Globals) :
  str_truthy (LocalDns.ORGANIZATION_ID g) = true ->
  (forall name,
     sends_only (LocalDns.create_profile w name)
       (local_request w g "POST" "profiles" (PDict [("name", name)])) g)
  /\ (forall i,
        sends_only (LocalDns.delete_profile w i)
          (local_request w g "DELETE" ("profiles/" +:+ i) PNone) g)
  /\ (forall p h a,
        sends_only (LocalDns.create_dns_record w p h a)
          (local_request w g "POST" "records"
             (PDict [("hostname", h); ("address", a);
                     ("profile", PDict [("id", p)])])) g)
  /\ sends_only (LocalDns.list_dns_records w)
       (local_request w g "GET" "records" PNone) g
  /\ (forall i,
        sends_only (LocalDns.delete_dns_record w i)
          (local_request w g "DELETE" ("records/" +:+ i) PNone) g)
  /\ (forall n p,
        sends_only (LocalDns.assign_profile_to_network w n p)
          (local_request w g "POST" "profiles/assignments/bulkCreate"
             (PDict [("items",
                      PList [PDict [("network", PDict [("id", n)]);
                                    ("profile", PDict [("id", p)])]])])) g)
  /\ (forall a,
        sends_only (LocalDns.remove_network_assignment w a)
          (local_request w g "POST" "profiles/assignments/bulkDelete"
             (PDict [("items", PList [PDict [("assignmentId", a)]])])) g).
Proof.
  intros Ho.
  repeat split; intros;
    (apply sends_only_then; [apply make_request_sends_only; exact Ho |]);
    intros v; unfold LocalDns.has_items;
    repeat first [apply pure_record_row | pure_step].
Qed.

Lemma module_operations_send_one_request_witness :
  let g := LocalDns.set_organization_id (Some "org-1") (LocalDns.init offline) in
  exists r,
    LocalDns.create_dns_record offline (PStr "p1") (PStr "host") (PStr "10.0.0.1") g []
    = (r, g,
       [HttpCall
          (mkRequest "POST"
             "https://api.meraki.com/api/v1/organizations/org-1/appliance/dns/local/records"
             (LocalDns.HEADERS g) (Some "{}"))]).
Proof.
  intros g.
  destruct (module_operations_send_one_request offline g eq_refl)
    as (_ & _ & H & _).
  exact (H (PStr "p1") (PStr "host") (PStr "10.0.0.1") []).
Defined.

(** X20: without a selected organization no operation of
    [local_dns_logic] that works on an organization reaches the
    network: the writes, the three Local-DNS listings and the network
    listing all return the "NoOrganizationSelected" record, call
    neither the server nor the SDK, and leave the module state as it
    was. *)
Theorem module_operations_need_an_organization (w : World)
    (g : LocalDns.Globals) :
  str_truthy (LocalDns.ORGANIZATION_ID g) = false ->
  (forall name,
     returns_at_once (LocalDns.create_profile w name) no_organization_selected g)
  /\ (forall i,
        returns_at_once (LocalDns.delete_profile w i) no_organization_selected g)
  /\ (forall p h a,
        returns_at_once (LocalDns.create_dns_record w p h a)
          no_organization_selected g)
  /\ returns_at_once (LocalDns.list_dns_records w) no_organization_selected g
  /\ (forall i,
        returns_at_once (LocalDns.delete_dns_record w i) no_organization_selected g)
  /\ (forall n p,
        returns_at_once (LocalDns.assign_profile_to_network w n p)
          no_organization_selected g)
  /\ (forall a,
        returns_at_once (LocalDns.remove_network_assignment w a)
          no_organization_selected g)
  /\ returns_at_once (LocalDns.list_profiles w) no_organization_selected g
  /\ returns_at_once (LocalDns.list_network_assignments w)
       no_organization_selected g
  /\ returns_at_once (LocalDns.list_networks w) no_organization_selected g.
Proof.
  intros Ho.
  assert (Hreq : forall method endpoint payload tr,
            LocalDns.make_request w method endpoint payload g tr
            = (Ok no_organization_selected, g, tr)).
  { intros. apply make_request_needs_organization. exact Ho. }
  assert (Hnet : forall tr,
            LocalDns._get_networks w g tr = (Ok no_organization_selected, g, tr)).
  { intros tr. unfold LocalDns._get_networks, bind, get, ret. rewrite Ho.
    reflexivity. }
  repeat split; intros; intros tr;
    unfold LocalDns.create_profile, LocalDns.delete_profile,
      LocalDns.create_dns_record, LocalDns.list_dns_records,
      LocalDns.delete_dns_record, LocalDns.assign_profile_to_network,
      LocalDns.remove_network_assignment, LocalDns.list_profiles,
      LocalDns.list_network_assignments, LocalDns.list_networks,
      try_except, bind;
    rewrite ?Hreq, ?Hnet; reflexivity.
Qed.

Lemma module_operations_need_an_organization_witness :
  let g := LocalDns.set_api_key demo_world None (LocalDns.init demo_world) in
  LocalDns.list_profiles demo_world g [] = (Ok no_organization_selected, g, []).
Proof.
  intros g.
  destruct (module_operations_need_an_organization demo_world g eq_refl)
    as (_ & _ & _ & _ & _ & _ & _ & H & _).
  exact (H []).
Defined.

(** X21: the seven single-request operations of [ProjectLogic]
    ([create_profile], [delete_profile], [create_dns_record],
    [list_dns_records], [delete_dns_record],
    [assign_profile_to_network], [remove_network_assignment]) have no
    such guard: in every state of the wrapper, with or without a
    selected organization, each of them sends exactly one request and
    leaves the wrapper as it was; without an organization the request
    goes to the URL of the organization "None".
    [list_network_assignments], which asks the wrapper for the
    networks first, returns the "NoOrganizationSelected" record
    without a call. *)
Theorem project_operations_send_one_request (w : World) (s : MerakiAPIWrapper) :
  ((forall name,
      sends_only (Project.create_profile w name)
        (project_request w s "POST" "profiles" (PDict [("name", name)])) s)
   /\ (forall i,
         sends_only (Project.delete_profile w i)
           (project_request w s "DELETE" ("profiles/" +:+ i) PNone) s)
   /\ (forall p h a,
         sends_only (Project.create_dns_record w p h a)
           (project_request w s "POST" "records"
              (PDict [("hostname", h); ("address", a);
                      ("profile", PDict [("id", p)])])) s)
   /\ sends_only (Project.list_dns_records w)
        (project_request w s "GET" "records" PNone) s
   /\ (forall i,
         sends_only (Project.delete_dns_record w i)
           (project_request w s "DELETE" ("records/" +:+ i) PNone) s)
   /\ (forall n p,
         sends_only (Project.assign_profile_to_network w n p)
           (project_request w s "POST" "profiles/assignments/bulkCreate"
              (PDict [("items",
                       PList [PDict [("network", PDict [("id", n)]);
                                     ("profile", PDict [("id", p)])]])])) s)
   /\ (forall a,
         sends_only (Project.remove_network_assignment w a)
           (project_request w s "POST" "profiles/assignments/bulkDelete"
              (PDict [("items", PList [PDict [("assignmentId", a)]])])) s))
  /\ (forall method endpoint payload,
        get_organization_id s = None ->
        req_url (project_request w s method endpoint payload)
        = "https://api.meraki.com/api/v1/organizations/None/appliance/dns/local/"
          +:+ endpoint)
  /\ (str_truthy (get_organization_id s) = false ->
      returns_at_once (Project.list_network_assignments w)
        no_organization_selected s).
Proof.
  split; [| split ].
  - repeat split; intros;
      (apply sends_only_then; [apply project_request_sends_only |]);
      intros v; unfold Project.has_items;
      repeat first [apply pure_project_record_row | pure_step].
  - intros method endpoint payload Ho. unfold project_request, request_for.
    rewrite Ho. reflexivity.
  - intros Ho tr. unfold Project.list_network_assignments, try_except, bind.
    assert (H : list_networks w None false s tr
                = (Ok no_organization_selected, s, tr)).
    { unfold list_networks, _get_networks, bind, get, ret.
      unfold get_organization_id in Ho. unfold get_organization_id.
      rewrite Ho. reflexivity. }
    rewrite H. reflexivity.
Qed.

Lemma project_operations_send_one_request_witness :
  let s := init offline (Some "key") false in
  req_url (project_request offline s "GET" "records" PNone)
  = "https://api.meraki.com/api/v1/organizations/None/appliance/dns/local/records"
  /\ Project.list_network_assignments offline s []
     = (Ok no_organization_selected, s, []).
Proof.
  intros s.
  destruct (project_operations_send_one_request offline s) as (_ & Hurl & Hnone).
  split; [exact (Hurl "GET" "records" PNone eq_refl) | exact (Hnone eq_refl []) ].
Defined.

(** ** Failures of the transport *)

Lemma send_request_failure {S} (w : World) (method url : string)
    (headers : gmap string string) (payload : pyval) (s : S)
    (tr : list io_event) (o : http_outcome) (v : pyval) :
  requests_request w tr (request_for w method url headers payload) = o ->
  failure_record w o = Some v ->
  send_request w method url headers payload s tr
  = (Ok v, s, tr ++ [HttpCall (request_for w method url headers payload)])
  /\ is_error v = true.
Proof.
  intros Ho Hv. destruct o as [r | e]; simpl in Hv.
  - destruct ((400 <=? status_code r) && (status_code r <? 600)) eqn:Hst;
      [| discriminate ].
    injection Hv as <-. split; [| reflexivity ].
    apply andb_prop in Hst as [Hlo Hhi].
    apply send_request_http_error with (r := r); [exact Ho |].
    apply Z.leb_le in Hlo. apply Z.ltb_lt in Hhi. lia.
  - assert (Hne : forall r, e <> HTTPError r)
      by (intros r ->; discriminate).
    assert (Hrec : v = error_record (error_kind e) (PStr (exn_str w e)))
      by (destruct e; congruence).
    subst v. split; [| reflexivity ].
    apply send_request_transport_failure; assumption.
Qed.

(** X22: a failure of the transport reaches the caller as a record,
    not as an exception.  When the request of an operation meets a
    connection failure, a timeout or another exception of [requests],
    or a response with a 4xx or 5xx status, then every operation of
    [local_dns_logic] and of [ProjectLogic] on profiles, records and
    assignments returns the record of that failure, the two creating
    operations included; [list_profiles], whose first step is a
    request, returns it too. *)
Theorem failed_requests_are_reported (w : World) (g : LocalDns.Globals)
    (s : MerakiAPIWrapper) (tr : list io_event) (o : http_outcome) (v : pyval) :
  (forall rq, requests_request w tr rq = o) ->
  failure_record w o = Some v ->
  (str_truthy (LocalDns.ORGANIZATION_ID g) = true ->
   (forall name, (LocalDns.create_profile w name g tr).1.1 = Ok v)
   /\ (forall i, (LocalDns.delete_profile w i g tr).1.1 = Ok v)
   /\ (forall p h a, (LocalDns.create_dns_record w p h a g tr).1.1 = Ok v)
   /\ (LocalDns.list_dns_records w g tr).1.1 = Ok v
   /\ (forall i, (LocalDns.delete_dns_record w i g tr).1.1 = Ok v)
   /\ (forall n p, (LocalDns.assign_profile_to_network w n p g tr).1.1 = Ok v)
   /\ (forall a, (LocalDns.remove_network_assignment w a g tr).1.1 = Ok v)
   /\ (LocalDns.list_profiles w g tr).1.1 = Ok v)
  /\ (forall name, (Project.create_profile w name s tr).1.1 = Ok v)
  /\ (forall i, (Project.delete_profile w i s tr).1.1 = Ok v)
  /\ (forall p h a, (Project.create_dns_record w p h a s tr).1.1 = Ok v)
  /\ (Project.list_dns_records w s tr).1.1 = Ok v
  /\ (forall i, (Project.delete_dns_record w i s tr).1.1 = Ok v)
  /\ (forall n p, (Project.assign_profile_to_network w n p s tr).1.1 = Ok v)
  /\ (forall a, (Project.remove_network_assignment w a s tr).1.1 = Ok v)
  /\ (Project.list_profiles w s tr).1.1 = Ok v.
Proof.
  intros Ho Hv.
  assert (Herr : is_error v = true).
  { destruct (send_request_failure (S := unit) w "" "" ∅ PNone tt tr o v
                (Ho _) Hv) as [_ H]. exact H. }
  assert (Hproject : forall method endpoint payload,
            exists tr', Project._make_request w method endpoint payload s tr
                        = (Ok v, s, tr')).
  { intros. unfold Project._make_request, bind, get. eexists.
    apply (send_request_failure w method _ _ payload s tr o v (Ho _) Hv). }
  split.
  - intros Horg.
    assert (Hmodule : forall method endpoint payload,
              exists tr', LocalDns.make_request w method endpoint payload g tr
                          = (Ok v, g, tr')).
    { intros. unfold LocalDns.make_request, bind, get. rewrite Horg. cbn [negb].
      eexists.
      apply (send_request_failure w method _ _ payload g tr o v (Ho _) Hv). }
    repeat split; intros;
      unfold LocalDns.create_profile, LocalDns.delete_profile,
        LocalDns.create_dns_record, LocalDns.list_dns_records,
        LocalDns.delete_dns_record, LocalDns.assign_profile_to_network,
        LocalDns.remove_network_assignment, LocalDns.list_profiles,
        try_except, bind;
      match goal with
      | |- context [LocalDns.make_request w ?m ?ep ?p g tr] =>
          destruct (Hmodule m ep p) as [tr' ->]
      end;
      rewrite ?Herr; reflexivity.
  - repeat split; intros;
      unfold Project.create_profile, Project.delete_profile,
        Project.create_dns_record, Project.list_dns_records,
        Project.delete_dns_record, Project.assign_profile_to_network,
        Project.remove_network_assignment, Project.list_profiles,
        try_except, bind;
      match goal with
      | |- context [Project._make_request w ?m ?ep ?p s tr] =>
          destruct (Hproject m ep p) as [tr' ->]
      end;
      rewrite ?Herr; reflexivity.
Qed.

Lemma failed_requests_are_reported_witness :
  let g := LocalDns.set_organization_id (Some "org-1") (LocalDns.init offline) in
  (LocalDns.create_profile offline (PStr "Test") g []).1.1
  = Ok (PDict [("error", PStr "ConnectionError"); ("details", PStr "unreachable")]).
Proof.
  intros g.
  destruct (failed_requests_are_reported offline g
              (init offline (Some "key") false) []
              (Fails (ConnectionError "unreachable"))
              (error_record "ConnectionError" (PStr "unreachable"))
              ltac:(intros rq; reflexivity) eq_refl) as [H _].
  destruct (H eq_refl) as [Hc _]. exact (Hc (PStr "Test")).
Defined.

(** ** Answers of the server *)

(** X23: what the creating operations make of an answer with a
    status outside 4xx and 5xx and a body that parses.  A JSON object
    gives the display record of its [profileId] and [name] members
    ([None] for a missing member), and [create_dns_record] returns the
    object as it is; an object with an [error] member is handed back
    as a failure although the status was good; and any body that is
    not an object, such as a list or a number, makes the operation
    raise [AttributeError]. *)
Theorem creation_needs_a_json_object (w : World) (g : LocalDns.Globals)
    (s : MerakiAPIWrapper) (tr : list io_event) (r : Response) (body : pyval) :
  (forall rq, requests_request w tr rq = Responds r) ->
  ~ (400 <= status_code r < 600) ->
  strip_truthy (text r) = true ->
  response_json w (text r) = Ok body ->
  str_truthy (LocalDns.ORGANIZATION_ID g) = true ->
  (forall name,
     (LocalDns.create_profile w name g tr).1.1
     = profile_created "Profile ID" "Name" body)
  /\ (forall p h a,
        (LocalDns.create_dns_record w p h a g tr).1.1 = record_created body)
  /\ (forall name,
        (Project.create_profile w name s tr).1.1
        = profile_created "profile id" "name" body)
  /\ (forall p h a,
        (Project.create_dns_record w p h a s tr).1.1 = record_created body).
Proof.
  intros Hr Hst Htext Hjson Horg.
  assert (Hmodule : forall method endpoint payload,
            exists tr', LocalDns.make_request w method endpoint payload g tr
                        = (Ok body, g, tr')).
  { intros. unfold LocalDns.make_request, bind, get. rewrite Horg. cbn [negb].
    eexists. eapply send_request_json; eauto. }
  assert (Hproject : forall method endpoint payload,
            exists tr', Project._make_request w method endpoint payload s tr
                        = (Ok body, s, tr')).
  { intros. unfold Project._make_request, bind, get.
    eexists. eapply send_request_json; eauto. }
  repeat split; intros;
    unfold LocalDns.create_profile, LocalDns.create_dns_record,
      Project.create_profile, Project.create_dns_record, bind;
    match goal with
    | |- context [LocalDns.make_request w ?m ?ep ?p g tr] =>
        destruct (Hmodule m ep p) as [tr' ->]
    | |- context [Project._make_request w ?m ?ep ?p s tr] =>
        destruct (Hproject m ep p) as [tr' ->]
    end;
    unfold profile_created, record_created;
    destruct body as [| b | n | t | l | d]; try reflexivity;
    destruct (is_error (PDict d)); reflexivity.
Qed.

Lemma creation_needs_a_json_object_witness :
  let w := answering (mkResponse 201 "created")
             (PDict [("profileId", PStr "p1"); ("name", PStr "Test");
                     ("url", PStr "/profiles/p1")]) in
  let g := LocalDns.set_organization_id (Some "org-1") (LocalDns.init w) in
  (LocalDns.create_profile w (PStr "Test") g []).1.1
  = Ok (PDict [("Profile ID", PStr "p1"); ("Name", PStr "Test")]).
Proof.
  intros w g.
  destruct (creation_needs_a_json_object w g (init w (Some "key") false) []
              (mkResponse 201 "created")
              (PDict [("profileId", PStr "p1"); ("name", PStr "Test");
                      ("url", PStr "/profiles/p1")])
              ltac:(intros rq; reflexivity) ltac:(simpl; lia) eq_refl eq_refl
              eq_refl) as [H _].
  exact (H (PStr "Test")).
Defined.

(** X24: [list_dns_records], in the module and in [ProjectLogic],
    returns one row per record of the answer, in order, with the id
    of the profile taken from the nested [profile] object; an answer
    with an empty body, and an answer that is an object without an
    [items] member, both give the empty list. *)
Theorem dns_record_listing (w : World) (g : LocalDns.Globals)
    (s : MerakiAPIWrapper) (tr : list io_event) (r : Response) :
  (forall rq, requests_request w tr rq = Responds r) ->
  ~ (400 <= status_code r < 600) ->
  str_truthy (LocalDns.ORGANIZATION_ID g) = true ->
  (forall records,
     strip_truthy (text r) = true ->
     response_json w (text r) = Ok (items_json (map dns_record_json records)) ->
     (LocalDns.list_dns_records w g tr).1.1
     = Ok (PList (map dns_record_view records))
     /\ (Project.list_dns_records w s tr).1.1
        = Ok (PList (map project_dns_record_view records)))
  /\ (strip_truthy (text r) = false ->
      (LocalDns.list_dns_records w g tr).1.1 = Ok (PList [])
      /\ (Project.list_dns_records w s tr).1.1 = Ok (PList []))
  /\ (forall d,
        strip_truthy (text r) = true ->
        response_json w (text r) = Ok (PDict d) ->
        assoc "error" d = None -> assoc "items" d = None ->
        (LocalDns.list_dns_records w g tr).1.1 = Ok (PList [])
        /\ (Project.list_dns_records w s tr).1.1 = Ok (PList [])).
Proof.
  intros Hr Hst Horg.
  assert (Hbody : forall body,
            strip_truthy (text r) = true -> response_json w (text r) = Ok body ->
            (exists tr', LocalDns.make_request w "GET" "records" PNone g tr
                         = (Ok body, g, tr'))
            /\ (exists tr', Project._make_request w "GET" "records" PNone s tr
                            = (Ok body, s, tr'))).
  { intros body Htext Hjson. split.
    - unfold LocalDns.make_request, bind, get. rewrite Horg. cbn [negb].
      eexists. eapply send_request_json; eauto.
    - unfold Project._make_request, bind, get.
      eexists. eapply send_request_json; eauto. }
  split; [| split ].
  - intros records Htext Hjson.
    destruct (Hbody _ Htext Hjson) as [[tr1 H1] [tr2 H2]].
    split.
    + unfold LocalDns.list_dns_records, bind at 1. rewrite H1.
      change (is_error (items_json (map dns_record_json records))) with false.
      cbv iota.
      assert (Hrows : runs (comprehension LocalDns.record_row
                              (map dns_record_json records))
                        g tr1 (map dns_record_view records) g tr1).
      { apply comprehension_map. intros x. reflexivity. }
      unfold runs in Hrows. unfold bind, LocalDns.has_items, lift, ret. simpl.
      unfold bind in Hrows. rewrite Hrows. reflexivity.
    + unfold Project.list_dns_records, bind at 1. rewrite H2.
      change (is_error (items_json (map dns_record_json records))) with false.
      cbv iota.
      assert (Hrows : runs (comprehension Project.record_row
                              (map dns_record_json records))
                        s tr2 (map project_dns_record_view records) s tr2).
      { apply comprehension_map. intros x. reflexivity. }
      unfold runs in Hrows. unfold bind, Project.has_items, lift, ret. simpl.
      unfold bind in Hrows. rewrite Hrows. reflexivity.
  - intros Htext. split.
    + unfold LocalDns.list_dns_records, LocalDns.make_request, bind, get.
      rewrite Horg. cbn [negb].
      erewrite send_request_no_content by eauto. reflexivity.
    + unfold Project.list_dns_records, Project._make_request, bind, get.
      erewrite send_request_no_content by eauto. reflexivity.
  - intros d Htext Hjson Herr Hitems.
    destruct (Hbody _ Htext Hjson) as [[tr1 H1] [tr2 H2]].
    split.
    + unfold LocalDns.list_dns_records, bind, LocalDns.has_items, lift, ret.
      rewrite H1. simpl. rewrite Herr, Hitems. simpl.
      destruct d; reflexivity.
    + unfold Project.list_dns_records, bind, Project.has_items, lift, ret.
      rewrite H2. simpl. rewrite Herr, Hitems. simpl.
      destruct d; reflexivity.
Qed.

Lemma dns_record_listing_witness :
  let rows := [mkDnsRecord "r1" "printer.local" "10.0.0.7" "p1"] in
  let w := answering (mkResponse 200 "records")
             (items_json (map dns_record_json rows)) in
  let s := set_organization_id (Some "org-1") None (init w (Some "key") false) in
  (Project.list_dns_records w s []).1.1
  = Ok (PList [PDict [("record id", PStr "r1"); ("hostname", PStr "printer.local");
                      ("address", PStr "10.0.0.7"); ("profile id", PStr "p1")]]).
Proof.
  intros rows w s.
  destruct (dns_record_listing w
              (LocalDns.set_organization_id (Some "org-1") (LocalDns.init w)) s []
              (mkResponse 200 "records")
              ltac:(intros rq; reflexivity) ltac:(simpl; lia) eq_refl)
    as [H _].
  exact (proj2 (H rows eq_refl eq_refl)).
Defined.

(** * Further properties of project_logic *)

Lemma wrapper_list_networks_runs (w : World) (s : MerakiAPIWrapper)
    (tr : list io_event) (networks : list network) (oid : string) :
  is_api_key_set s = true ->
  get_organization_id s = Some oid -> oid <> "" ->
  getOrganizationNetworks w tr oid = Ok (PList (map network_json networks)) ->
  exists s1,
    runs (list_networks w None false) s tr
      (PList (map wrapper_network_view networks)) s1
      (tr ++ [SdkGetOrganizationNetworks oid])
    /\ same_scope s s1.
Proof.
  intros Hkey Horg Hoid Hok.
  destruct (fresh_read w s tr (map network_json networks) Hkey) as [_ H].
  specialize (H None oid Horg Hoid Hok).
  unfold runs, list_networks, bind.
  destruct (_get_networks w None false s tr) as [[r s1] tr1].
  destruct H as (-> & -> & _ & Hscope). exists s1. split; [| exact Hscope ].
  cbn [is_error]. rewrite truthy_PList_map.
  destruct networks as [|n l] eqn:E; [reflexivity |]. rewrite <- E. cbn [negb].
  assert (Hrows : runs (comprehension Wrapper.network_row (map network_json networks))
                    s1 (tr ++ [SdkGetOrganizationNetworks oid])
                    (map wrapper_network_view networks)
                    s1 (tr ++ [SdkGetOrganizationNetworks oid])).
  { apply comprehension_map. intros x.
    unfold runs, Wrapper.network_row, bind, lift, ret. simpl.
    unfold py_join. simpl. rewrite all_strs_PStr. reflexivity. }
  unfold runs in Hrows. rewrite Hrows. reflexivity.
Qed.

Lemma project_request_same_scope (w : World) (s s1 : MerakiAPIWrapper)
    (method endpoint : string) (payload : pyval) :
  same_scope s s1 ->
  project_request w s1 method endpoint payload
  = project_request w s method endpoint payload.
Proof.
  intros (Hk & Ho & _). unfold project_request, get_organization_id, get_headers.
  rewrite Hk, Ho. reflexivity.
Qed.

Lemma project_request_gets (w : World) (s s1 : MerakiAPIWrapper)
    (tr : list io_event) (endpoint : string) (body : pyval) :
  same_scope s s1 ->
  answers_with w (project_request w s "GET" endpoint PNone) body ->
  runs (Project._make_request w "GET" endpoint PNone) s1 tr body s1
    (tr ++ [HttpCall (project_request w s "GET" endpoint PNone)]).
Proof.
  intros Hscope (r & Hr & Hst & Hbody & Hjson).
  rewrite <- (project_request_same_scope w s s1 _ _ _ Hscope) in Hr |- *.
  unfold runs, Project._make_request, bind, get.
  eapply send_request_json; eauto.
Qed.

Section ProjectRows.
Context {S : Type} (s : S) (tr : list io_event).
Context (networks : list network) (profiles : list profile)
        (assignments : list assignment).

Let network_map := names_by networkId (fun n => PStr (networkName n)) networks.
Let profile_map := names_by profileId (fun p => PStr (profileName p)) profiles.
Let profile_to_network : gmap hkey pyval :=
  foldl (fun m a =>
           if truthy (PStr (assignedProfile a)) && truthy (PStr (assignedNetwork a))
           then <[HStr (assignedProfile a) := project_network_info networks a]> m
           else m)
    ∅ assignments.

Lemma dict_by_wrapper_views :
  runs (LocalDns.dict_by "id" "name" (PList (map wrapper_network_view networks)))
    s tr network_map s tr.
Proof.
  unfold LocalDns.dict_by. eapply runs_bind; [apply runs_lift |].
  apply (for_each_map _ wrapper_network_view
           (fun m n => <[HStr (networkId n) := PStr (networkName n)]> m)).
  intros b x. reflexivity.
Qed.

Lemma project_assignment_row_runs (a : assignment) :
  runs (Project.assignment_row network_map profile_map (assignment_json a))
    s tr (project_assignment_view networks profiles a) s tr.
Proof.
  unfold runs, Project.assignment_row, LocalDns.get_nested,
    LocalDns.name_or_unknown, bind, lift, ret. simpl.
  subst network_map profile_map.
  rewrite network_map_name, profile_map_name. reflexivity.
Qed.

Lemma project_note_assignment_runs (m : gmap hkey pyval) (a : assignment) :
  runs (Project.note_assignment network_map m
          (project_assignment_view networks profiles a))
    s tr
    (if truthy (PStr (assignedProfile a)) && truthy (PStr (assignedNetwork a))
     then <[HStr (assignedProfile a) := project_network_info networks a]> m
     else m)
    s tr.
Proof.
  unfold runs, Project.note_assignment, LocalDns.name_or_unknown,
    bind, lift, ret. simpl.
  destruct (negb (String.eqb (assignedProfile a) "")
            && negb (String.eqb (assignedNetwork a) "")); [| reflexivity ].
  simpl. subst network_map. rewrite network_map_name. reflexivity.
Qed.

Lemma project_profile_to_network_lookup (id : string) :
  profile_to_network !! HStr id
  = project_network_info networks <$> assignment_of assignments id.
Proof.
  subst profile_to_network. unfold assignment_of.
  apply (lookup_foldl_insert_if
           (fun a => truthy (PStr (assignedProfile a))
                     && truthy (PStr (assignedNetwork a)))
           (fun a => HStr (assignedProfile a)) (project_network_info networks)
           (HStr id)
           (fun a => assignedProfile a = id
                     /\ assignedProfile a <> "" /\ assignedNetwork a <> ""));
    [| apply lookup_empty ].
  intros a. simpl.
  destruct (String.eqb_spec (assignedProfile a) "") as [Ep | Ep],
           (String.eqb_spec (assignedNetwork a) "") as [En | En]; simpl;
    split; try (intros (? & ? & ?); contradiction);
    try (intros [? ?]; discriminate).
  - intros (-> & _ & _). auto.
  - intros [_ H]. inversion H. auto.
Qed.

Lemma project_profile_row_runs (p : profile) :
  runs (Project.profile_row profile_to_network (profile_json p))
    s tr (project_enriched networks assignments p) s tr.
Proof.
  unfold runs, Project.profile_row, bind, lift, ret. simpl.
  rewrite project_profile_to_network_lookup. unfold project_enriched.
  destruct (assignment_of assignments (profileId p)); reflexivity.
Qed.
End ProjectRows.

Section ProjectListings.
Context (w : World).
Context (networks : list network) (profiles : list profile)
        (assignments : list assignment).
Context (s : MerakiAPIWrapper).
Hypothesis served : project_serves w networks profiles assignments s.

Let sdk : io_event :=
  SdkGetOrganizationNetworks (default "" (get_organization_id s)).
Let get_profiles : io_event :=
  HttpCall (project_request w s "GET" "profiles" PNone).
Let get_assignments : io_event :=
  HttpCall (project_request w s "GET" "profiles/assignments" PNone).

Lemma project_networks_run (s0 : MerakiAPIWrapper) (tr : list io_event) :
  same_scope s s0 ->
  exists s1,
    runs (list_networks w None false) s0 tr
      (PList (map wrapper_network_view networks)) s1 (tr ++ [sdk])
    /\ same_scope s s1.
Proof.
  intros Hscope. destruct served as (Hkey & Horg & Hsdk & _).
  pose proof Hscope as (Hk & Ho & _).
  destruct (get_organization_id s) as [oid|] eqn:Hoid; [| discriminate ].
  assert (Hne : oid <> "") by (intros ->; discriminate).
  destruct (wrapper_list_networks_runs w s0 tr networks oid) as (s1 & Hrun & Hs1).
  - unfold is_api_key_set in *. rewrite Hk. exact Hkey.
  - unfold get_organization_id in *. rewrite Ho. exact Hoid.
  - exact Hne.
  - apply Hsdk.
  - exists s1. split; [exact Hrun |]. etransitivity; eassumption.
Qed.

Lemma project_list_network_assignments_runs (s0 : MerakiAPIWrapper)
    (tr : list io_event) :
  same_scope s s0 ->
  exists s1,
    runs (Project.list_network_assignments w) s0 tr
      (PList (map (project_assignment_view networks profiles) assignments)) s1
      (tr ++ [sdk; get_profiles; get_assignments])
    /\ same_scope s s1.
Proof.
  intros Hscope.
  destruct (project_networks_run s0 tr Hscope) as (s1 & Hrun1 & Hs1).
  destruct served as (_ & _ & _ & Hp & Ha).
  pose proof (project_request_gets w s s1 (tr ++ [sdk]) _ _ Hs1 Hp) as Hrun2.
  pose proof (project_request_gets w s s1 ((tr ++ [sdk]) ++ [get_profiles]) _ _
                Hs1 Ha) as Hrun3.
  exists s1. split; [| exact Hs1 ].
  replace (tr ++ [sdk; get_profiles; get_assignments])
    with (((tr ++ [sdk]) ++ [get_profiles]) ++ [get_assignments])
    by (rewrite <- !app_assoc; reflexivity).
  unfold Project.list_network_assignments. apply runs_try.
  eapply runs_bind; [exact Hrun1 |]. cbn [is_error].
  eapply runs_bind; [apply dict_by_wrapper_views |].
  eapply runs_bind; [exact Hrun2 |].
  change (is_error (items_json (map profile_json profiles))) with false.
  change (truthy (items_json (map profile_json profiles))) with true.
  cbv iota.
  eapply runs_bind; [apply runs_lift |].
  eapply runs_bind; [apply dict_by_profiles |].
  eapply runs_bind; [exact Hrun3 |].
  change (is_error (items_json (map assignment_json assignments))) with false.
  cbv iota.
  eapply runs_bind; [reflexivity |]. cbv iota.
  eapply runs_bind; [apply runs_lift |].
  eapply runs_bind; [apply runs_lift |].
  eapply runs_bind; [| apply runs_ret ].
  apply comprehension_map. intros a. apply project_assignment_row_runs.
Qed.

Lemma project_list_profiles_runs (tr : list io_event) :
  exists s1,
    runs (Project.list_profiles w) s tr
      (PList (map (project_enriched networks assignments) profiles)) s1
      (tr ++ [get_profiles; sdk; get_profiles; get_assignments; sdk])
    /\ same_scope s s1.
Proof.
  pose proof served as (_ & _ & _ & Hp & _).
  pose proof (project_request_gets w s s tr _ _ (reflexivity s) Hp) as Hrun1.
  destruct (project_list_network_assignments_runs s (tr ++ [get_profiles])
              (reflexivity s)) as (s2 & Hrun2 & Hs2).
  destruct (project_networks_run s2
              ((tr ++ [get_profiles]) ++ [sdk; get_profiles; get_assignments]) Hs2)
    as (s3 & Hrun3 & Hs3).
  exists s3. split; [| exact Hs3 ].
  replace (tr ++ [get_profiles; sdk; get_profiles; get_assignments; sdk])
    with (((tr ++ [get_profiles]) ++ [sdk; get_profiles; get_assignments]) ++ [sdk])
    by (rewrite <- !app_assoc; reflexivity).
  unfold Project.list_profiles. apply runs_try.
  eapply runs_bind; [exact Hrun1 |].
  change (is_error (items_json (map profile_json profiles))) with false.
  cbv iota.
  eapply runs_bind; [reflexivity |]. cbn [negb].
  eapply runs_bind; [apply runs_lift |].
  eapply runs_bind; [apply runs_lift |].
  eapply runs_bind; [exact Hrun2 |]. cbn [is_error].
  replace (if negb (truthy (PList (map (project_assignment_view networks profiles)
                                     assignments)))
           then PList []
           else PList (map (project_assignment_view networks profiles) assignments))
    with (PList (map (project_assignment_view networks profiles) assignments))
    by (destruct assignments; reflexivity).
  eapply runs_bind; [exact Hrun3 |]. cbn [is_error].
  eapply (runs_bind _ _ _ _
            (names_by networkId (fun n => PStr (networkName n)) networks) s3 _).
  { rewrite truthy_PList_map. destruct networks as [|n l] eqn:E.
    - reflexivity.
    - rewrite <- E. apply dict_by_wrapper_views. }
  eapply runs_bind; [apply runs_lift |].
  eapply runs_bind.
  { apply (for_each_map _ (project_assignment_view networks profiles)).
    intros m a. apply project_note_assignment_runs. }
  eapply runs_bind; [apply runs_lift |].
  eapply runs_bind; [| apply runs_ret ].
  apply comprehension_map. intros p. apply project_profile_row_runs.
Qed.
End ProjectListings.

(** X25: when the wrapper holds a credential and a selected
    organization and the server and the SDK serve a profile list, an
    assignment list and a network list, [ProjectLogic.list_profiles]
    returns one row per profile, in order: a profile that no
    assignment names is shown as ["[unassigned]"], a profile named by
    an assignment gets the network id of that assignment and the name
    the network list gives to it.  [list_network_assignments] returns
    one row per assignment with both names resolved.  The wrapper is
    asked for the networks without its cache, so one call of
    [list_profiles] asks the server for the profiles twice and the SDK
    for the networks twice, in the order stated, and one call of
    [list_network_assignments] makes three calls. *)
Theorem project_enriched_listing (w : World) (networks : list network)
    (profiles : list profile) (assignments : list assignment)
    (s : MerakiAPIWrapper) (tr : list io_event) :
  project_serves w networks profiles assignments s ->
  let sdk := SdkGetOrganizationNetworks (default "" (get_organization_id s)) in
  let get_profiles := HttpCall (project_request w s "GET" "profiles" PNone) in
  let get_assignments :=
    HttpCall (project_request w s "GET" "profiles/assignments" PNone) in
  (exists s1,
     runs (Project.list_profiles w) s tr
       (PList (map (project_enriched networks assignments) profiles)) s1
       (tr ++ [get_profiles; sdk; get_profiles; get_assignments; sdk])
     /\ same_scope s s1)
  /\ (exists s1,
        runs (Project.list_network_assignments w) s tr
          (PList (map (project_assignment_view networks profiles) assignments)) s1
          (tr ++ [sdk; get_profiles; get_assignments])
        /\ same_scope s s1)
  /\ (forall p,
        (forall a, a ∈ assignments -> assignedProfile a <> profileId p) ->
        project_enriched networks assignments p
        = PDict [("profile id", PStr (profileId p)); ("name", PStr (profileName p));
                 ("network id", PStr "[unassigned]");
                 ("network name", PStr "[unassigned]")])
  /\ (forall p a,
        a ∈ assignments -> assignedProfile a = profileId p ->
        profileId p <> "" -> assignedNetwork a <> "" ->
        (forall a', a' ∈ assignments -> assignedProfile a' = profileId p ->
                    assignedNetwork a' = assignedNetwork a) ->
        project_enriched networks assignments p
        = PDict [("profile id", PStr (profileId p)); ("name", PStr (profileName p));
                 ("network id", PStr (assignedNetwork a));
                 ("network name", name_of_network networks (assignedNetwork a))]).
Proof.
  intros Hs. cbv zeta.
  split; [apply project_list_profiles_runs; exact Hs |].
  split; [apply project_list_network_assignments_runs;
          [exact Hs | reflexivity ] |].
  split.
  - intros p Hnone. unfold project_enriched, assignment_of.
    destruct (last_filter_cases
                (fun a => assignedProfile a = profileId p
                          /\ assignedProfile a <> "" /\ assignedNetwork a <> "")
                assignments) as [[-> _] | (x & _ & Hx & Hp & _)];
      [reflexivity | destruct (Hnone x Hx Hp) ].
  - intros p a Ha Hp Hpid Hnid Hsame. unfold project_enriched, assignment_of.
    destruct (last_filter_cases
                (fun a => assignedProfile a = profileId p
                          /\ assignedProfile a <> "" /\ assignedNetwork a <> "")
                assignments) as [[_ Hnone] | (x & -> & Hx & Hxp & _)].
    + exfalso. apply (Hnone a Ha). rewrite Hp. auto.
    + rewrite (Hsame x Hx Hxp). reflexivity.
Qed.

Lemma project_enriched_listing_witness :
  let s := set_organization_id (Some "org-1") None
             (init demo_world (Some "key") false) in
  exists s1,
    runs (Project.list_profiles demo_world) s []
      (PList [PDict [("profile id", PStr "p1"); ("name", PStr "Test");
                     ("network id", PStr "n1"); ("network name", PStr "Net1")]])
      s1
      [HttpCall (project_request demo_world s "GET" "profiles" PNone);
       SdkGetOrganizationNetworks "org-1";
       HttpCall (project_request demo_world s "GET" "profiles" PNone);
       HttpCall (project_request demo_world s "GET" "profiles/assignments" PNone);
       SdkGetOrganizationNetworks "org-1"].
Proof.
  intros s.
  assert (Hs : project_serves demo_world
                 [mkNetwork "n1" "Net1" "appliance" "UTC" ["hq"]]
                 [mkProfile "p1" "Test"] [mkAssignment "a1" "n1" "p1"] s).
  { split; [reflexivity |]. split; [reflexivity |].
    split; [intros tr; reflexivity |].
    split; [exists (mkResponse 200 "profiles") | exists (mkResponse 200 "assignments")];
      (split; [intros tr; reflexivity |]);
      (split; [simpl; lia |]); split; reflexivity. }
  destruct (project_enriched_listing demo_world _ _ _ s [] Hs)
    as ((s1 & Hrun & _) & _).
  exists s1. exact Hrun.
Defined.

(** * Further properties of the module-level listings *)

(** X26: [are_required_params_set] reports success exactly when a
    key and an organization id are both set and non-empty; otherwise
    the list it returns names exactly the parameters that are missing,
    the key first.  After a positive report [make_request] sends its
    request instead of returning "NoOrganizationSelected". *)
Theorem required_params_report (w : World) (g : LocalDns.Globals) :
  let '(ok, missing) := LocalDns.are_required_params_set g in
  (ok = true <-> str_truthy (LocalDns.API_KEY g) = true
                 /\ str_truthy (LocalDns.ORGANIZATION_ID g) = true)
  /\ (ok = true <-> missing = [])
  /\ (forall name,
        name ∈ missing <->
        (name = "API_KEY" /\ str_truthy (LocalDns.API_KEY g) = false)
        \/ (name = "ORGANIZATION_ID"
            /\ str_truthy (LocalDns.ORGANIZATION_ID g) = false))
  /\ missing `sublist_of` ["API_KEY"; "ORGANIZATION_ID"]
  /\ (ok = true ->
      forall method endpoint payload,
        sends_only (LocalDns.make_request w method endpoint payload)
          (local_request w g method endpoint payload) g).
Proof.
  unfold LocalDns.are_required_params_set.
  destruct (str_truthy (LocalDns.API_KEY g)) eqn:Hk,
           (str_truthy (LocalDns.ORGANIZATION_ID g)) eqn:Ho; cbn -[elem_of].
  all: split; [split; [intros H; try discriminate; auto
                      | intros [? ?]; try discriminate; auto ] |].
  all: split; [split; intros H; try discriminate; auto |].
  all: split;
    [intros name; rewrite ?elem_of_cons, ?elem_of_nil; split;
     [intros H; repeat destruct H as [H | H]; subst; auto; try contradiction
     | intros [[-> H] | [-> H]]; try discriminate; auto ] |].
  all: split;
    [repeat first [apply sublist_nil | apply sublist_skip | apply sublist_cons] |].
  all: intros H; try discriminate.
  intros. apply make_request_sends_only. exact Ho.
Qed.

(** X27: the module-level listings cache what the SDK returned, for
    the rest of the session.  The first [get_organizations] asks the
    SDK once and returns one row per organization, in order, an
    organization without the [api] object being shown with API access
    disabled; every later call returns the same rows without a call,
    whatever the SDK would answer by then.  [list_networks] does the
    same for the networks of the selected organization. *)
Theorem module_listings_are_cached (w : World) (g : LocalDns.Globals)
    (tr : list io_event) :
  (is_Some (LocalDns._dashboard g)
   \/ exists d, new_DashboardAPI w (LocalDns.API_KEY g) = Ok d) ->
  (forall organizations,
     LocalDns._organizations_cache g = None ->
     getOrganizations w tr = Ok (PList (map organization_json organizations)) ->
     let '(r, g1, tr1) := LocalDns.get_organizations w g tr in
     r = Ok (PList (map organization_view organizations))
     /\ tr1 = tr ++ [SdkGetOrganizations]
     /\ forall w2 tr2,
          LocalDns.get_organizations w2 g1 tr2
          = (Ok (PList (map organization_view organizations)), g1, tr2))
  /\ (forall oid networks,
        LocalDns.ORGANIZATION_ID g = Some oid -> oid <> "" ->
        LocalDns._networks_cache g !! oid = None ->
        getOrganizationNetworks w tr oid = Ok (PList (map network_json networks)) ->
        let '(r, g1, tr1) := LocalDns.list_networks w g tr in
        r = Ok (PList (map network_view networks))
        /\ tr1 = tr ++ [SdkGetOrganizationNetworks oid]
        /\ forall w2 tr2,
             LocalDns.list_networks w2 g1 tr2
             = (Ok (PList (map network_view networks)), g1, tr2)).
Proof.
  intros Hdash.
  destruct (_get_dashboard_runs w g tr Hdash) as (d & g1 & Hd & Hn & Ho & Hs1 & Hs2).
  assert (Horgs : forall {S} organizations (s : S) tr0,
            runs (comprehension LocalDns.organization_row
                    (map organization_json organizations))
              s tr0 (map organization_view organizations) s tr0).
  { intros S organizations s tr0. apply comprehension_map.
    intros [i n u [b|] [m|]]; reflexivity. }
  assert (Hnets : forall {S} networks (s : S) tr0,
            runs (comprehension LocalDns.network_row (map network_json networks))
              s tr0 (map network_view networks) s tr0).
  { intros S networks s tr0. apply comprehension_map. intros x.
    apply network_row_runs. }
  split.
  - intros organizations Hmiss Hok.
    set (listing := PList (map organization_json organizations)).
    set (g2 := LocalDns.assign_organizations_cache (Some listing) g1).
    assert (Hfirst : LocalDns._get_organizations w g tr
                     = (Ok listing, g2, tr ++ [SdkGetOrganizations])).
    { unfold LocalDns._get_organizations, bind at 1, get. rewrite Hmiss.
      unfold bind at 1. rewrite Hd.
      unfold try_except, bind, call, lift, modify, ret. rewrite Hok. reflexivity. }
    assert (Hlater : forall w2 tr2,
              LocalDns._get_organizations w2 g2 tr2 = (Ok listing, g2, tr2)).
    { intros w2 tr2. reflexivity. }
    assert (Hrows : forall w2 g0 tr0 tr',
              LocalDns._get_organizations w2 g0 tr0 = (Ok listing, g2, tr') ->
              LocalDns.get_organizations w2 g0 tr0
              = (Ok (PList (map organization_view organizations)), g2, tr')).
    { intros w2 g0 tr0 tr' Hc. unfold LocalDns.get_organizations, bind at 1.
      rewrite Hc. subst listing.
      cbn [is_error]. rewrite truthy_PList_map.
      destruct organizations as [|o l] eqn:E; [reflexivity |]. rewrite <- E.
      unfold bind, lift, ret. simpl.
      specialize (Horgs LocalDns.Globals organizations g2 tr').
      unfold runs, bind in Horgs. rewrite Horgs. reflexivity. }
    rewrite (Hrows w g tr _ Hfirst).
    split; [reflexivity |]. split; [reflexivity |].
    intros w2 tr2. apply Hrows. apply Hlater.
  - intros oid networks Horg Hne Hmiss Hok.
    set (listing := PList (map network_json networks)).
    set (g2 := LocalDns.assign_networks_cache
                 (<[oid := listing]> (LocalDns._networks_cache g1)) g1).
    assert (Horg2 : LocalDns.ORGANIZATION_ID g2 = Some oid).
    { subst g2. cbn [LocalDns.assign_networks_cache LocalDns.ORGANIZATION_ID].
      rewrite Hs1. exact Horg. }
    assert (Hfirst : LocalDns._get_networks w g tr
                     = (Ok listing, g2, tr ++ [SdkGetOrganizationNetworks oid])).
    { unfold LocalDns._get_networks, bind at 1, get. rewrite Horg.
      rewrite (str_truthy_Some oid Hne). cbn [negb].
      change (default "" (Some oid)) with oid. rewrite Hmiss.
      unfold bind at 1. rewrite Hd.
      unfold try_except, bind, call, lift, LocalDns.store_networks, modify, ret.
      rewrite Hok. reflexivity. }
    assert (Hlater : forall w2 tr2,
              LocalDns._get_networks w2 g2 tr2 = (Ok listing, g2, tr2)).
    { intros w2 tr2. unfold LocalDns._get_networks, bind, get. rewrite Horg2.
      rewrite (str_truthy_Some oid Hne). cbn [negb].
      change (default "" (Some oid)) with oid.
      subst g2. cbn [LocalDns.assign_networks_cache LocalDns._networks_cache].
      rewrite lookup_insert_eq. reflexivity. }
    assert (Hrows : forall w2 g0 tr0 tr',
              LocalDns._get_networks w2 g0 tr0 = (Ok listing, g2, tr') ->
              LocalDns.list_networks w2 g0 tr0
              = (Ok (PList (map network_view networks)), g2, tr')).
    { intros w2 g0 tr0 tr' Hc. unfold LocalDns.list_networks, bind at 1.
      rewrite Hc. subst listing.
      cbn [is_error]. rewrite truthy_PList_map.
      destruct networks as [|n l] eqn:E; [reflexivity |]. rewrite <- E.
      unfold bind, lift, ret. simpl.
      specialize (Hnets LocalDns.Globals networks g2 tr').
      unfold runs, bind in Hnets. rewrite Hnets. reflexivity. }
    rewrite (Hrows w g tr _ Hfirst).
    split; [reflexivity |]. split; [reflexivity |].
    intros w2 tr2. apply Hrows. apply Hlater.
Qed.

Lemma module_listings_are_cached_witness :
  let o := mkOrganization "1" "Acme" "https://example.org/o/1" None (Some "co-term") in
  let w := listing_sdk (PList [organization_json o]) in
  let g := LocalDns.set_api_key w (Some "key") (LocalDns.init w) in
  let g1 := (LocalDns.get_organizations w g []).1.2 in
  LocalDns.get_organizations offline g1 []
  = (Ok (PList [PDict [("ID", PStr "1"); ("Name", PStr "Acme");
                       ("URL", PStr "https://example.org/o/1");
                       ("API Enabled", PBool false);
                       ("Licensing Model", PStr "co-term")]]), g1, []).
Proof.
  intros o w g g1.
  destruct (module_listings_are_cached w g []
              ltac:(right; eexists; reflexivity)) as [H _].
  specialize (H [o] eq_refl eq_refl). subst g1.
  destruct (LocalDns.get_organizations w g []) as [[r g1] tr1].
  destruct H as (_ & _ & H). exact (H offline []).
Defined.
